(** * HOURFIX backend: booking lifecycle and slot consistency

    A shallow embedding of the request handlers of [server.js] that touch
    the [availability], [bookings], [reviews] and [businesses] tables, and
    the properties of the booking engine proved (or refuted) on them.

    Conventions of the embedding.
    - An SQLite table is the list of its rows in rowid order; [.get()] is
      the first row that satisfies the WHERE clause, [UPDATE ... WHERE] maps
      over the rows, [INSERT] appends a row whose id is one more than the
      largest id of the table (rows are never deleted by the server).
    - A JavaScript number and an SQLite REAL are IEEE-754 binary64 values
      ([float]); [toFixed] and [parseFloat] are given their ECMAScript
      meaning on them.
    - Node runs one handler at a time and every handler below is
      synchronous, so a handler is a function from the store to a new
      store and a reply.
    - [Math.random().toString(36)] and [new Date(...)] are inputs of the
      handlers that use them. *)

From Stdlib Require Import List String Ascii ZArith Bool Lia Floats.
Import ListNotations.

Set Warnings "-inexact-float".

Local Open Scope Z_scope.

(** ** JavaScript numbers *)

Module JS.

(** The binary64 value nearest to the rational [n / p] (ties to even), for
    [0 <= n] and [0 < p].  The quotient is computed with more than 64
    significant bits and a sticky bit, then rounded once. *)
Definition nearest_binary64 (n p : Z) : float :=
  match n with
  | Zpos _ =>
      let k := 64 + Z.log2 p in
      let q := (n * 2 ^ k) / p in
      let sticky := if (n * 2 ^ k) mod p =? 0 then 0 else 1 in
      SF2Prim (binary_normalize prec emax (2 * q + sticky) (- (k + 1)) false)
  | _ => 0%float
  end.

(** What [Number.prototype.toFixed] prints: a sign, and the integer [n]
    for which [n / 10^d] is closest to the absolute value of the number,
    the larger one when two are as close; or one of the two words.  From
    1e21 on [toFixed] prints the number in full instead; [parseFloat]
    reads either form back to the same value. *)
Inductive numeral : Type :=
| Dec (neg : bool) (n : Z) (d : nat)
| NaNLit
| InfinityLit (neg : bool).

Definition toFixed (x : float) (d : nat) : numeral :=
  match Prim2SF x with
  | S754_nan => NaNLit
  | S754_infinity s => InfinityLit s
  | S754_zero _ => Dec false 0 d
  | S754_finite s m e =>
      let p := 10 ^ Z.of_nat d in
      let n := if 0 <=? e
               then Zpos m * 2 ^ e * p
               else (2 * (Zpos m * p) + 2 ^ (- e)) / (2 * 2 ^ (- e)) in
      Dec s n d
  end.

(** [parseFloat] on the output of [toFixed]; the same conversion is what
    SQLite applies to such a text bound to a REAL column. *)
Definition parseFloat (s : numeral) : float :=
  match s with
  | NaNLit => nan
  | InfinityLit neg => if neg then neg_infinity else infinity
  | Dec neg n d =>
      let r := nearest_binary64 n (10 ^ Z.of_nat d) in
      if neg then (- r)%float else r
  end.

(** JavaScript truthiness of a number: [!x] holds for [0], [-0] and [NaN]. *)
Definition falsy (x : float) : bool :=
  PrimFloat.eqb x 0 || negb (PrimFloat.eqb x x).

(** [toUpperCase] on ASCII text. *)
Definition upper_ascii (c : ascii) : ascii :=
  let n := nat_of_ascii c in
  if ((97 <=? n) && (n <=? 122))%nat then ascii_of_nat (n - 32) else c.

Fixpoint toUpperCase (s : string) : string :=
  match s with
  | EmptyString => EmptyString
  | String c s' => String (upper_ascii c) (toUpperCase s')
  end.

(** [s.substr(start, len)]. *)
Definition substr (start len : nat) (s : string) : string :=
  substring start len s.

End JS.

(** ** The tables *)

Module Business.
Record t : Type := mk {
  id : Z;
  name : string;
  address : option string;
  phone : option string;
  zone : option string;
  rating : float;
  total_reviews : Z;
  commission_rate : float
}.
Definition set_rating (r : float) (n : Z) (b : t) : t :=
  mk (id b) (name b) (address b) (phone b) (zone b) r n (commission_rate b).
End Business.

Module Service.
Record t : Type := mk {
  id : Z;
  business_id : Z;
  name : string;
  duration_minutes : Z;
  price : float;
  active : Z
}.
End Service.

Module Availability.
Record t : Type := mk {
  id : Z;
  business_id : Z;
  date : string;
  time : string;
  status : string
}.
Definition set_status (s : string) (a : t) : t :=
  mk (id a) (business_id a) (date a) (time a) s.
End Availability.

Module Booking.
Record t : Type := mk {
  id : Z;
  client_id : Z;
  business_id : Z;
  service_id : Z;
  availability_id : Z;
  date : string;
  time : string;
  price : float;
  commission_amount : float;
  status : string;
  cancellation_charge : float;
  confirmation_code : string
}.
Definition set_status (s : string) (b : t) : t :=
  mk (id b) (client_id b) (business_id b) (service_id b) (availability_id b)
     (date b) (time b) (price b) (commission_amount b) s
     (cancellation_charge b) (confirmation_code b).
Definition set_cancelled (charge : float) (b : t) : t :=
  mk (id b) (client_id b) (business_id b) (service_id b) (availability_id b)
     (date b) (time b) (price b) (commission_amount b) "cancelled"
     charge (confirmation_code b).
End Booking.

Module Review.
Record t : Type := mk {
  id : Z;
  booking_id : Z;
  client_id : Z;
  business_id : Z;
  rating : float;
  comment : option string
}.
End Review.

Record DB : Type := mkDB {
  businesses : list Business.t;
  services : list Service.t;
  availability : list Availability.t;
  bookings : list Booking.t;
  reviews : list Review.t
}.

Definition with_availability (rows : list Availability.t) (db : DB) : DB :=
  mkDB (businesses db) (services db) rows (bookings db) (reviews db).
Definition with_bookings (rows : list Booking.t) (db : DB) : DB :=
  mkDB (businesses db) (services db) (availability db) rows (reviews db).
Definition with_reviews (rows : list Review.t) (db : DB) : DB :=
  mkDB (businesses db) (services db) (availability db) (bookings db) rows.
Definition with_businesses (rows : list Business.t) (db : DB) : DB :=
  mkDB rows (services db) (availability db) (bookings db) (reviews db).

(** *** SQL statements on a table *)

Section Table.
Context {A : Type}.

(** [SELECT ... WHERE p] read with [.get()]. *)
Definition get (p : A -> bool) (rows : list A) : option A := find p rows.

(** [UPDATE ... SET f WHERE p]. *)
Definition update (p : A -> bool) (f : A -> A) (rows : list A) : list A :=
  map (fun r => if p r then f r else r) rows.

(** The rowid an [INSERT] gives to the new row. *)
Definition lastInsertRowid (key : A -> Z) (rows : list A) : Z :=
  1 + fold_right (fun r m => Z.max (key r) m) 0 rows.

Definition insert (row : A) (rows : list A) : list A := rows ++ [row].
End Table.

(** ** Requests *)

Inductive subject_type : Type := client | business.

Definition subject_type_eqb (a b : subject_type) : bool :=
  match a, b with
  | client, client | business, business => true
  | _, _ => false
  end.

(** The verified token payload, [req.user]. *)
Module User.
Record t : Type := mk { id : Z; type : subject_type }.
End User.

(** The refusals of the handlers, named as the engine's error taxonomy
    names them; [http_status] is the status code the handler answers. *)
Inductive error : Type :=
| Forbidden
| NotFound
| SlotUnavailable
| ServiceNotFound
| AlreadyCancelled
| InvalidRating
| InvalidState
| DuplicateReview
| InternalError.

Definition http_status (e : error) : Z :=
  match e with
  | Forbidden => 403
  | NotFound => 404
  | SlotUnavailable => 409
  | ServiceNotFound => 404
  | AlreadyCancelled => 400
  | InvalidRating => 400
  | InvalidState => 400
  | DuplicateReview => 409
  | InternalError => 500
  end.

(** A handler either answers with a refusal, and has written nothing, or
    leaves a new store and a reply. *)
Inductive result (A : Type) : Type :=
| Done (db' : DB) (reply : A)
| Fail (e : error).
Arguments Done {A} db' reply.
Arguments Fail {A} e.

Definition db_after {A : Type} (db : DB) (r : result A) : DB :=
  match r with
  | Done db' _ => db'
  | Fail _ => db
  end.

Definition succeeded {A : Type} (r : result A) : bool :=
  match r with
  | Done _ _ => true
  | Fail _ => false
  end.

(** ** The handlers *)

Definition is_client (u : User.t) : bool := subject_type_eqb (User.type u) client.
Definition is_business (u : User.t) : bool := subject_type_eqb (User.type u) business.

(** *** POST /api/businesses/me/availability *)

(** One element of [req.body.slots]. *)
Module Slot.
Record t : Type := mk {
  date : string;
  time : string;
  status : option string
}.
End Slot.

(** [s.status || 'available']: an absent or empty status is 'available'. *)
Definition status_or_default (s : option string) : string :=
  match s with
  | Some EmptyString | None => "available"
  | Some st => st
  end.

Definition same_key (bid : Z) (d t : string) (a : Availability.t) : bool :=
  Z.eqb (Availability.business_id a) bid
  && String.eqb (Availability.date a) d
  && String.eqb (Availability.time a) t.

(** [INSERT INTO availability ... ON CONFLICT(business_id,date,time)
    DO UPDATE SET status=excluded.status WHERE status!='booked']. *)
Definition upsert (bid : Z) (d t st : string) (rows : list Availability.t)
  : list Availability.t :=
  if existsb (same_key bid d t) rows
  then update
         (fun a => same_key bid d t a
                   && negb (String.eqb (Availability.status a) "booked"))
         (Availability.set_status st) rows
  else insert
         (Availability.mk (lastInsertRowid Availability.id rows) bid d t st)
         rows.

(** [upsert.run(req.user.id, s.date, s.time, s.status || 'available')]. *)
Definition upsert_entry (u : User.t) (rows : list Availability.t)
    (s : Slot.t) : list Availability.t :=
  upsert (User.id u) (Slot.date s) (Slot.time s)
         (status_or_default (Slot.status s)) rows.

Definition upsert_many (u : User.t) (slots : list Slot.t) (db : DB)
  : result nat :=
  if negb (is_business u) then Fail Forbidden else
  Done (with_availability (fold_left (upsert_entry u) slots (availability db)) db)
       (List.length slots).

(** *** POST /api/bookings *)

(** [genCode], on the text that [Math.random().toString(36)] returned. *)
Definition genCode (random36 : string) : string :=
  "HF-" ++ JS.toUpperCase (JS.substr 2 6 random36).

Definition code_taken (code : string) (rows : list Booking.t) : bool :=
  match get (fun b => String.eqb (Booking.confirmation_code b) code) rows with
  | Some _ => true
  | None => false
  end.

(** [let code = genCode(); while (<code is taken>) code = genCode();]
    run on the successive random texts [draws]; [None] when the loop is
    still running after the last of them. *)
Fixpoint unused_code (rows : list Booking.t) (draws : list string)
  : option string :=
  match draws with
  | [] => None
  | r :: draws' =>
      let code := genCode r in
      if code_taken code rows then unused_code rows draws' else Some code
  end.

Record contact : Type := mkContact {
  contact_name : string;
  contact_address : option string;
  contact_phone : option string;
  contact_zone : option string
}.

Record booking_reply : Type := mkReply {
  reply_id : Z;
  reply_confirmation_code : string;
  reply_date : string;
  reply_time : string;
  reply_service : string;
  reply_price : float;
  reply_business : contact;
  reply_late_fee : JS.numeral
}.

Definition available_slot (bid : Z) (d t : string) (a : Availability.t) : bool :=
  same_key bid d t a && String.eqb (Availability.status a) "available".

Definition active_service (sid bid : Z) (s : Service.t) : bool :=
  Z.eqb (Service.id s) sid && Z.eqb (Service.business_id s) bid
  && Z.eqb (Service.active s) 1.

Definition create_booking (draws : list string) (u : User.t)
    (business_id service_id : Z) (date time : string) (db : DB)
  : option (result booking_reply) :=
  if negb (is_client u) then Some (Fail Forbidden) else
  match get (available_slot business_id date time) (availability db) with
  | None => Some (Fail SlotUnavailable)
  | Some slot =>
  match get (active_service service_id business_id) (services db) with
  | None => Some (Fail ServiceNotFound)
  | Some service =>
  match get (fun b => Z.eqb (Business.id b) business_id) (businesses db) with
  | None => Some (Fail InternalError)
  | Some biz =>
  let commission :=
    JS.parseFloat
      (JS.toFixed (Service.price service * Business.commission_rate biz)%float 2) in
  match unused_code (bookings db) draws with
  | None => None
  | Some code =>
  let bookingId := lastInsertRowid Booking.id (bookings db) in
  let row :=
    Booking.mk bookingId (User.id u) business_id service_id
               (Availability.id slot) date time (Service.price service)
               commission "pending" 0%float code in
  let db1 := with_bookings (insert row (bookings db)) db in
  let db2 :=
    with_availability
      (update (fun a => Z.eqb (Availability.id a) (Availability.id slot))
              (Availability.set_status "booked") (availability db1)) db1 in
  Some (Done db2
          (mkReply bookingId code date time (Service.name service)
                   (Service.price service)
                   (mkContact (Business.name biz) (Business.address biz)
                              (Business.phone biz) (Business.zone biz))
                   (JS.toFixed (Service.price service * 0.5)%float 2)))
  end end end end.

(** *** PUT /api/bookings/:id/confirm *)

Definition owned_by_business (id : Z) (u : User.t) (b : Booking.t) : bool :=
  Z.eqb (Booking.id b) id && Z.eqb (Booking.business_id b) (User.id u).

Definition owned_by_client (id : Z) (u : User.t) (b : Booking.t) : bool :=
  Z.eqb (Booking.id b) id && Z.eqb (Booking.client_id b) (User.id u).

Definition has_id (id : Z) (b : Booking.t) : bool := Z.eqb (Booking.id b) id.

Definition confirm (u : User.t) (id : Z) (db : DB) : result unit :=
  if negb (is_business u) then Fail Forbidden else
  match get (owned_by_business id u) (bookings db) with
  | None => Fail NotFound
  | Some _ =>
      Done (with_bookings
              (update (has_id id) (Booking.set_status "confirmed") (bookings db))
              db) tt
  end.

(** *** PUT /api/bookings/:id/reject *)

Definition release (slot_id : Z) (rows : list Availability.t)
  : list Availability.t :=
  update (fun a => Z.eqb (Availability.id a) slot_id)
         (Availability.set_status "available") rows.

Definition reject (u : User.t) (id : Z) (db : DB) : result unit :=
  if negb (is_business u) then Fail Forbidden else
  match get (owned_by_business id u) (bookings db) with
  | None => Fail NotFound
  | Some booking =>
      let db1 :=
        with_availability
          (release (Booking.availability_id booking) (availability db)) db in
      Done (with_bookings
              (update (has_id id) (Booking.set_status "cancelled") (bookings db1))
              db1) tt
  end.

(** *** PUT /api/bookings/:id/cancel *)

Section Clock.

(** [new Date(text).getTime()]: milliseconds since the epoch, NaN for a
    text that is not a date. *)
Variable Date_parse : string -> float.

Definition hoursLeft (now : float) (booking : Booking.t) : float :=
  ((Date_parse (Booking.date booking ++ "T" ++ Booking.time booking) - now)
   / 3600000)%float.

Definition cancellation_charge_for (now : float) (booking : Booking.t) : float :=
  if PrimFloat.ltb (hoursLeft now booking) 24
  then JS.parseFloat (JS.toFixed (Booking.price booking * 0.5)%float 2)
  else 0%float.

(** [now] is the value of [new Date()] when the handler runs. *)
Definition cancel (now : float) (u : User.t) (id : Z) (db : DB) : result float :=
  if negb (is_client u) then Fail Forbidden else
  match get (owned_by_client id u) (bookings db) with
  | None => Fail NotFound
  | Some booking =>
      if String.eqb (Booking.status booking) "cancelled"
      then Fail AlreadyCancelled
      else
        let charge := cancellation_charge_for now booking in
        let db1 :=
          with_bookings
            (update (has_id id) (Booking.set_cancelled charge) (bookings db))
            db in
        let db2 :=
          if PrimFloat.eqb charge 0
          then with_availability
                 (release (Booking.availability_id booking) (availability db1))
                 db1
          else db1 in
        Done db2 charge
  end.

End Clock.

(** *** POST /api/bookings/:id/review *)

(** [!rating || rating < 1 || rating > 5]; [None] is a body without a
    rating. *)
Definition rating_refused (rating : option float) : bool :=
  match rating with
  | None => true
  | Some r => JS.falsy r || PrimFloat.ltb r 1 || PrimFloat.ltb 5 r
  end.

(** [SELECT AVG(rating), COUNT( * ) FROM reviews WHERE business_id=?]. *)
Definition reviews_of (bid : Z) (rows : list Review.t) : list Review.t :=
  filter (fun r => Z.eqb (Review.business_id r) bid) rows.

Definition COUNT (rows : list Review.t) : Z := Z.of_nat (List.length rows).

(** The ratings are added in rowid order, in binary64. *)
Definition SUM (rows : list Review.t) : float :=
  fold_left (fun acc r => (acc + Review.rating r)%float) rows 0%float.

Definition AVG (rows : list Review.t) : float :=
  (SUM rows / JS.nearest_binary64 (COUNT rows) 1)%float.

Definition recompute (bid : Z) (db : DB) : DB :=
  let rows := reviews_of bid (reviews db) in
  with_businesses
    (update (fun b => Z.eqb (Business.id b) bid)
            (Business.set_rating (JS.parseFloat (JS.toFixed (AVG rows) 1))
                                 (COUNT rows))
            (businesses db)) db.

Definition attach_review (u : User.t) (id : Z) (rating : option float)
    (comment : option string) (db : DB) : result unit :=
  if negb (is_client u) then Fail Forbidden else
  match rating with
  | None => Fail InvalidRating
  | Some r =>
  if rating_refused (Some r) then Fail InvalidRating else
  match get (owned_by_client id u) (bookings db) with
  | None => Fail InvalidState
  | Some booking =>
  if negb (String.eqb (Booking.status booking) "completed")
  then Fail InvalidState else
  match get (fun rv => Z.eqb (Review.booking_id rv) id) (reviews db) with
  | Some _ => Fail DuplicateReview
  | None =>
  let row :=
    Review.mk (lastInsertRowid Review.id (reviews db)) id (User.id u)
              (Booking.business_id booking) r comment in
  let db1 := with_reviews (insert row (reviews db)) db in
  Done (recompute (Booking.business_id booking) db1) tt
  end end end.


(** ** Vocabulary of the properties *)

(** A booking that still holds its slot: any status but 'cancelled'. *)
Definition live (b : Booking.t) : bool :=
  negb (String.eqb (Booking.status b) "cancelled").

(** The live bookings that reference the slot [slot_id]. *)
Definition holders (slot_id : Z) (rows : list Booking.t) : list Booking.t :=
  filter (fun b => live b && Z.eqb (Booking.availability_id b) slot_id) rows.

(** The status of the slot [slot_id], when the table has it. *)
Definition slot_status (slot_id : Z) (rows : list Availability.t)
  : option string :=
  option_map Availability.status
    (get (fun a => Z.eqb (Availability.id a) slot_id) rows).

Definition codes (rows : list Booking.t) : list string :=
  map Booking.confirmation_code rows.

Definition is_digit (c : ascii) : bool :=
  let n := nat_of_ascii c in ((48 <=? n) && (n <=? 57))%nat.

Definition is_lower (c : ascii) : bool :=
  let n := nat_of_ascii c in ((97 <=? n) && (n <=? 122))%nat.

Definition is_upper (c : ascii) : bool :=
  let n := nat_of_ascii c in ((65 <=? n) && (n <=? 90))%nat.

Definition upper_alnum (c : ascii) : bool := is_digit c || is_upper c.

Fixpoint all_chars (p : ascii -> bool) (s : string) : bool :=
  match s with
  | EmptyString => true
  | String c s' => p c && all_chars p s'
  end.

(** The texts [x.toString(36)] returns for [0 <= x < 1]: "0", or "0."
    followed by digits of radix 36. *)
Definition base36_fraction (s : string) : bool :=
  match s with
  | String "0" EmptyString => true
  | String "0" (String "." ds) =>
      all_chars (fun c => is_digit c || is_lower c) ds
  | _ => false
  end.

(** The table's UNIQUE(business_id, date, time) constraint. *)
Definition unique_keys (rows : list Availability.t) : Prop :=
  forall a a',
    In a rows -> In a' rows ->
    same_key (Availability.business_id a) (Availability.date a)
             (Availability.time a) a' = true ->
    a = a'.

(** *** The store as a server of requests *)

Inductive request : Type :=
| Upsert (u : User.t) (slots : list Slot.t)
| Create (draws : list string) (u : User.t) (business_id service_id : Z)
         (date time : string)
| Confirm (u : User.t) (id : Z)
| Reject (u : User.t) (id : Z)
| Cancel (now : float) (u : User.t) (id : Z)
| AttachReview (u : User.t) (id : Z) (rating : option float)
               (comment : option string).

(** The store after a request; a request whose code loop does not end
    writes nothing. *)
Definition handle (Date_parse : string -> float) (req : request) (db : DB)
  : DB :=
  match req with
  | Upsert u slots => db_after db (upsert_many u slots db)
  | Create draws u bid sid d t =>
      match create_booking draws u bid sid d t db with
      | Some r => db_after db r
      | None => db
      end
  | Confirm u id => db_after db (confirm u id db)
  | Reject u id => db_after db (reject u id db)
  | Cancel now u id => db_after db (cancel Date_parse now u id db)
  | AttachReview u id rating comment =>
      db_after db (attach_review u id rating comment db)
  end.

(** A confirm or a reject is on a live booking when the booking it finds
    is not cancelled; the handlers do not check it. *)
Definition on_live_booking (req : request) (db : DB) : Prop :=
  match req with
  | Confirm u id | Reject u id =>
      forall b, get (owned_by_business id u) (bookings db) = Some b ->
                live b = true
  | _ => True
  end.

(** Slots and bookings agree: ids are not repeated, the slot of a live
    booking is 'booked', and no two live bookings share a slot. *)
Record consistent (db : DB) : Prop := mkConsistent {
  slot_ids : NoDup (map Availability.id (availability db));
  booking_ids : NoDup (map Booking.id (bookings db));
  held : forall b,
      In b (bookings db) -> live b = true ->
      slot_status (Booking.availability_id b) (availability db)
      = Some "booked"%string;
  single : forall b b',
      In b (bookings db) -> In b' (bookings db) ->
      live b = true -> live b' = true ->
      Booking.availability_id b = Booking.availability_id b' ->
      b = b'
}.

Fixpoint run (Date_parse : string -> float) (reqs : list request) (db : DB)
  : DB :=
  match reqs with
  | [] => db
  | req :: reqs' => run Date_parse reqs' (handle Date_parse req db)
  end.

Fixpoint all_on_live (Date_parse : string -> float) (reqs : list request)
    (db : DB) : Prop :=
  match reqs with
  | [] => True
  | req :: reqs' =>
      on_live_booking req db
      /\ all_on_live Date_parse reqs' (handle Date_parse req db)
  end.

(** ** A small marketplace

    One business with three services, its owner and three clients, used
    to run the handlers on concrete requests. *)

Module Sample.

Definition salon : Business.t :=
  Business.mk 1 "Salon Sol" (Some "Calle Mayor 1"%string) (Some "600100200"%string)
              (Some "Centro"%string) 0%float 0 0.15%float.

Definition haircut : Service.t := Service.mk 1 1 "Corte" 30 40%float 1.
Definition sample : Service.t := Service.mk 2 1 "Muestra" 5 0.005%float 1.
Definition tester : Service.t := Service.mk 3 1 "Prueba" 5 0.009%float 1.

Definition owner : User.t := User.mk 1 business.
Definition ana : User.t := User.mk 7 client.
Definition luis : User.t := User.mk 8 client.
Definition eva : User.t := User.mk 9 client.

Definition day : string := "2030-01-01".
Definition hour : string := "10:00".

(** 2030-01-01T10:00 as milliseconds since the epoch. *)
Definition appointment : float := 1893492000000%float.

Definition Date_parse (text : string) : float :=
  if String.eqb text "2030-01-01T10:00" then appointment else nan.

(** The clock 24 hours, 23 hours 59 minutes and one hour before the
    appointment, and one hour after it. *)
Definition at_24h00 : float := 1893405600000%float.
Definition at_23h59 : float := 1893405660000%float.
Definition at_1h00 : float := 1893488400000%float.
Definition an_hour_late : float := 1893495600000%float.

Definition empty : DB := mkDB [salon] [haircut; sample; tester] [] [] [].

(** The store a handler leaves, whatever it answered. *)
Definition after (db : DB) (r : option (result booking_reply)) : DB :=
  match r with
  | Some r => db_after db r
  | None => db
  end.

(** The owner publishes one slot. *)
Definition published : DB :=
  db_after empty (upsert_many owner [Slot.mk day hour None] empty).

(** Ana books the haircut in it. *)
Definition booked : DB :=
  after published
        (create_booking ["0.4fzyo82mvyr"%string] ana 1 1 day hour published).

Definition ana_booking : Booking.t :=
  Booking.mk 1 7 1 1 1 day hour 40%float 6%float "pending" 0%float "HF-4FZYO8".

(** The owner rejects Ana's booking, Luis books the released slot, the
    owner rejects Ana's booking once more, and Eva books the slot too. *)
Definition rejected : DB := db_after booked (reject owner 1 booked).
Definition rebooked : DB :=
  after rejected
        (create_booking ["0.k3x9q1w7abc"%string] luis 1 1 day hour rejected).
Definition rejected_again : DB := db_after rebooked (reject owner 1 rebooked).
Definition booked_twice : DB :=
  after rejected_again
        (create_booking ["0.z8m2p5r0xyz"%string] eva 1 1 day hour rejected_again).

Definition six_requests : list request :=
  [Upsert owner [Slot.mk day hour None];
   Create ["0.4fzyo82mvyr"%string] ana 1 1 day hour;
   Reject owner 1;
   Create ["0.k3x9q1w7abc"%string] luis 1 1 day hour;
   Reject owner 1;
   Create ["0.z8m2p5r0xyz"%string] eva 1 1 day hour].

(** Ana books the two cheap services instead. *)
Definition booked_sample : DB :=
  after published
        (create_booking ["0.4fzyo82mvyr"%string] ana 1 2 day hour published).
Definition booked_tester : DB :=
  after published
        (create_booking ["0.4fzyo82mvyr"%string] ana 1 3 day hour published).

(** An outside process marks Ana's haircut as done. *)
Definition completed : DB :=
  with_bookings
    (update (has_id 1) (Booking.set_status "completed") (bookings booked))
    booked.

(** A second slot an hour later, booked by Luis and done as well. *)
Definition two_completed : DB :=
  let db1 :=
    db_after completed
             (upsert_many owner [Slot.mk day "11:00" (Some "available"%string)]
                          completed) in
  let db2 :=
    after db1 (create_booking ["0.k3x9q1w7abc"%string] luis 1 1 day "11:00" db1) in
  with_bookings
    (update (has_id 2) (Booking.set_status "completed") (bookings db2)) db2.

(** Ana rates her haircut 5, then Luis rates his 3. *)
Definition reviewed_once : DB :=
  db_after two_completed
           (attach_review ana 1 (Some 5%float) None two_completed).
Definition reviewed_twice : DB :=
  db_after reviewed_once
           (attach_review luis 2 (Some 3%float) None reviewed_once).

End Sample.

(** ** Vocabulary of the further properties *)

(** The booking a confirm, reject or cancel request names. *)
Definition named_booking (req : request) : option Z :=
  match req with
  | Confirm _ id | Reject _ id | Cancel _ _ id => Some id
  | _ => None
  end.

(** Two states of a booking row that differ at most in status and
    cancellation charge. *)
Definition same_booking (b b' : Booking.t) : Prop :=
  Booking.id b' = Booking.id b
  /\ Booking.client_id b' = Booking.client_id b
  /\ Booking.business_id b' = Booking.business_id b
  /\ Booking.service_id b' = Booking.service_id b
  /\ Booking.availability_id b' = Booking.availability_id b
  /\ Booking.date b' = Booking.date b
  /\ Booking.time b' = Booking.time b
  /\ Booking.price b' = Booking.price b
  /\ Booking.commission_amount b' = Booking.commission_amount b
  /\ Booking.confirmation_code b' = Booking.confirmation_code b.

(** The ratings the review guard lets through. *)
Definition rating_in_range (r : float) : bool :=
  PrimFloat.leb 1 r && PrimFloat.leb r 5.

(** ** The catalog of a business

    Handlers outside the booking engine answer with their HTTP status
    code: [Sent] carries the store they leave, [Rejected] has written
    nothing.  The store is the whole database for the catalog and the
    clients table for the accounts. *)

Inductive outcome (S A : Type) : Type :=
| Sent (store : S) (code : Z) (body : A)
| Rejected (code : Z).
Arguments Sent {S A} store code body.
Arguments Rejected {S A} code.

Definition store_after {S A : Type} (s : S) (r : outcome S A) : S :=
  match r with
  | Sent s' _ _ => s'
  | Rejected _ => s
  end.

Definition with_services (rows : list Service.t) (db : DB) : DB :=
  mkDB (businesses db) rows (availability db) (bookings db) (reviews db).

(** [COALESCE(?, column)]: a parameter bound to NULL keeps the column. *)
Definition COALESCE {A : Type} (given : option A) (stored : A) : A :=
  match given with
  | Some v => v
  | None => stored
  end.

(** *** GET /api/businesses/me/services *)

Definition list_services (u : User.t) (db : DB) : outcome DB (list Service.t) :=
  if negb (is_business u) then Rejected 403 else
  Sent db 200
       (filter (fun s => Z.eqb (Service.business_id s) (User.id u))
               (services db)).

(** *** POST /api/businesses/me/services *)

(** [!name || !duration_minutes || !price] on the fields of the body;
    [None] is a field the body does not have. *)
Definition service_fields_missing (name : option string)
    (duration_minutes : option Z) (price : option float) : bool :=
  match name, duration_minutes, price with
  | Some n, Some d, Some p => String.eqb n EmptyString || Z.eqb d 0 || JS.falsy p
  | _, _, _ => true
  end.

Definition create_service (u : User.t) (name : option string)
    (duration_minutes : option Z) (price : option float) (db : DB)
  : outcome DB Service.t :=
  if negb (is_business u) then Rejected 403 else
  match name, duration_minutes, price with
  | Some n, Some d, Some p =>
      if service_fields_missing name duration_minutes price
      then Rejected 400
      else
        let row :=
          Service.mk (lastInsertRowid Service.id (services db)) (User.id u)
                     n d p 1 in
        Sent (with_services (insert row (services db)) db) 201 row
  | _, _, _ => Rejected 400
  end.

(** *** PUT /api/businesses/me/services/:id *)

Definition own_service (id : Z) (u : User.t) (s : Service.t) : bool :=
  Z.eqb (Service.id s) id && Z.eqb (Service.business_id s) (User.id u).

Definition edit_service (name : option string) (duration_minutes : option Z)
    (price : option float) (active : option Z) (s : Service.t) : Service.t :=
  Service.mk (Service.id s) (Service.business_id s)
             (COALESCE name (Service.name s))
             (COALESCE duration_minutes (Service.duration_minutes s))
             (COALESCE price (Service.price s))
             (COALESCE active (Service.active s)).

(** The handler answers 'Servicio actualizado' whether or not a row
    matched. *)
Definition update_service (u : User.t) (id : Z) (name : option string)
    (duration_minutes : option Z) (price : option float) (active : option Z)
    (db : DB) : outcome DB unit :=
  if negb (is_business u) then Rejected 403 else
  Sent (with_services
          (update (own_service id u)
                  (edit_service name duration_minutes price active)
                  (services db)) db)
       200 tt.

(** ** Browsing *)

(** [ORDER BY] with the order [le]: rows are put in place one by one, so
    rows that [le] does not tell apart stay in table order (SQLite
    promises no order among them). *)
Section OrderBy.
Context {A : Type}.
Variable le : A -> A -> bool.

Fixpoint put_in_order (x : A) (l : list A) : list A :=
  match l with
  | [] => [x]
  | y :: l' => if le x y then x :: l else y :: put_in_order x l'
  end.

Definition ORDER_BY (l : list A) : list A := fold_right put_in_order [] l.

(** Each row is followed by a row that [le] puts after it. *)
Fixpoint in_order (l : list A) : Prop :=
  match l with
  | x :: (y :: _) as l' => le x y = true /\ in_order l'
  | _ => True
  end.

End OrderBy.

(** [MIN(price)] over the joined rows; NULL when there is none. *)
Definition MIN (prices : list float) : option float :=
  fold_left
    (fun m p =>
       match m with
       | None => Some p
       | Some x => Some (if PrimFloat.ltb p x then p else x)
       end)
    prices None.

(** A query parameter that was given: [if (category)], [if (date && time)]. *)
Definition given (param : option string) : option string :=
  match param with
  | Some (String c s) => Some (String c s)
  | _ => None
  end.

Section Browse.

(** The category column of a business row, which the booking engine
    never reads. *)
Variable category : Business.t -> string.

(** The columns of a business that browsing shows: neither address nor
    phone. *)
Record listing : Type := mkListing {
  listing_id : Z;
  listing_name : string;
  listing_category : string;
  listing_zone : option string;
  listing_rating : float;
  listing_total_reviews : Z;
  listing_min_price : option float
}.

Definition active_prices (bid : Z) (rows : list Service.t) : list float :=
  map Service.price
      (filter (fun s => Z.eqb (Service.business_id s) bid
                        && Z.eqb (Service.active s) 1) rows).

Definition listing_of (db : DB) (b : Business.t) : listing :=
  mkListing (Business.id b) (Business.name b) (category b) (Business.zone b)
            (Business.rating b) (Business.total_reviews b)
            (MIN (active_prices (Business.id b) (services db))).

Definition matches (cat date time : option string) (db : DB) (b : Business.t)
  : bool :=
  match given cat with
  | Some c => String.eqb (category b) c
  | None => true
  end
  && match given date, given time with
     | Some d, Some t =>
         existsb (available_slot (Business.id b) d t) (availability db)
     | _, _ => true
     end.

Definition by_rating_desc (x y : listing) : bool :=
  PrimFloat.leb (listing_rating y) (listing_rating x).

(** *** GET /api/businesses *)
Definition search_businesses (cat date time : option string) (db : DB)
  : list listing :=
  ORDER_BY by_rating_desc
           (map (listing_of db) (filter (matches cat date time db) (businesses db))).

(** *** GET /api/businesses/:id *)

Record shop_window : Type := mkWindow {
  window_business : listing;
  window_services : list (Z * string * Z * float);
  available_slots : list (string * string)
}.

Definition bookable (today : string) (id : Z) (a : Availability.t) : bool :=
  Z.eqb (Availability.business_id a) id
  && String.eqb (Availability.status a) "available"
  && String.leb today (Availability.date a).

Definition by_date_time (x y : string * string) : bool :=
  match String.compare (fst x) (fst y) with
  | Lt => true
  | Eq => String.leb (snd x) (snd y)
  | Gt => false
  end.

(** [today] is the text of [date('now')].  The business columns are those
    of a listing without the price. *)
Definition business_detail (today : string) (id : Z) (db : DB)
  : outcome DB shop_window :=
  match get (fun b => Z.eqb (Business.id b) id) (businesses db) with
  | None => Rejected 404
  | Some biz =>
      Sent db 200
           (mkWindow
              (mkListing (Business.id biz) (Business.name biz) (category biz)
                         (Business.zone biz) (Business.rating biz)
                         (Business.total_reviews biz) None)
              (map (fun s => (Service.id s, Service.name s,
                              Service.duration_minutes s, Service.price s))
                   (filter (fun s => Z.eqb (Service.business_id s) id
                                     && Z.eqb (Service.active s) 1)
                           (services db)))
              (ORDER_BY by_date_time
                 (map (fun a => (Availability.date a, Availability.time a))
                      (filter (bookable today id) (availability db)))))
  end.

End Browse.

(** ** Tokens and the accounts of clients *)

(** [s.split(sep)] for a separator of one character. *)
Fixpoint split (sep : ascii) (s : string) : list string :=
  match s with
  | EmptyString => [EmptyString]
  | String c s' =>
      if Ascii.eqb c sep then EmptyString :: split sep s'
      else match split sep s' with
           | [] => [String c EmptyString]
           | w :: ws => String c w :: ws
           end
  end.

Definition no_space (s : string) : bool :=
  all_chars (fun c => negb (Ascii.eqb c " ")) s.

Module Client.
Record t : Type := mk {
  id : Z;
  name : string;
  email : string;
  password : string;
  phone : option string
}.
End Client.

Section Accounts.

(** [jwt.verify(token, JWT_SECRET)]: the payload, or [None] when it
    throws. *)
Variable verify : string -> option User.t.

(** [jwt.sign({ id, type, name }, JWT_SECRET, { expiresIn: '30d' })] at
    the time [iat]. *)
Variable sign : Z -> Z -> subject_type -> string -> string.

(** [bcrypt.hashSync(password, 10)] with the salt it drew, and
    [bcrypt.compareSync(password, hash)]. *)
Variable hashSync : string -> string -> string.
Variable compareSync : string -> string -> bool.

(** [req.headers['authorization']?.split(' ')[1]]. *)
Definition token_of (header : option string) : option string :=
  match header with
  | Some h => nth_error (split " " h) 1
  | None => None
  end.

(** The middleware [auth]: the user the handler runs for, or the status
    code it answers instead. *)
Definition auth (header : option string) : User.t + Z :=
  match given (token_of header) with
  | None => inr 401
  | Some token =>
      match verify token with
      | Some user => inl user
      | None => inr 403
      end
  end.

Definition by_email (email : string) (c : Client.t) : bool :=
  String.eqb (Client.email c) email.

(** *** POST /api/auth/client/register

    The body of the answer is the token and the id of the new client. *)
Definition register_client (salt : string) (iat : Z)
    (name email password phone : option string) (clients : list Client.t)
  : outcome (list Client.t) (string * Z) :=
  match given name, given email, given password with
  | Some n, Some e, Some p =>
      match get (by_email e) clients with
      | Some _ => Rejected 409
      | None =>
          let id := lastInsertRowid Client.id clients in
          Sent (insert (Client.mk id n e (hashSync salt p) phone) clients)
               201 (sign iat id client n, id)
      end
  | _, _, _ => Rejected 400
  end.

(** *** POST /api/auth/client/login

    [compareSync] throws on a password that is not a text, which the
    server answers with 500. *)
Definition login_client (iat : Z) (email password : option string)
    (clients : list Client.t) : outcome (list Client.t) (string * Z) :=
  match email with
  | None => Rejected 401
  | Some e =>
      match get (by_email e) clients with
      | None => Rejected 401
      | Some c =>
          match password with
          | None => Rejected 500
          | Some p =>
              if compareSync p (Client.password c)
              then Sent clients 200
                        (sign iat (Client.id c) client (Client.name c),
                         Client.id c)
              else Rejected 401
          end
      end
  end.

End Accounts.

(** ** The figures of a business *)

Section Stats.

(** [strftime('%Y-%m', date)]: NULL for a text that is no date. *)
Variable strftime_Ym : string -> option string.

Record figures : Type := mkFigures {
  total : Z;
  confirmed : option Z;
  cancelled : option Z;
  pending : option Z;
  gross_revenue : option float;
  commissions : option float;
  net_revenue : float
}.

Definition has_quote (s : string) : bool :=
  negb (all_chars (fun c => negb (Ascii.eqb c "'")) s).

(** [AND strftime('%Y-%m', date) = '<month>'], added when a month is
    given. *)
Definition in_month (month : option string) (b : Booking.t) : bool :=
  match given month with
  | None => true
  | Some m =>
      match strftime_Ym (Booking.date b) with
      | Some ym => String.eqb ym m
      | None => false
      end
  end.

(** [SUM(CASE WHEN p THEN 1 ELSE 0 END)]: NULL over no row. *)
Definition SUM_CASE (p : Booking.t -> bool) (rows : list Booking.t)
  : option Z :=
  match rows with
  | [] => None
  | _ => Some (Z.of_nat (List.length (filter p rows)))
  end.

(** [SUM(CASE WHEN status != 'cancelled' THEN amount ELSE 0 END)], added
    in rowid order. *)
Definition SUM_live (amount : Booking.t -> float) (rows : list Booking.t)
  : option float :=
  match rows with
  | [] => None
  | _ =>
      Some (fold_left
              (fun acc b => (acc + (if live b then amount b else 0))%float)
              rows 0%float)
  end.

(** [x || 0]. *)
Definition or_zero (x : option float) : float :=
  match x with
  | Some v => if JS.falsy v then 0%float else v
  | None => 0%float
  end.

Definition has_status (s : string) (b : Booking.t) : bool :=
  String.eqb (Booking.status b) s.

(** *** GET /api/businesses/me/stats

    The month is pasted into the SQL text between quotes; a month with a
    quote character in it makes another statement, which is left out:
    [None]. *)
Definition business_stats (u : User.t) (month : option string) (db : DB)
  : option (outcome DB figures) :=
  if negb (is_business u) then Some (Rejected 403) else
  if match given month with Some m => has_quote m | None => false end
  then None
  else
    let rows :=
      filter (fun b => Z.eqb (Booking.business_id b) (User.id u)
                       && in_month month b)
             (bookings db) in
    let gross := SUM_live Booking.price rows in
    let fees := SUM_live Booking.commission_amount rows in
    Some (Sent db 200
            (mkFigures
               (Z.of_nat (List.length rows))
               (SUM_CASE (fun b => has_status "confirmed" b
                                   || has_status "completed" b) rows)
               (SUM_CASE (has_status "cancelled") rows)
               (SUM_CASE (has_status "pending") rows)
               gross fees
               (or_zero gross - or_zero fees)%float)).

End Stats.

(** ** More of the small marketplace *)

Module Demo.

(** A second business, with one service, and its owner. *)
Definition studio : Business.t :=
  Business.mk 2 "Estudio Luna" None None (Some "Norte"%string) 4.5%float 2
              0.15%float.
Definition massage : Service.t := Service.mk 4 2 "Masaje" 60 55%float 1.
Definition rival : User.t := User.mk 2 business.

Definition luis_booking : Booking.t :=
  Booking.mk 2 8 1 1 2 Sample.day "11:00" 40%float 6%float "completed" 0%float
             "HF-K3X9Q1".

(** The two businesses side by side, with the slot of [Sample.published]
    and a slot of the studio at the same date and time. *)
Definition town : DB :=
  mkDB [Sample.salon; studio]
       [Sample.haircut; Sample.sample; Sample.tester; massage]
       [Availability.mk 1 1 Sample.day Sample.hour "available";
        Availability.mk 2 2 Sample.day Sample.hour "available";
        Availability.mk 3 1 "2029-12-31" "09:00" "available"]
       [] [].

Definition town_booked : DB :=
  Sample.after town
    (create_booking ["0.4fzyo82mvyr"%string] Sample.ana 1 1 Sample.day
                    Sample.hour town).

Definition category (b : Business.t) : string :=
  if Z.eqb (Business.id b) 1 then "peluqueria" else "bienestar".

Definition strftime_Ym (date : string) : option string :=
  Some (substring 0 7 date).

(** Stand-ins for bcryptjs and jsonwebtoken: a hash that is the password
    itself, and a token that spells the id. *)
Definition hashSync (salt password : string) : string := password.
Definition compareSync (password hash : string) : bool :=
  String.eqb hash password.
Definition sign (iat id : Z) (type : subject_type) (name : string) : string :=
  if Z.eqb id 1 then "client.1" else "client.x".
Definition verify (token : string) : option User.t :=
  if String.eqb token "client.1" then Some (User.mk 1 client) else None.

Definition maria : Client.t :=
  Client.mk 1 "Maria" "maria@example.org" "secreto" None.

Definition contact_of_salon : contact :=
  mkContact "Salon Sol" (Some "Calle Mayor 1"%string)
            (Some "600100200"%string) (Some "Centro"%string).

(** The answers to Ana's and to Luis's booking of the haircut. *)
Definition ana_reply : booking_reply :=
  mkReply 1 "HF-4FZYO8" Sample.day Sample.hour "Corte" 40%float
          contact_of_salon (JS.Dec false 2000 2).
Definition luis_reply : booking_reply :=
  mkReply 2 "HF-K3X9Q1" Sample.day Sample.hour "Corte" 40%float
          contact_of_salon (JS.Dec false 2000 2).

Definition slot_at_ten : Availability.t :=
  Availability.mk 1 1 Sample.day Sample.hour "available".

End Demo.
(** ** The number model on a few values *)

Example toFixed_6 : JS.parseFloat (JS.toFixed (40 * 0.15)%float 2) = 6%float.
Proof. vm_compute. reflexivity. Qed.

Example toFixed_tie : JS.parseFloat (JS.toFixed 4.25%float 1) = 4.3%float.
Proof. vm_compute. reflexivity. Qed.

Example toFixed_binary : JS.parseFloat (JS.toFixed (10.1 * 0.15)%float 2) = 1.51%float.
Proof. vm_compute. reflexivity. Qed.

Example toFixed_1_005 : JS.toFixed 1.005%float 2 = JS.Dec false 100 2.
Proof. vm_compute. reflexivity. Qed.

Example toFixed_8_345 : JS.toFixed 8.345%float 2 = JS.Dec false 835 2.
Proof. vm_compute. reflexivity. Qed.

Example toFixed_half_up :
  JS.toFixed 2.5%float 0 = JS.Dec false 3 0
  /\ JS.toFixed (-2.5)%float 0 = JS.Dec true 3 0.
Proof. vm_compute. split; reflexivity. Qed.

Example parseFloat_cents :
  JS.parseFloat (JS.Dec false 1999 2) = 19.99%float
  /\ JS.parseFloat (JS.Dec true 5 3) = (-0.005)%float
  /\ JS.parseFloat (JS.Dec false 1 1) = 0.1%float.
Proof. vm_compute. repeat split; reflexivity. Qed.

Example toFixed_small : JS.parseFloat (JS.toFixed (0.005 * 0.5)%float 2) = 0%float.
Proof. vm_compute. reflexivity. Qed.

Example toFixed_cent : JS.parseFloat (JS.toFixed (0.01 * 0.5)%float 2) = 0.01%float.
Proof. vm_compute. reflexivity. Qed.

(** ** Facts about the SQL statements *)

Section TableFacts.
Context {A : Type}.
Implicit Types (p q : A -> bool) (f : A -> A) (rows : list A).

Lemma get_update p q f rows :
  (forall r, p (f r) = p r) ->
  get p (update q f rows)
  = option_map (fun r => if q r then f r else r) (get p rows).
Proof.
  intros Hp. unfold get, update.
  induction rows as [|a rows IH]; simpl; [reflexivity|].
  destruct (q a) eqn:Eq; [rewrite Hp|]; destruct (p a) eqn:Ep;
    simpl; rewrite ?Eq; auto.
Qed.

Lemma get_Some_In p rows r : get p rows = Some r -> In r rows /\ p r = true.
Proof. unfold get. apply find_some. Qed.

Lemma get_None p rows r : get p rows = None -> In r rows -> p r = false.
Proof. unfold get. intros H. apply (find_none p rows H). Qed.

Lemma get_insert_old p rows row r :
  get p rows = Some r -> get p (insert row rows) = Some r.
Proof.
  unfold get, insert. induction rows as [|a rows IH]; simpl; [discriminate|].
  destruct (p a); auto.
Qed.

Lemma In_update p f rows r' :
  In r' (update p f rows) ->
  exists r, In r rows /\ r' = (if p r then f r else r).
Proof.
  unfold update. rewrite in_map_iff. intros (r & <- & Hin). eauto.
Qed.

Lemma nth_error_update p f rows i :
  nth_error (update p f rows) i
  = option_map (fun r => if p r then f r else r) (nth_error rows i).
Proof. unfold update. apply nth_error_map. Qed.

Lemma update_id p f rows :
  (forall r, In r rows -> p r = true -> f r = r) -> update p f rows = rows.
Proof.
  unfold update. induction rows as [|a rows IH]; simpl; intros H; [reflexivity|].
  rewrite IH by auto. destruct (p a) eqn:E; [rewrite H|]; auto.
Qed.

Lemma length_update p f rows : List.length (update p f rows) = List.length rows.
Proof. unfold update. apply length_map. Qed.

End TableFacts.

(** ** Reject *)

Lemma set_status_id s b : Booking.id (Booking.set_status s b) = Booking.id b.
Proof. reflexivity. Qed.

Lemma has_id_set_status id s b :
  has_id id (Booking.set_status s b) = has_id id b.
Proof. reflexivity. Qed.

Lemma owned_by_business_set_status id u s b :
  owned_by_business id u (Booking.set_status s b) = owned_by_business id u b.
Proof. reflexivity. Qed.

Lemma owned_by_business_has_id id u b :
  owned_by_business id u b = true -> has_id id b = true.
Proof. unfold owned_by_business, has_id. intros H. apply andb_prop in H. tauto. Qed.

Lemma owned_by_client_has_id id u b :
  owned_by_client id u b = true -> has_id id b = true.
Proof. unfold owned_by_client, has_id. intros H. apply andb_prop in H. tauto. Qed.


(** ** Comparisons of binary64 values *)

Lemma SFcompare_antisym (a b : spec_float) :
  SFcompare b a = option_map CompOpp (SFcompare a b).
Proof.
  destruct a as [sa|sa| |sa ma ea], b as [sb|sb| |sb mb eb]; simpl;
    try destruct sa; try destruct sb; simpl; try reflexivity;
    rewrite (Z.compare_antisym ea eb);
    destruct (Z.compare ea eb); simpl; try reflexivity;
    rewrite (Pos.compare_cont_antisym ma mb Eq); simpl;
    rewrite ?CompOpp_involutive; reflexivity.
Qed.

Lemma SFcompare_refl (a : spec_float) :
  SFcompare a a = match a with S754_nan => None | _ => Some Eq end.
Proof.
  destruct a as [s|s| |s m e]; simpl; try destruct s; try reflexivity;
    rewrite Z.compare_refl, Pos.compare_cont_refl; reflexivity.
Qed.

Lemma ltb_false_of_leb (x y : float) :
  PrimFloat.leb y x = true -> PrimFloat.ltb x y = false.
Proof.
  rewrite leb_spec, ltb_spec. unfold SFleb, SFltb.
  rewrite (SFcompare_antisym (Prim2SF y) (Prim2SF x)).
  destruct (SFcompare (Prim2SF y) (Prim2SF x)) as [[ | | ]|]; simpl; congruence.
Qed.

(** Away from NaN the order is total: [x <= y] is the negation of [y < x]. *)
Lemma leb_negb_ltb (x y : float) :
  PrimFloat.eqb x x = true -> PrimFloat.eqb y y = true ->
  PrimFloat.leb x y = negb (PrimFloat.ltb y x).
Proof.
  rewrite !eqb_spec, leb_spec, ltb_spec. unfold SFeqb, SFleb, SFltb.
  rewrite (SFcompare_antisym (Prim2SF x) (Prim2SF y)), !SFcompare_refl.
  destruct (Prim2SF x) as [sx|sx| |sx mx ex], (Prim2SF y) as [sy|sy| |sy my ey];
    try discriminate; intros _ _;
    match goal with
    | |- context [SFcompare ?a ?b] => destruct (SFcompare a b) as [[ | | ]|] eqn:E
    end; simpl; try reflexivity;
    simpl in E; try destruct sx; try destruct sy; discriminate.
Qed.

Lemma Prim2SF_24 :
  Prim2SF 24 = S754_finite false 6755399441055744 (-48).
Proof. vm_compute. reflexivity. Qed.

Lemma Prim2SF_0 : Prim2SF 0 = S754_zero false.
Proof. vm_compute. reflexivity. Qed.

(** A negative number of hours is less than 24. *)
Lemma ltb_24_of_negative (h : float) :
  PrimFloat.ltb h 0 = true -> PrimFloat.ltb h 24 = true.
Proof.
  rewrite !ltb_spec, Prim2SF_24, Prim2SF_0. unfold SFltb, SFcompare.
  destruct (Prim2SF h) as [s|s| |s m e]; try destruct s;
    intros H; try discriminate H; reflexivity.
Qed.

(** ** Release of a slot *)

Lemma release_status slot_id rows a :
  In a (release slot_id rows) -> Availability.id a = slot_id ->
  Availability.status a = "available"%string.
Proof.
  unfold release. intros Hin Hid.
  apply In_update in Hin. destruct Hin as (a0 & _ & ->).
  destruct (Z.eqb (Availability.id a0) slot_id) eqn:E; [reflexivity|].
  apply Z.eqb_neq in E. contradiction.
Qed.

Lemma slot_status_set slot_id st rows :
  slot_status slot_id
    (update (fun a => Z.eqb (Availability.id a) slot_id)
            (Availability.set_status st) rows)
  = option_map (fun _ => st) (slot_status slot_id rows).
Proof.
  unfold slot_status. rewrite get_update by reflexivity.
  destruct (get _ rows) as [a|] eqn:E; simpl; [|reflexivity].
  destruct (get_Some_In _ _ _ E) as [_ ->]. reflexivity.
Qed.

Lemma slot_status_release slot_id rows :
  slot_status slot_id (release slot_id rows)
  = option_map (fun _ => "available"%string) (slot_status slot_id rows).
Proof. apply slot_status_set. Qed.

Lemma slot_status_set_other slot_id other st rows :
  other <> slot_id ->
  slot_status other
    (update (fun a => Z.eqb (Availability.id a) slot_id)
            (Availability.set_status st) rows)
  = slot_status other rows.
Proof.
  intros Hne. unfold slot_status. rewrite get_update by reflexivity.
  destruct (get _ rows) as [a|] eqn:E; simpl; [|reflexivity].
  destruct (get_Some_In _ _ _ E) as [_ Ha]. apply Z.eqb_eq in Ha.
  destruct (Z.eqb (Availability.id a) slot_id) eqn:E'; [|reflexivity].
  apply Z.eqb_eq in E'. congruence.
Qed.

Lemma slot_status_release_other slot_id other rows :
  other <> slot_id ->
  slot_status other (release slot_id rows) = slot_status other rows.
Proof. apply slot_status_set_other. Qed.

(** ** Cancel *)

Section CancelFacts.
Variable Date_parse : string -> float.
Variables (now : float) (u : User.t) (id : Z) (db : DB) (booking : Booking.t).
Hypothesis Hclient : is_client u = true.
Hypothesis Hfound : get (owned_by_client id u) (bookings db) = Some booking.

Let charge := cancellation_charge_for Date_parse now booking.

Lemma cancel_refuses_cancelled :
  Booking.status booking = "cancelled"%string ->
  cancel Date_parse now u id db = Fail AlreadyCancelled.
Proof.
  intros Hst. unfold cancel. rewrite Hclient, Hfound, Hst. reflexivity.
Qed.

Lemma cancel_accepts :
  String.eqb (Booking.status booking) "cancelled" = false ->
  cancel Date_parse now u id db
  = Done (let db1 :=
            with_bookings
              (update (has_id id) (Booking.set_cancelled charge) (bookings db))
              db in
          if PrimFloat.eqb charge 0
          then with_availability
                 (release (Booking.availability_id booking) (availability db))
                 db1
          else db1)
         charge.
Proof.
  intros Hst. unfold cancel. rewrite Hclient, Hfound, Hst. reflexivity.
Qed.

Lemma cancel_booking_row :
  get (owned_by_client id u)
      (update (has_id id) (Booking.set_cancelled charge) (bookings db))
  = Some (Booking.set_cancelled charge booking).
Proof.
  rewrite get_update by reflexivity. rewrite Hfound. simpl.
  destruct (get_Some_In _ _ _ Hfound) as [_ Hown].
  rewrite (owned_by_client_has_id _ _ _ Hown). reflexivity.
Qed.

End CancelFacts.

(** C2, as the handler has it.  A cancel by the client that owns a booking
    which is not cancelled succeeds and leaves the booking cancelled with
    the computed charge.  With less than 24 hours left the charge is
    [price * 0.5] rounded to 2 decimals, and the slot table is untouched
    when that charge is not 0, while a charge that rounds to 0 releases
    the slot; with 24 hours or more left the charge is 0 and the slot is
    released. *)
Theorem cancel_charge_and_slot :
  forall (Date_parse : string -> float) (now : float) (u : User.t) (id : Z)
         (db : DB) (booking : Booking.t),
    is_client u = true ->
    get (owned_by_client id u) (bookings db) = Some booking ->
    String.eqb (Booking.status booking) "cancelled" = false ->
    exists db' charge,
      cancel Date_parse now u id db = Done db' charge
      /\ get (owned_by_client id u) (bookings db')
         = Some (Booking.set_cancelled charge booking)
      /\ (PrimFloat.ltb (hoursLeft Date_parse now booking) 24 = true ->
          charge = JS.parseFloat (JS.toFixed (Booking.price booking * 0.5)%float 2)
          /\ (PrimFloat.eqb charge 0 = false ->
              availability db' = availability db)
          /\ (PrimFloat.eqb charge 0 = true ->
              availability db'
              = release (Booking.availability_id booking) (availability db)))
      /\ (PrimFloat.leb 24 (hoursLeft Date_parse now booking) = true ->
          charge = 0%float
          /\ availability db'
             = release (Booking.availability_id booking) (availability db)).
Proof.
  intros D now u id db booking Hu Hget Hst.
  eexists. exists (cancellation_charge_for D now booking).
  split; [apply (cancel_accepts D now u id db booking Hu Hget Hst)|].
  split.
  - destruct (PrimFloat.eqb (cancellation_charge_for D now booking) 0); simpl;
      apply (cancel_booking_row D now u id db booking Hget).
  - unfold cancellation_charge_for. split.
    + intros Hlate. rewrite Hlate. split; [reflexivity|].
      split; intros ->; reflexivity.
    + intros Hearly. rewrite (ltb_false_of_leb _ _ Hearly).
      split; reflexivity.
Qed.

Example ana_booking_row :
  get (owned_by_client 1 Sample.ana) (bookings Sample.booked)
  = Some Sample.ana_booking.
Proof. vm_compute. reflexivity. Qed.

(** At 23h59m before the appointment a haircut of 40 is cancelled at a
    charge of 20 and the slot table is untouched; at 24h00m the charge is 0
    and the slot is released. *)
Lemma cancel_charge_and_slot_boundary :
  (exists db' charge,
      cancel Sample.Date_parse Sample.at_23h59 Sample.ana 1 Sample.booked
      = Done db' charge
      /\ charge = 20%float
      /\ availability db' = availability Sample.booked
      /\ slot_status 1 (availability db') = Some "booked"%string)
  /\ (exists db' charge,
         cancel Sample.Date_parse Sample.at_24h00 Sample.ana 1 Sample.booked
         = Done db' charge
         /\ charge = 0%float
         /\ slot_status 1 (availability db') = Some "available"%string).
Proof.
  split.
  - destruct (cancel_charge_and_slot Sample.Date_parse Sample.at_23h59
                Sample.ana 1 Sample.booked Sample.ana_booking
                eq_refl eq_refl eq_refl)
      as (db' & charge & Hrun & _ & Hlate & _).
    destruct (Hlate eq_refl) as (Hcharge & Hkeep & _).
    assert (Hc : charge = 20%float) by (rewrite Hcharge; vm_compute; reflexivity).
    exists db', charge. split; [exact Hrun|]. split; [exact Hc|].
    assert (Hk : availability db' = availability Sample.booked)
      by (apply Hkeep; rewrite Hc; reflexivity).
    split; [exact Hk|]. rewrite Hk. reflexivity.
  - destruct (cancel_charge_and_slot Sample.Date_parse Sample.at_24h00
                Sample.ana 1 Sample.booked Sample.ana_booking
                eq_refl eq_refl eq_refl)
      as (db' & charge & Hrun & _ & _ & Hearly).
    destruct (Hearly eq_refl) as (Hcharge & Hrel).
    exists db', charge. split; [exact Hrun|]. split; [exact Hcharge|].
    rewrite Hrel. reflexivity.
Defined.

(** C2 as stated fails on a service priced 0.005: cancelled 23h59m before
    the appointment, half the price rounds to 0.00, and the handler
    releases the slot although less than 24 hours are left. *)
Lemma late_cancel_of_cheap_booking_releases_slot :
  option_map
    (fun b => (Booking.status b, Booking.price b,
               PrimFloat.ltb (hoursLeft Sample.Date_parse Sample.at_23h59 b) 24))
    (get (owned_by_client 1 Sample.ana) (bookings Sample.booked_sample))
  = Some ("pending"%string, 0.005%float, true)
  /\ slot_status 1 (availability Sample.booked_sample) = Some "booked"%string
  /\ succeeded (cancel Sample.Date_parse Sample.at_23h59 Sample.ana 1
                       Sample.booked_sample) = true
  /\ slot_status 1
       (availability
          (db_after Sample.booked_sample
             (cancel Sample.Date_parse Sample.at_23h59 Sample.ana 1
                     Sample.booked_sample)))
     = Some "available"%string.
Proof. vm_compute. repeat split; reflexivity. Qed.

(** C10, as the handler has it.  The handler has no guard on the
    appointment lying in the past: with a negative number of hours left, a
    cancel by the owning client of a booking that is not cancelled
    succeeds, the booking becomes cancelled with a charge of [price * 0.5]
    rounded to 2 decimals, and the slot table is untouched when that
    charge is not 0. *)
Theorem cancel_after_appointment :
  forall (Date_parse : string -> float) (now : float) (u : User.t) (id : Z)
         (db : DB) (booking : Booking.t),
    is_client u = true ->
    get (owned_by_client id u) (bookings db) = Some booking ->
    String.eqb (Booking.status booking) "cancelled" = false ->
    PrimFloat.ltb (hoursLeft Date_parse now booking) 0 = true ->
    exists db' charge,
      cancel Date_parse now u id db = Done db' charge
      /\ charge = JS.parseFloat (JS.toFixed (Booking.price booking * 0.5)%float 2)
      /\ get (owned_by_client id u) (bookings db')
         = Some (Booking.set_cancelled charge booking)
      /\ (PrimFloat.eqb charge 0 = false -> availability db' = availability db).
Proof.
  intros D now u id db booking Hu Hget Hst Hpast.
  pose proof (ltb_24_of_negative _ Hpast) as Hlate.
  eexists. exists (cancellation_charge_for D now booking).
  split; [apply (cancel_accepts D now u id db booking Hu Hget Hst)|].
  split; [unfold cancellation_charge_for; rewrite Hlate; reflexivity|].
  split.
  - destruct (PrimFloat.eqb (cancellation_charge_for D now booking) 0); simpl;
      apply (cancel_booking_row D now u id db booking Hget).
  - intros ->. reflexivity.
Qed.

(** An hour after the appointment the haircut of 40 is still cancelled,
    at a charge of 20, and its slot stays booked. *)
Lemma cancel_after_appointment_haircut :
  exists db' charge,
    cancel Sample.Date_parse Sample.an_hour_late Sample.ana 1 Sample.booked
    = Done db' charge
    /\ charge = 20%float
    /\ option_map Booking.status
         (get (owned_by_client 1 Sample.ana) (bookings db'))
       = Some "cancelled"%string
    /\ slot_status 1 (availability db') = Some "booked"%string.
Proof.
  destruct (cancel_after_appointment Sample.Date_parse Sample.an_hour_late
              Sample.ana 1 Sample.booked Sample.ana_booking
              eq_refl eq_refl eq_refl eq_refl)
    as (db' & charge & Hrun & Hcharge & Hrow & Hkeep).
  assert (Hc : charge = 20%float) by (rewrite Hcharge; vm_compute; reflexivity).
  exists db', charge. split; [exact Hrun|]. split; [exact Hc|].
  split; [rewrite Hrow; reflexivity|].
  rewrite Hkeep by (rewrite Hc; reflexivity). reflexivity.
Defined.

(** C10 as stated fails on a service priced 0.009: cancelled an hour
    after the appointment, half the price rounds to 0.00, and the handler
    releases the slot. *)
Lemma past_cancel_of_cheap_booking_releases_slot :
  option_map
    (fun b => (Booking.status b, Booking.price b,
               PrimFloat.ltb (hoursLeft Sample.Date_parse Sample.an_hour_late b) 0))
    (get (owned_by_client 1 Sample.ana) (bookings Sample.booked_tester))
  = Some ("pending"%string, 0.009%float, true)
  /\ slot_status 1 (availability Sample.booked_tester) = Some "booked"%string
  /\ cancel Sample.Date_parse Sample.an_hour_late Sample.ana 1
            Sample.booked_tester
     = Done (db_after Sample.booked_tester
               (cancel Sample.Date_parse Sample.an_hour_late Sample.ana 1
                       Sample.booked_tester))
            0%float
  /\ slot_status 1
       (availability
          (db_after Sample.booked_tester
             (cancel Sample.Date_parse Sample.an_hour_late Sample.ana 1
                     Sample.booked_tester)))
     = Some "available"%string.
Proof. vm_compute. repeat split; reflexivity. Qed.

(** ** Terminal states *)

Lemma has_id_set_cancelled id c b :
  has_id id (Booking.set_cancelled c b) = has_id id b.
Proof. reflexivity. Qed.

Lemma status_after_cancel_update id id' c rows b :
  get (has_id id) rows = Some b ->
  Booking.status b = "cancelled"%string ->
  exists b',
    get (has_id id) (update (has_id id') (Booking.set_cancelled c) rows) = Some b'
    /\ Booking.status b' = "cancelled"%string.
Proof.
  intros Hget Hst. rewrite get_update by reflexivity. rewrite Hget. simpl.
  destruct (has_id id' b); eexists; split; try reflexivity; assumption.
Qed.

Lemma status_after_reject_update id id' rows b :
  get (has_id id) rows = Some b ->
  Booking.status b = "cancelled"%string ->
  exists b',
    get (has_id id) (update (has_id id') (Booking.set_status "cancelled") rows)
    = Some b'
    /\ Booking.status b' = "cancelled"%string.
Proof.
  intros Hget Hst. rewrite get_update by reflexivity. rewrite Hget. simpl.
  destruct (has_id id' b); eexists; split; try reflexivity; assumption.
Qed.

(** C3, as the handlers have it.  A cancelled booking stays cancelled
    under every cancel and every reject request, whichever booking the
    request names, and a cancel of the cancelled booking by its client is
    refused with AlreadyCancelled.  'completed' has no such protection
    against cancel: the client's cancel of a completed booking succeeds
    and leaves it cancelled. *)
Theorem cancelled_is_kept_by_cancel_and_reject :
  forall (Date_parse : string -> float) (now : float) (u : User.t)
         (id id' : Z) (db : DB) (b : Booking.t),
    get (has_id id) (bookings db) = Some b ->
    (Booking.status b = "cancelled"%string ->
     (exists b',
         get (has_id id)
             (bookings (db_after db (cancel Date_parse now u id' db))) = Some b'
         /\ Booking.status b' = "cancelled"%string)
     /\ (exists b',
            get (has_id id) (bookings (db_after db (reject u id' db))) = Some b'
            /\ Booking.status b' = "cancelled"%string)
     /\ (is_client u = true ->
         get (owned_by_client id u) (bookings db) = Some b ->
         cancel Date_parse now u id db = Fail AlreadyCancelled))
    /\ (Booking.status b = "completed"%string ->
        is_client u = true ->
        get (owned_by_client id u) (bookings db) = Some b ->
        exists db' charge,
          cancel Date_parse now u id db = Done db' charge
          /\ get (has_id id) (bookings db')
             = Some (Booking.set_cancelled charge b)).
Proof.
  intros D now u id id' db b Hget. split.
  - intros Hst. split; [|split].
    + unfold cancel.
      destruct (negb (is_client u)); [eauto|].
      destruct (get (owned_by_client id' u) (bookings db)) as [bk|]; [|eauto].
      destruct (String.eqb (Booking.status bk) "cancelled"); [eauto|].
      simpl db_after.
      destruct (PrimFloat.eqb _ 0); simpl;
        eapply status_after_cancel_update; eassumption.
    + unfold reject.
      destruct (negb (is_business u)); [eauto|].
      destruct (get (owned_by_business id' u) (bookings db)) as [bk|]; [|eauto].
      simpl. eapply status_after_reject_update; eassumption.
    + intros Hu Hown. apply (cancel_refuses_cancelled D now u id db b Hu Hown Hst).
  - intros Hst Hu Hown.
    assert (Hnc : String.eqb (Booking.status b) "cancelled" = false)
      by (rewrite Hst; reflexivity).
    eexists. exists (cancellation_charge_for D now b).
    split; [apply (cancel_accepts D now u id db b Hu Hown Hnc)|].
    assert (Hrow : get (has_id id)
                     (update (has_id id)
                        (Booking.set_cancelled (cancellation_charge_for D now b))
                        (bookings db))
                   = Some (Booking.set_cancelled (cancellation_charge_for D now b) b)).
    { rewrite get_update by reflexivity. rewrite Hget. simpl.
      destruct (get_Some_In _ _ _ Hget) as [_ ->]. reflexivity. }
    destruct (PrimFloat.eqb (cancellation_charge_for D now b) 0); simpl; exact Hrow.
Qed.

Lemma cancelled_is_kept_in_sample :
  (exists b',
      get (has_id 1)
          (bookings (db_after Sample.rejected
                       (reject Sample.owner 1 Sample.rejected))) = Some b'
      /\ Booking.status b' = "cancelled"%string)
  /\ cancel Sample.Date_parse Sample.at_24h00 Sample.ana 1 Sample.rejected
     = Fail AlreadyCancelled.
Proof.
  split.
  - destruct (cancelled_is_kept_by_cancel_and_reject Sample.Date_parse
                Sample.at_24h00 Sample.owner 1 1 Sample.rejected
                (Booking.set_status "cancelled" Sample.ana_booking) eq_refl)
      as [Hkept _].
    destruct (Hkept eq_refl) as (_ & Hreject & _). exact Hreject.
  - destruct (cancelled_is_kept_by_cancel_and_reject Sample.Date_parse
                Sample.at_24h00 Sample.ana 1 1 Sample.rejected
                (Booking.set_status "cancelled" Sample.ana_booking) eq_refl)
      as [Hkept _].
    destruct (Hkept eq_refl) as (_ & _ & Hcancel).
    exact (Hcancel eq_refl eq_refl).
Defined.

(** C3 as stated fails for 'completed': Ana's completed haircut is
    cancelled by her own cancel request an hour after the appointment. *)
Lemma cancel_moves_completed_to_cancelled :
  option_map Booking.status (get (has_id 1) (bookings Sample.completed))
  = Some "completed"%string
  /\ succeeded (cancel Sample.Date_parse Sample.an_hour_late Sample.ana 1
                       Sample.completed) = true
  /\ option_map Booking.status
       (get (has_id 1)
            (bookings
               (db_after Sample.completed
                  (cancel Sample.Date_parse Sample.an_hour_late Sample.ana 1
                          Sample.completed))))
     = Some "cancelled"%string.
Proof. vm_compute. repeat split; reflexivity. Qed.

(** ** Creation of a booking *)

(** What a successful [create_booking] has read and written. *)
Lemma create_booking_Done draws u bid sid d t db db' reply :
  create_booking draws u bid sid d t db = Some (Done db' reply) ->
  exists slot service biz code,
    is_client u = true
    /\ get (available_slot bid d t) (availability db) = Some slot
    /\ get (active_service sid bid) (services db) = Some service
    /\ get (fun b => Z.eqb (Business.id b) bid) (businesses db) = Some biz
    /\ unused_code (bookings db) draws = Some code
    /\ reply_confirmation_code reply = code
    /\ reply_id reply = lastInsertRowid Booking.id (bookings db)
    /\ bookings db'
       = insert
           (Booking.mk (lastInsertRowid Booking.id (bookings db)) (User.id u)
              bid sid (Availability.id slot) d t (Service.price service)
              (JS.parseFloat
                 (JS.toFixed
                    (Service.price service * Business.commission_rate biz)%float 2))
              "pending" 0%float code)
           (bookings db)
    /\ availability db'
       = update (fun a => Z.eqb (Availability.id a) (Availability.id slot))
                (Availability.set_status "booked") (availability db)
    /\ businesses db' = businesses db
    /\ services db' = services db
    /\ reviews db' = reviews db.
Proof.
  unfold create_booking.
  destruct (is_client u); simpl; [|discriminate].
  destruct (get (available_slot bid d t) (availability db)) as [slot|];
    [|discriminate].
  destruct (get (active_service sid bid) (services db)) as [service|];
    [|discriminate].
  destruct (get _ (businesses db)) as [biz|]; [|discriminate].
  destruct (unused_code (bookings db) draws) as [code|]; [|discriminate].
  intros H. injection H as <- <-.
  exists slot, service, biz, code. simpl. repeat split; reflexivity.
Qed.



(** ** Reservation of a slot *)

Lemma get_none_of_all_false {A : Type} (p : A -> bool) (rows : list A) :
  (forall r, In r rows -> p r = false) -> get p rows = None.
Proof.
  unfold get. induction rows as [|a rows IH]; simpl; intros H; [reflexivity|].
  rewrite (H a) by auto. apply IH. auto.
Qed.

Lemma same_key_eq bid d t a :
  same_key bid d t a = true ->
  Availability.business_id a = bid /\ Availability.date a = d
  /\ Availability.time a = t.
Proof.
  unfold same_key. intros H.
  apply andb_prop in H. destruct H as [H Ht].
  apply andb_prop in H. destruct H as [Hb Hd].
  apply Z.eqb_eq in Hb. apply String.eqb_eq in Hd. apply String.eqb_eq in Ht.
  auto.
Qed.

(** Without an available slot at the exact key the request is refused
    and nothing is written. *)
Lemma create_booking_slot_unavailable draws u bid sid d t db :
  is_client u = true ->
  get (available_slot bid d t) (availability db) = None ->
  create_booking draws u bid sid d t db = Some (Fail SlotUnavailable).
Proof.
  intros Hu Hnone. unfold create_booking. rewrite Hu, Hnone. reflexivity.
Qed.

(** A successful request found a slot with status 'available' at the key,
    leaves it 'booked', and links the new booking to it. *)
Lemma create_booking_books_slot draws u bid sid d t db db' reply :
  create_booking draws u bid sid d t db = Some (Done db' reply) ->
  exists slot row,
    In slot (availability db)
    /\ same_key bid d t slot = true
    /\ Availability.status slot = "available"%string
    /\ slot_status (Availability.id slot) (availability db')
       = option_map (fun _ => "booked"%string)
           (slot_status (Availability.id slot) (availability db))
    /\ bookings db' = bookings db ++ [row]
    /\ Booking.availability_id row = Availability.id slot
    /\ Booking.status row = "pending"%string.
Proof.
  intros H. apply create_booking_Done in H.
  destruct H as (slot & service & biz & code & _ & Hslot & _ & _ & _ & _ & _
                 & Hrows & Hav & _).
  destruct (get_Some_In _ _ _ Hslot) as [Hin Hp].
  unfold available_slot in Hp. apply andb_prop in Hp. destruct Hp as [Hk Hs].
  apply String.eqb_eq in Hs.
  exists slot. eexists. repeat split; try eassumption.
  - rewrite Hav. apply slot_status_set.
  - reflexivity.
  - reflexivity.
Qed.

(** Right after a successful request, a second request for the same key
    is refused with SlotUnavailable. *)
Lemma create_booking_not_twice draws draws' u u' bid sid sid' d t db db' reply :
  unique_keys (availability db) ->
  is_client u' = true ->
  create_booking draws u bid sid d t db = Some (Done db' reply) ->
  create_booking draws' u' bid sid' d t db' = Some (Fail SlotUnavailable).
Proof.
  intros Huniq Hu' H. apply create_booking_Done in H.
  destruct H as (slot & service & biz & code & _ & Hslot & _ & _ & _ & _ & _
                 & _ & Hav & _).
  apply create_booking_slot_unavailable; [assumption|].
  rewrite Hav. apply get_none_of_all_false. intros r Hin.
  apply In_update in Hin. destruct Hin as (a & Hin & ->).
  destruct (get_Some_In _ _ _ Hslot) as [Hslot_in Hp].
  unfold available_slot in Hp. apply andb_prop in Hp. destruct Hp as [Hk _].
  destruct (Z.eqb (Availability.id a) (Availability.id slot)) eqn:E.
  - unfold available_slot. simpl. apply andb_false_r.
  - unfold available_slot.
    destruct (same_key bid d t a) eqn:Eka; [|reflexivity].
    exfalso.
    destruct (same_key_eq _ _ _ _ Hk) as (Hb & Hd & Ht).
    assert (slot = a) as ->.
    { apply Huniq; try assumption. rewrite Hb, Hd, Ht. exact Eka. }
    rewrite Z.eqb_refl in E. discriminate.
Qed.

(** C1 at the failing requests.  The owner publishes one slot and Ana
    books it; the owner rejects Ana's booking, which releases the slot,
    and Luis books it; the owner rejects Ana's cancelled booking a second
    time, which releases the slot that Luis holds, and Eva books it.
    Every request is answered with success, and the slot ends with two
    live bookings, Luis's and Eva's. *)
Theorem repeated_reject_double_books :
  option_map succeeded
    (create_booking ["0.4fzyo82mvyr"%string] Sample.ana 1 1 Sample.day
                    Sample.hour Sample.published) = Some true
  /\ succeeded (reject Sample.owner 1 Sample.booked) = true
  /\ option_map succeeded
       (create_booking ["0.k3x9q1w7abc"%string] Sample.luis 1 1 Sample.day
                       Sample.hour Sample.rejected) = Some true
  /\ succeeded (reject Sample.owner 1 Sample.rebooked) = true
  /\ slot_status 1 (availability Sample.rebooked) = Some "booked"%string
  /\ slot_status 1 (availability Sample.rejected_again) = Some "available"%string
  /\ option_map succeeded
       (create_booking ["0.z8m2p5r0xyz"%string] Sample.eva 1 1 Sample.day
                       Sample.hour Sample.rejected_again) = Some true
  /\ map (fun b => (Booking.id b, Booking.client_id b, Booking.status b,
                    Booking.availability_id b))
         (holders 1 (bookings Sample.booked_twice))
     = [(2, 8, "pending"%string, 1); (3, 9, "pending"%string, 1)].
Proof. vm_compute. repeat split; reflexivity. Qed.

(** ** Confirmation codes *)

Lemma length_toUpperCase s : String.length (JS.toUpperCase s) = String.length s.
Proof. induction s as [|c s IH]; simpl; congruence. Qed.

Lemma length_substring_le n m s : (String.length (substring n m s) <= m)%nat.
Proof.
  revert n m. induction s as [|c s IH]; intros [|n] [|m]; simpl;
    try lia; try apply IH.
  specialize (IH 0%nat m). lia.
Qed.

Lemma length_substring_0 m s :
  (m <= String.length s)%nat -> String.length (substring 0 m s) = m.
Proof.
  revert m. induction s as [|c s IH]; intros [|m]; simpl; try lia.
  intros H. rewrite IH; lia.
Qed.

Lemma length_append s1 s2 :
  String.length (s1 ++ s2) = (String.length s1 + String.length s2)%nat.
Proof. induction s1 as [|c s1 IH]; simpl; congruence. Qed.

Lemma all_chars_substring_0 p m s :
  all_chars p s = true -> all_chars p (substring 0 m s) = true.
Proof.
  revert m. induction s as [|c s IH]; intros [|m]; simpl; auto.
  intros H. apply andb_prop in H. destruct H as [-> H]. simpl. auto.
Qed.

Lemma upper_ascii_alnum c :
  is_digit c || is_lower c = true -> upper_alnum (JS.upper_ascii c) = true.
Proof.
  destruct c as [[] [] [] [] [] [] [] []]; vm_compute; congruence.
Qed.

Lemma all_chars_toUpperCase s :
  all_chars (fun c => is_digit c || is_lower c) s = true ->
  all_chars upper_alnum (JS.toUpperCase s) = true.
Proof.
  induction s as [|c s IH]; simpl; [reflexivity|].
  intros H. apply andb_prop in H. destruct H as [Hc Hs].
  rewrite (upper_ascii_alnum c Hc). simpl. auto.
Qed.

(** The token after the prefix: at most 6 characters, digits and capital
    letters when the random text is a radix-36 fraction. *)
Lemma genCode_token r :
  exists tok,
    genCode r = ("HF-" ++ tok)%string
    /\ (String.length tok <= 6)%nat
    /\ (base36_fraction r = true -> all_chars upper_alnum tok = true)
    /\ (8 <= String.length r -> String.length tok = 6)%nat.
Proof.
  exists (JS.toUpperCase (JS.substr 2 6 r)). split; [reflexivity|].
  unfold JS.substr. rewrite length_toUpperCase.
  split; [apply length_substring_le|]. split.
  - intros Hr. apply all_chars_toUpperCase.
    destruct r as [|c0 [|c1 ds]]; try discriminate; try reflexivity.
    simpl in Hr. change (substring 2 6 (String c0 (String c1 ds)))
      with (substring 0 6 ds).
    apply all_chars_substring_0.
    destruct c0 as [[] [] [] [] [] [] [] []]; try discriminate;
      destruct c1 as [[] [] [] [] [] [] [] []]; try discriminate; exact Hr.
  - intros Hlen. destruct r as [|c0 [|c1 ds]]; simpl in Hlen; try lia.
    change (substring 2 6 (String c0 (String c1 ds))) with (substring 0 6 ds).
    apply length_substring_0. lia.
Qed.

Lemma genCode_length r : (String.length (genCode r) <= 9)%nat.
Proof.
  destruct (genCode_token r) as (tok & -> & Hlen & _). simpl. lia.
Qed.

Lemma code_taken_false code rows :
  code_taken code rows = false -> ~ In code (codes rows).
Proof.
  unfold code_taken, codes.
  destruct (get _ rows) eqn:E; [discriminate|]. intros _ Hin.
  apply in_map_iff in Hin. destruct Hin as (b & Hb & Hin).
  pose proof (get_None _ _ b E Hin) as Hf. simpl in Hf.
  rewrite Hb, String.eqb_refl in Hf. discriminate.
Qed.

(** The loop returns the code of the first draw whose code no booking
    has, after regenerating for every draw before it. *)
Lemma unused_code_Some rows draws code :
  unused_code rows draws = Some code ->
  exists pre r post,
    draws = pre ++ r :: post
    /\ Forall (fun x => code_taken (genCode x) rows = true) pre
    /\ code = genCode r
    /\ code_taken code rows = false.
Proof.
  induction draws as [|x draws IH]; simpl; [discriminate|].
  destruct (code_taken (genCode x) rows) eqn:E.
  - intros H. destruct (IH H) as (pre & r & post & -> & Hpre & Hc & Hf).
    exists (x :: pre), r, post. repeat split; auto.
  - intros H. injection H as <-. exists [], x, draws. repeat split; auto.
Qed.

(** The loop ends as soon as a draw gives a code that no booking has. *)
Lemma unused_code_ends rows pre r post :
  Forall (fun x => code_taken (genCode x) rows = true) pre ->
  code_taken (genCode r) rows = false ->
  unused_code rows (pre ++ r :: post) = Some (genCode r).
Proof.
  induction 1 as [|x pre Hx _ IH]; simpl; intros Hr.
  - rewrite Hr. reflexivity.
  - rewrite Hx. auto.
Qed.

Lemma codes_insert row rows :
  codes (insert row rows) = codes rows ++ [Booking.confirmation_code row].
Proof. unfold codes, insert. apply map_app. Qed.




(** ** Bulk edit of the schedule *)

Lemma existsb_same_key_false bid d t rows :
  existsb (same_key bid d t) rows = false <->
  (forall a, In a rows -> same_key bid d t a = false).
Proof.
  split.
  - intros H a Hin. destruct (same_key bid d t a) eqn:E; [|reflexivity].
    assert (existsb (same_key bid d t) rows = true)
      by (apply existsb_exists; eauto).
    congruence.
  - intros H. destruct (existsb (same_key bid d t) rows) eqn:E; [|reflexivity].
    apply existsb_exists in E. destruct E as (a & Hin & Ha).
    rewrite (H a Hin) in Ha. discriminate.
Qed.

(** The three cases of the upsert statement. *)
Lemma upsert_cases bid d t st rows :
  ((forall a, In a rows -> same_key bid d t a = false) ->
   upsert bid d t st rows
   = rows ++ [Availability.mk (lastInsertRowid Availability.id rows) bid d t st])
  /\ (forall i a,
         nth_error rows i = Some a ->
         same_key bid d t a = true ->
         Availability.status a <> "booked"%string ->
         nth_error (upsert bid d t st rows) i
         = Some (Availability.set_status st a))
  /\ (forall i a,
         nth_error rows i = Some a ->
         Availability.status a = "booked"%string ->
         nth_error (upsert bid d t st rows) i = Some a)
  /\ (forall i a,
         nth_error rows i = Some a ->
         same_key bid d t a = false ->
         nth_error (upsert bid d t st rows) i = Some a).
Proof.
  unfold upsert. split; [|split; [|split]].
  - intros H. apply existsb_same_key_false in H. rewrite H. reflexivity.
  - intros i a Hi Hk Hst.
    assert (Hex : existsb (same_key bid d t) rows = true).
    { apply existsb_exists. exists a. split; [|exact Hk].
      eapply nth_error_In; eassumption. }
    rewrite Hex, nth_error_update, Hi. simpl. rewrite Hk.
    apply String.eqb_neq in Hst. rewrite Hst. reflexivity.
  - intros i a Hi Hst.
    destruct (existsb (same_key bid d t) rows) eqn:Hex.
    + rewrite nth_error_update, Hi. simpl. rewrite Hst.
      rewrite andb_false_r. reflexivity.
    + unfold insert. rewrite nth_error_app1; [exact Hi|].
      apply nth_error_Some. congruence.
  - intros i a Hi Hk.
    destruct (existsb (same_key bid d t) rows) eqn:Hex.
    + rewrite nth_error_update, Hi. simpl. rewrite Hk. reflexivity.
    + unfold insert. rewrite nth_error_app1; [exact Hi|].
      apply nth_error_Some. congruence.
Qed.




(** ** Reviews *)

Lemma Prim2SF_1 : Prim2SF 1 = S754_finite false 4503599627370496 (-52).
Proof. vm_compute. reflexivity. Qed.

Lemma Prim2SF_5 : Prim2SF 5 = S754_finite false 5629499534213120 (-50).
Proof. vm_compute. reflexivity. Qed.

Lemma eqb_refl_1 : PrimFloat.eqb 1 1 = true.
Proof. reflexivity. Qed.

Lemma eqb_refl_5 : PrimFloat.eqb 5 5 = true.
Proof. reflexivity. Qed.

Lemma leb_not_nan_l (x y : float) :
  PrimFloat.leb x y = true -> PrimFloat.eqb x x = true.
Proof.
  rewrite leb_spec, eqb_spec. unfold SFleb, SFeqb. rewrite SFcompare_refl.
  destruct (Prim2SF x); try reflexivity. simpl. discriminate.
Qed.

(** A number that is at least 1 is not a zero. *)
Lemma leb_1_not_zero (r : float) :
  PrimFloat.leb 1 r = true -> PrimFloat.eqb r 0 = false.
Proof.
  rewrite leb_spec, eqb_spec, Prim2SF_1, Prim2SF_0.
  unfold SFleb, SFeqb, SFcompare.
  destruct (Prim2SF r) as [s|s| |s m e]; try destruct s;
    intros H; try discriminate H; reflexivity.
Qed.

(** The guard of the handler lets through exactly the numbers of the
    closed interval from 1 to 5, whole or not. *)
Lemma rating_refused_interval (r : float) :
  rating_refused (Some r) = negb (PrimFloat.leb 1 r && PrimFloat.leb r 5).
Proof.
  unfold rating_refused, JS.falsy.
  destruct (PrimFloat.eqb r r) eqn:Hnan.
  - rewrite (leb_negb_ltb 1 r eqb_refl_1 Hnan).
    rewrite (leb_negb_ltb r 5 Hnan eqb_refl_5).
    destruct (PrimFloat.ltb r 1) eqn:H1; simpl.
    + rewrite orb_true_r. reflexivity.
    + assert (Hz : PrimFloat.eqb r 0 = false).
      { apply leb_1_not_zero. rewrite (leb_negb_ltb 1 r eqb_refl_1 Hnan), H1.
        reflexivity. }
      rewrite Hz. simpl. destruct (PrimFloat.ltb 5 r); reflexivity.
  - simpl. rewrite orb_true_r. simpl.
    destruct (PrimFloat.leb 1 r) eqn:H1; simpl; [|reflexivity].
    destruct (PrimFloat.leb r 5) eqn:H5; simpl; [|reflexivity].
    apply leb_not_nan_l in H5. congruence.
Qed.

Lemma attach_review_from_rating u id rating comment db :
  is_client u = true ->
  rating_refused rating = false ->
  exists r,
    rating = Some r
    /\ attach_review u id rating comment db
       = match get (owned_by_client id u) (bookings db) with
         | None => Fail InvalidState
         | Some booking =>
             if negb (String.eqb (Booking.status booking) "completed")
             then Fail InvalidState
             else
               match get (fun rv => Z.eqb (Review.booking_id rv) id) (reviews db) with
               | Some _ => Fail DuplicateReview
               | None =>
                   Done (recompute (Booking.business_id booking)
                           (with_reviews
                              (insert
                                 (Review.mk
                                    (lastInsertRowid Review.id (reviews db)) id
                                    (User.id u) (Booking.business_id booking)
                                    r comment)
                                 (reviews db)) db)) tt
               end
         end.
Proof.
  intros Hu Hr. destruct rating as [r|]; [|discriminate].
  exists r. split; [reflexivity|].
  unfold attach_review. rewrite Hu, Hr. reflexivity.
Qed.




Lemma attach_review_Done u id rating comment db db' :
  attach_review u id rating comment db = Done db' tt ->
  exists r booking,
    rating = Some r
    /\ rating_refused rating = false
    /\ get (owned_by_client id u) (bookings db) = Some booking
    /\ Booking.status booking = "completed"%string
    /\ get (fun rv => Z.eqb (Review.booking_id rv) id) (reviews db) = None
    /\ db' = recompute (Booking.business_id booking)
               (with_reviews
                  (insert
                     (Review.mk (lastInsertRowid Review.id (reviews db)) id
                        (User.id u) (Booking.business_id booking) r comment)
                     (reviews db)) db).
Proof.
  unfold attach_review.
  destruct (is_client u); simpl negb; cbv iota; [|discriminate].
  destruct rating as [r|]; [|discriminate].
  destruct (rating_refused (Some r)) eqn:Hr; [discriminate|].
  destruct (get (owned_by_client id u) (bookings db)) as [booking|];
    [|discriminate].
  destruct (String.eqb (Booking.status booking) "completed") eqn:Hst;
    simpl negb; cbv iota; [|discriminate].
  destruct (get _ (reviews db)) as [rv|] eqn:Hrev; [discriminate|].
  intros H. injection H as <-.
  apply String.eqb_eq in Hst.
  exists r, booking. repeat split; auto.
Qed.



(** ** Slots and bookings stay consistent

    Every handler keeps [consistent], as long as confirm and reject are
    asked on live bookings only; the double booking above is what happens
    otherwise. *)

Section Keys.
Context {A : Type}.
Variable key : A -> Z.

Lemma lastInsertRowid_gt rows r :
  In r rows -> key r < lastInsertRowid key rows.
Proof.
  unfold lastInsertRowid.
  induction rows as [|a rows IH]; cbn [fold_right In]; [contradiction|].
  intros [->|Hin]; [lia|]. specialize (IH Hin). lia.
Qed.

Lemma NoDup_insert_fresh rows row :
  NoDup (map key rows) -> key row = lastInsertRowid key rows ->
  NoDup (map key (insert row rows)).
Proof.
  intros Hnd Hk. unfold insert. rewrite map_app. simpl.
  apply NoDup_rev in Hnd.
  rewrite <- (rev_involutive (map key rows ++ [key row])).
  apply NoDup_rev. rewrite rev_app_distr. simpl.
  constructor; [|exact Hnd].
  rewrite <- in_rev. intros Hin. apply in_map_iff in Hin.
  destruct Hin as (r & Hr & Hin). apply lastInsertRowid_gt in Hin. lia.
Qed.

Lemma map_key_update p f rows :
  (forall r, key (f r) = key r) ->
  map key (update p f rows) = map key rows.
Proof.
  intros Hf. unfold update. rewrite map_map. apply map_ext.
  intros r. destruct (p r); auto.
Qed.

Lemma NoDup_key_inj rows a b :
  NoDup (map key rows) -> In a rows -> In b rows -> key a = key b -> a = b.
Proof.
  induction rows as [|r rows IH]; simpl; [contradiction|].
  intros Hnd Ha Hb Hk. inversion Hnd as [|k ks Hnotin Hnd']; subst.
  destruct Ha as [->|Ha], Hb as [->|Hb]; auto.
  - exfalso. apply Hnotin. rewrite Hk. apply in_map. exact Hb.
  - exfalso. apply Hnotin. rewrite <- Hk. apply in_map. exact Ha.
Qed.

Lemma get_by_key rows a :
  NoDup (map key rows) -> In a rows ->
  get (fun x => Z.eqb (key x) (key a)) rows = Some a.
Proof.
  intros Hnd Hin.
  destruct (get (fun x => Z.eqb (key x) (key a)) rows) as [a'|] eqn:E.
  - destruct (get_Some_In _ _ _ E) as [Hin' Hk]. apply Z.eqb_eq in Hk.
    f_equal. eapply NoDup_key_inj; eassumption.
  - pose proof (get_None _ _ a E Hin) as Hf. simpl in Hf.
    rewrite Z.eqb_refl in Hf. discriminate.
Qed.

End Keys.

Lemma live_set_cancelled c b : live (Booking.set_cancelled c b) = false.
Proof. reflexivity. Qed.

Lemma live_set_status_cancelled b :
  live (Booking.set_status "cancelled" b) = false.
Proof. reflexivity. Qed.

Lemma slot_status_booked_upsert bid d t st rows s :
  slot_status s rows = Some "booked"%string ->
  slot_status s (upsert bid d t st rows) = Some "booked"%string.
Proof.
  unfold slot_status, upsert. intros H.
  destruct (get (fun a => Z.eqb (Availability.id a) s) rows) as [a|] eqn:E;
    [|discriminate].
  injection H as Hst.
  destruct (existsb (same_key bid d t) rows).
  - rewrite get_update by reflexivity. rewrite E. simpl.
    rewrite Hst, andb_false_r. simpl. f_equal. exact Hst.
  - rewrite (get_insert_old _ _ _ _ E). simpl. f_equal. exact Hst.
Qed.

Lemma NoDup_ids_upsert bid d t st rows :
  NoDup (map Availability.id rows) ->
  NoDup (map Availability.id (upsert bid d t st rows)).
Proof.
  intros Hnd. unfold upsert. destruct (existsb (same_key bid d t) rows).
  - rewrite map_key_update by reflexivity. exact Hnd.
  - apply NoDup_insert_fresh; [exact Hnd|reflexivity].
Qed.

Lemma upsert_entries_keep u slots rows :
  NoDup (map Availability.id rows) ->
  NoDup (map Availability.id (fold_left (upsert_entry u) slots rows))
  /\ (forall s, slot_status s rows = Some "booked"%string ->
                slot_status s (fold_left (upsert_entry u) slots rows)
                = Some "booked"%string).
Proof.
  revert rows. induction slots as [|e slots IH]; simpl; intros rows Hnd.
  - auto.
  - destruct (IH (upsert_entry u rows e)) as [Hnd' Hst'].
    + apply NoDup_ids_upsert. exact Hnd.
    + split; [exact Hnd'|]. intros s Hs. apply Hst'.
      apply slot_status_booked_upsert. exact Hs.
Qed.

Lemma consistent_upsert_many u slots db :
  consistent db -> consistent (db_after db (upsert_many u slots db)).
Proof.
  intros [Hsl Hbk Hheld Hsingle]. unfold upsert_many.
  destruct (negb (is_business u)); simpl; [constructor; assumption|].
  destruct (upsert_entries_keep u slots (availability db) Hsl) as [Hnd Hst].
  constructor; simpl; auto.
Qed.

Lemma consistent_create_booking draws u bid sid d t db db' reply :
  consistent db ->
  create_booking draws u bid sid d t db = Some (Done db' reply) ->
  consistent db'.
Proof.
  intros [Hsl Hbk Hheld Hsingle] H. apply create_booking_Done in H.
  destruct H as (slot & service & biz & code & _ & Hslot & _ & _ & _ & _ & _
                 & Hrows & Hav & _).
  destruct (get_Some_In _ _ _ Hslot) as [Hin Hp].
  unfold available_slot in Hp. apply andb_prop in Hp. destruct Hp as [_ Hs].
  apply String.eqb_eq in Hs.
  assert (Hfree : slot_status (Availability.id slot) (availability db)
                  = Some "available"%string).
  { unfold slot_status.
    rewrite (get_by_key Availability.id _ _ Hsl Hin). simpl. f_equal. exact Hs. }
  assert (Hold : forall b, In b (bookings db) -> live b = true ->
                           Booking.availability_id b <> Availability.id slot).
  { intros b Hb Hl Heq. specialize (Hheld b Hb Hl). rewrite Heq, Hfree in Hheld.
    discriminate. }
  constructor.
  - rewrite Hav, map_key_update by reflexivity. exact Hsl.
  - rewrite Hrows. apply NoDup_insert_fresh; [exact Hbk|reflexivity].
  - intros b Hb Hl. rewrite Hrows in Hb. unfold insert in Hb.
    apply in_app_or in Hb. rewrite Hav. destruct Hb as [Hb|[<-|[]]].
    + rewrite slot_status_set_other by (apply Hold; assumption). auto.
    + simpl. rewrite slot_status_set, Hfree. reflexivity.
  - intros b b' Hb Hb' Hl Hl' Heq. rewrite Hrows in Hb, Hb'. unfold insert in *.
    apply in_app_or in Hb. apply in_app_or in Hb'.
    destruct Hb as [Hb|[<-|[]]], Hb' as [Hb'|[<-|[]]]; auto.
    + exfalso. apply (Hold b Hb Hl). rewrite Heq. reflexivity.
    + exfalso. apply (Hold b' Hb' Hl'). rewrite <- Heq. reflexivity.
Qed.

(** Cancelling the rows with the id of a live booking [booking], with or
    without the release of its slot. *)
Lemma consistent_after_cancelling (f : Booking.t -> Booking.t) id booking db
      (rows : list Availability.t) :
  (forall b, Booking.id (f b) = Booking.id b) ->
  (forall b, live (f b) = false) ->
  consistent db ->
  In booking (bookings db) -> has_id id booking = true -> live booking = true ->
  rows = availability db
  \/ rows = release (Booking.availability_id booking) (availability db) ->
  consistent
    (with_availability rows (with_bookings (update (has_id id) f (bookings db)) db)).
Proof.
  intros Hid Hdead [Hsl Hbk Hheld Hsingle] Hin Hhas Hlive Hrows.
  assert (Hleft : forall b', In b' (update (has_id id) f (bookings db)) ->
                             live b' = true ->
                             In b' (bookings db) /\ has_id id b' = false).
  { intros b' Hb' Hl. apply In_update in Hb'. destruct Hb' as (b0 & Hb0 & ->).
    destruct (has_id id b0) eqn:E; [rewrite Hdead in Hl; discriminate|].
    auto. }
  constructor; simpl.
  - destruct Hrows as [->| ->]; [exact Hsl|].
    unfold release. rewrite map_key_update by reflexivity. exact Hsl.
  - rewrite map_key_update by exact Hid. exact Hbk.
  - intros b' Hb' Hl. destruct (Hleft b' Hb' Hl) as [Hold Hnot].
    destruct Hrows as [->| ->]; [auto|].
    rewrite slot_status_release_other; [auto|].
    intros Heq. assert (b' = booking) by (apply Hsingle; auto).
    subst b'. congruence.
  - intros b1 b2 H1 H2 Hl1 Hl2 Heq.
    destruct (Hleft b1 H1 Hl1) as [Ho1 _]. destruct (Hleft b2 H2 Hl2) as [Ho2 _].
    auto.
Qed.

Lemma consistent_cancel Date_parse now u id db :
  consistent db -> consistent (db_after db (cancel Date_parse now u id db)).
Proof.
  intros Hc. unfold cancel.
  destruct (negb (is_client u)); [exact Hc|].
  destruct (get (owned_by_client id u) (bookings db)) as [booking|] eqn:Hget;
    [|exact Hc].
  destruct (String.eqb (Booking.status booking) "cancelled") eqn:Hst;
    [exact Hc|].
  destruct (get_Some_In _ _ _ Hget) as [Hin Hown].
  pose proof (owned_by_client_has_id _ _ _ Hown) as Hhas.
  assert (Hlive : live booking = true) by (unfold live; rewrite Hst; reflexivity).
  simpl db_after.
  destruct (PrimFloat.eqb (cancellation_charge_for Date_parse now booking) 0).
  - apply (consistent_after_cancelling _ id booking db
             (release (Booking.availability_id booking) (availability db)));
      auto.
  - apply (consistent_after_cancelling
             (Booking.set_cancelled (cancellation_charge_for Date_parse now booking))
             id booking db (availability db));
      auto.
Qed.

Lemma consistent_reject u id db :
  on_live_booking (Reject u id) db ->
  consistent db -> consistent (db_after db (reject u id db)).
Proof.
  intros Hguard Hc. unfold reject.
  destruct (negb (is_business u)); [exact Hc|].
  destruct (get (owned_by_business id u) (bookings db)) as [booking|] eqn:Hget;
    [|exact Hc].
  destruct (get_Some_In _ _ _ Hget) as [Hin Hown].
  pose proof (owned_by_business_has_id _ _ _ Hown) as Hhas.
  simpl db_after.
  apply (consistent_after_cancelling (Booking.set_status "cancelled") id booking
           db (release (Booking.availability_id booking) (availability db)));
    auto.
Qed.

Lemma consistent_confirm u id db :
  on_live_booking (Confirm u id) db ->
  consistent db -> consistent (db_after db (confirm u id db)).
Proof.
  intros Hguard Hc. unfold confirm.
  destruct (negb (is_business u)); [exact Hc|].
  destruct (get (owned_by_business id u) (bookings db)) as [booking|] eqn:Hget;
    [|exact Hc].
  destruct (get_Some_In _ _ _ Hget) as [Hin Hown].
  pose proof (owned_by_business_has_id _ _ _ Hown) as Hhas.
  pose proof (Hguard booking Hget) as Hlive.
  destruct Hc as [Hsl Hbk Hheld Hsingle].
  assert (Hsrc : forall b', In b' (update (has_id id)
                                     (Booking.set_status "confirmed")
                                     (bookings db)) ->
                            live b' = true ->
                            exists b0, In b0 (bookings db) /\ live b0 = true
                                       /\ Booking.availability_id b0
                                          = Booking.availability_id b'
                                       /\ b' = (if has_id id b0
                                                then Booking.set_status "confirmed" b0
                                                else b0)).
  { intros b' Hb' Hl. apply In_update in Hb'. destruct Hb' as (b0 & Hb0 & ->).
    exists b0. destruct (has_id id b0) eqn:E.
    - assert (b0 = booking).
      { apply (NoDup_key_inj Booking.id (bookings db)); auto.
        unfold has_id in E, Hhas. apply Z.eqb_eq in E. apply Z.eqb_eq in Hhas.
        congruence. }
      subst b0. auto.
    - auto. }
  simpl db_after. constructor; simpl.
  - exact Hsl.
  - rewrite map_key_update by reflexivity. exact Hbk.
  - intros b' Hb' Hl. destruct (Hsrc b' Hb' Hl) as (b0 & Hb0 & Hl0 & <- & _).
    auto.
  - intros b1 b2 H1 H2 Hl1 Hl2 Heq.
    destruct (Hsrc b1 H1 Hl1) as (o1 & Ho1 & Hlo1 & Ha1 & ->).
    destruct (Hsrc b2 H2 Hl2) as (o2 & Ho2 & Hlo2 & Ha2 & ->).
    assert (o1 = o2) by (apply Hsingle; auto; congruence).
    subst o2. reflexivity.
Qed.

Lemma consistent_attach_review u id rating comment db :
  consistent db ->
  consistent (db_after db (attach_review u id rating comment db)).
Proof.
  intros Hc.
  destruct (attach_review u id rating comment db) as [db' []|e] eqn:E;
    [|exact Hc].
  apply attach_review_Done in E.
  destruct E as (r & booking & _ & _ & _ & _ & _ & ->).
  destruct Hc as [Hsl Hbk Hheld Hsingle]. constructor; simpl; auto.
Qed.

(** Every request keeps slots and bookings consistent, provided a confirm
    or a reject is on a live booking. *)
Lemma consistent_handle Date_parse req db :
  on_live_booking req db ->
  consistent db -> consistent (handle Date_parse req db).
Proof.
  intros Hguard Hc. destruct req; simpl.
  - apply consistent_upsert_many. exact Hc.
  - destruct (create_booking draws u business_id service_id date time db)
      as [[db' reply|e]|] eqn:E; simpl; try exact Hc.
    eapply consistent_create_booking; eassumption.
  - apply consistent_confirm; assumption.
  - apply consistent_reject; assumption.
  - apply consistent_cancel. exact Hc.
  - apply consistent_attach_review. exact Hc.
Qed.

(** In a consistent store a slot has at most one live booking. *)
Lemma consistent_one_holder db slot_id :
  consistent db -> (List.length (holders slot_id (bookings db)) <= 1)%nat.
Proof.
  intros [_ Hbk _ Hsingle]. unfold holders.
  assert (Hnd : NoDup (bookings db)) by (eapply NoDup_map_inv; exact Hbk).
  pose proof (NoDup_filter
                (fun b => live b && Z.eqb (Booking.availability_id b) slot_id)
                Hnd) as Hf.
  assert (Hall : forall b, In b (filter
                                   (fun b => live b
                                             && Z.eqb (Booking.availability_id b)
                                                      slot_id)
                                   (bookings db)) ->
                           In b (bookings db) /\ live b = true
                           /\ Booking.availability_id b = slot_id).
  { intros b Hb. apply filter_In in Hb. destruct Hb as [Hb Hp].
    apply andb_prop in Hp. destruct Hp as [Hl Ha]. apply Z.eqb_eq in Ha. auto. }
  destruct (filter _ (bookings db)) as [|b1 [|b2 rest]]; simpl; try lia.
  exfalso.
  destruct (Hall b1) as (H1 & Hl1 & Ha1); [simpl; auto|].
  destruct (Hall b2) as (H2 & Hl2 & Ha2); [simpl; auto|].
  assert (b1 = b2) by (apply Hsingle; auto; congruence). subst b2.
  inversion Hf as [|x xs Hnotin _]; subst. apply Hnotin. simpl. auto.
Qed.

Lemma consistent_empty bs ss : consistent (mkDB bs ss [] [] []).
Proof.
  constructor; simpl; try constructor; contradiction.
Qed.

(** From a consistent store, for instance one without slots and bookings,
    no run of requests in which confirm and reject are on live bookings
    gives a slot two live bookings. *)
Lemma no_double_booking_on_live_runs Date_parse reqs db slot_id :
  consistent db ->
  all_on_live Date_parse reqs db ->
  (List.length (holders slot_id (bookings (run Date_parse reqs db))) <= 1)%nat.
Proof.
  revert db. induction reqs as [|req reqs IH]; simpl; intros db Hc Hlive.
  - apply consistent_one_holder. exact Hc.
  - destruct Hlive as [Hreq Hrest].
    apply IH; [apply consistent_handle; assumption|exact Hrest].
Qed.

(** The six requests of the double booking as a run: the second reject
    is the one that is not on a live booking. *)
Example double_booking_run :
  run Sample.Date_parse Sample.six_requests Sample.empty = Sample.booked_twice
  /\ ~ all_on_live Sample.Date_parse Sample.six_requests Sample.empty.
Proof.
  split; [vm_compute; reflexivity|].
  simpl. intros (_ & _ & _ & _ & Hreject & _).
  specialize (Hreject
                (Booking.set_status "cancelled" Sample.ana_booking) eq_refl).
  discriminate Hreject.
Qed.

(** ** Ownership *)

Lemma get_none_foreign_business u id rows :
  (forall b, In b rows -> Booking.id b = id ->
             Booking.business_id b <> User.id u) ->
  get (owned_by_business id u) rows = None.
Proof.
  intros H. apply get_none_of_all_false. intros b Hin.
  unfold owned_by_business.
  destruct (Z.eqb (Booking.id b) id) eqn:E; [|reflexivity].
  apply Z.eqb_eq in E. simpl. apply Z.eqb_neq. auto.
Qed.

Lemma get_none_foreign_client u id rows :
  (forall b, In b rows -> Booking.id b = id ->
             Booking.client_id b <> User.id u) ->
  get (owned_by_client id u) rows = None.
Proof.
  intros H. apply get_none_of_all_false. intros b Hin.
  unfold owned_by_client.
  destruct (Z.eqb (Booking.id b) id) eqn:E; [|reflexivity].
  apply Z.eqb_eq in E. simpl. apply Z.eqb_neq. auto.
Qed.

(** X1.  A business that asks to confirm or to reject a booking of
    another business gets NotFound, the answer for an id no booking has,
    and nothing is written. *)
Theorem foreign_booking_not_found_for_business :
  forall (u : User.t) (id : Z) (db : DB),
    is_business u = true ->
    (forall b, In b (bookings db) -> Booking.id b = id ->
               Booking.business_id b <> User.id u) ->
    confirm u id db = Fail NotFound
    /\ reject u id db = Fail NotFound
    /\ db_after db (confirm u id db) = db
    /\ db_after db (reject u id db) = db.
Proof.
  intros u id db Hu Hforeign.
  pose proof (get_none_foreign_business u id _ Hforeign) as Hnone.
  unfold confirm, reject. rewrite Hu, Hnone. simpl. auto.
Qed.

(** X2.  A client that asks to cancel a booking of another client gets
    NotFound, and one that reviews it with a rating in range gets
    InvalidState; nothing is written. *)
Theorem foreign_booking_not_found_for_client :
  forall (Date_parse : string -> float) (now : float) (u : User.t) (id : Z)
         (rating : option float) (comment : option string) (db : DB),
    is_client u = true ->
    (forall b, In b (bookings db) -> Booking.id b = id ->
               Booking.client_id b <> User.id u) ->
    cancel Date_parse now u id db = Fail NotFound
    /\ (rating_refused rating = false ->
        attach_review u id rating comment db = Fail InvalidState).
Proof.
  intros D now u id rating comment db Hu Hforeign.
  pose proof (get_none_foreign_client u id _ Hforeign) as Hnone.
  split.
  - unfold cancel. rewrite Hu, Hnone. reflexivity.
  - intros Hr.
    destruct (attach_review_from_rating u id rating comment db Hu Hr)
      as (r & _ & ->).
    rewrite Hnone. reflexivity.
Qed.

(** ** What no request changes *)

Lemma same_booking_refl b : same_booking b b.
Proof. unfold same_booking. repeat split; reflexivity. Qed.

Lemma same_booking_update p f rows i b :
  (forall x, same_booking x (f x)) ->
  nth_error rows i = Some b ->
  exists b', nth_error (update p f rows) i = Some b' /\ same_booking b b'.
Proof.
  intros Hf Hi. rewrite nth_error_update, Hi. simpl.
  destruct (p b); eexists; split; try reflexivity; auto using same_booking_refl.
Qed.

Lemma same_booking_set_status s b : same_booking b (Booking.set_status s b).
Proof. unfold same_booking. repeat split; reflexivity. Qed.

Lemma same_booking_set_cancelled c b : same_booking b (Booking.set_cancelled c b).
Proof. unfold same_booking. repeat split; reflexivity. Qed.

(** X3.  No request removes or reorders a booking, and none changes a
    booking's id, client, business, service, slot, date, time, price,
    commission or confirmation code: whatever the request, the row at
    each position of the bookings table is still there afterwards and
    differs at most in status and cancellation charge. *)
Theorem bookings_are_kept :
  forall (Date_parse : string -> float) (req : request) (db : DB)
         (i : nat) (b : Booking.t),
    nth_error (bookings db) i = Some b ->
    exists b',
      nth_error (bookings (handle Date_parse req db)) i = Some b'
      /\ same_booking b b'.
Proof.
  intros D req db i b Hi.
  assert (Hsame : exists b', nth_error (bookings db) i = Some b'
                             /\ same_booking b b')
    by (exists b; auto using same_booking_refl).
  destruct req; simpl.
  - unfold upsert_many. destruct (negb (is_business u)); exact Hsame.
  - destruct (create_booking draws u business_id service_id date time db)
      as [[db' reply|e]|] eqn:E; simpl; try exact Hsame.
    apply create_booking_Done in E.
    destruct E as (slot & service & biz & code & _ & _ & _ & _ & _ & _ & _
                   & Hrows & _).
    exists b. split; [|apply same_booking_refl].
    rewrite Hrows. unfold insert. rewrite nth_error_app1; [exact Hi|].
    apply nth_error_Some. congruence.
  - unfold confirm. destruct (negb (is_business u)); [exact Hsame|].
    destruct (get _ (bookings db)); [|exact Hsame]. simpl.
    apply same_booking_update; [apply same_booking_set_status|exact Hi].
  - unfold reject. destruct (negb (is_business u)); [exact Hsame|].
    destruct (get _ (bookings db)); [|exact Hsame]. simpl.
    apply same_booking_update; [apply same_booking_set_status|exact Hi].
  - unfold cancel. destruct (negb (is_client u)); [exact Hsame|].
    destruct (get _ (bookings db)) as [bk|]; [|exact Hsame].
    destruct (String.eqb (Booking.status bk) "cancelled"); [exact Hsame|].
    simpl db_after. destruct (PrimFloat.eqb _ 0); simpl;
      (apply same_booking_update; [apply same_booking_set_cancelled|exact Hi]).
  - destruct (attach_review u id rating comment db) as [db' []|e] eqn:E;
      simpl; [|exact Hsame].
    apply attach_review_Done in E.
    destruct E as (r & booking & _ & _ & _ & _ & _ & ->). exact Hsame.
Qed.

(** X4.  A confirm, reject or cancel request leaves every booking with
    another id exactly as it was, and every slot whose id is not the
    availability id of a booking with the named id. *)
Theorem status_requests_touch_one_booking :
  forall (Date_parse : string -> float) (req : request) (id : Z) (db : DB),
    named_booking req = Some id ->
    (forall i b, nth_error (bookings db) i = Some b -> Booking.id b <> id ->
                 nth_error (bookings (handle Date_parse req db)) i = Some b)
    /\ (forall i a,
           nth_error (availability db) i = Some a ->
           (forall b, In b (bookings db) -> Booking.id b = id ->
                      Booking.availability_id b <> Availability.id a) ->
           nth_error (availability (handle Date_parse req db)) i = Some a)
    /\ businesses (handle Date_parse req db) = businesses db
    /\ services (handle Date_parse req db) = services db
    /\ reviews (handle Date_parse req db) = reviews db.
Proof.
  intros D req id db Hreq.
  assert (Hother : forall f i b,
             nth_error (bookings db) i = Some b -> Booking.id b <> id ->
             nth_error (update (has_id id) f (bookings db)) i = Some b).
  { intros f i b Hi Hne. rewrite nth_error_update, Hi. simpl.
    unfold has_id. apply Z.eqb_neq in Hne. rewrite Hne. reflexivity. }
  assert (Hslot : forall booking i a,
             In booking (bookings db) -> has_id id booking = true ->
             nth_error (availability db) i = Some a ->
             (forall b, In b (bookings db) -> Booking.id b = id ->
                        Booking.availability_id b <> Availability.id a) ->
             nth_error (release (Booking.availability_id booking)
                                (availability db)) i = Some a).
  { intros booking i a Hin Hhas Hi Hfree. unfold release.
    rewrite nth_error_update, Hi. simpl.
    unfold has_id in Hhas. apply Z.eqb_eq in Hhas.
    specialize (Hfree booking Hin Hhas).
    destruct (Z.eqb (Availability.id a) (Booking.availability_id booking)) eqn:E;
      [|reflexivity].
    apply Z.eqb_eq in E. congruence. }
  destruct req; try discriminate; injection Hreq as ->; simpl.
  - unfold confirm. destruct (negb (is_business u)); [auto|].
    destruct (get _ (bookings db)); simpl; auto.
  - unfold reject. destruct (negb (is_business u)); [auto|].
    destruct (get _ (bookings db)) as [booking|] eqn:Hget; simpl; [|auto].
    destruct (get_Some_In _ _ _ Hget) as [Hin Hown].
    pose proof (owned_by_business_has_id _ _ _ Hown) as Hhas.
    repeat split; eauto.
  - unfold cancel. destruct (negb (is_client u)); [auto|].
    destruct (get _ (bookings db)) as [booking|] eqn:Hget; simpl; [|auto].
    destruct (String.eqb (Booking.status booking) "cancelled"); [auto|].
    destruct (get_Some_In _ _ _ Hget) as [Hin Hown].
    pose proof (owned_by_client_has_id _ _ _ Hown) as Hhas.
    simpl db_after. destruct (PrimFloat.eqb _ 0); simpl; repeat split; eauto.
Qed.

(** ** More on the creation of a booking *)

(** X5.  The booking a successful request stores is appended to the
    table with an id above every id in it, for the asking client, with
    status 'pending' and charge 0, at the date and time asked; every slot
    but the one it takes is left as it was. *)
Theorem created_booking_is_new :
  forall (draws : list string) (u : User.t) (business_id service_id : Z)
         (date time : string) (db db' : DB) (reply : booking_reply),
    create_booking draws u business_id service_id date time db
    = Some (Done db' reply) ->
    exists row,
      bookings db' = bookings db ++ [row]
      /\ Booking.id row = reply_id reply
      /\ (forall b, In b (bookings db) -> Booking.id b < Booking.id row)
      /\ Booking.client_id row = User.id u
      /\ Booking.business_id row = business_id
      /\ Booking.date row = date /\ Booking.time row = time
      /\ Booking.status row = "pending"%string
      /\ Booking.cancellation_charge row = 0%float
      /\ (forall i a,
             nth_error (availability db) i = Some a ->
             Availability.id a <> Booking.availability_id row ->
             nth_error (availability db') i = Some a).
Proof.
  intros draws u bid sid d t db db' reply H.
  apply create_booking_Done in H.
  destruct H as (slot & service & biz & code & _ & _ & _ & _ & _ & _ & Hid
                 & Hrows & Hav & _).
  eexists. split; [exact Hrows|]. rewrite Hid. simpl.
  split; [reflexivity|]. split; [apply lastInsertRowid_gt|].
  repeat split; try reflexivity.
  intros i a Hi Hne. rewrite Hav, nth_error_update, Hi. simpl.
  apply Z.eqb_neq in Hne. rewrite Hne. reflexivity.
Qed.

Lemma create_booking_no_active_service draws u bid sid d t db slot :
  is_client u = true ->
  get (available_slot bid d t) (availability db) = Some slot ->
  (forall s, In s (services db) -> Service.id s = sid ->
             Service.business_id s <> bid \/ Service.active s <> 1) ->
  create_booking draws u bid sid d t db = Some (Fail ServiceNotFound).
Proof.
  intros Hu Hslot Hnone.
  unfold create_booking. rewrite Hu, Hslot. simpl.
  rewrite (get_none_of_all_false (active_service sid bid) (services db));
    [reflexivity|].
  intros s Hin. unfold active_service.
  destruct (Z.eqb (Service.id s) sid) eqn:E; [|reflexivity].
  apply Z.eqb_eq in E. simpl.
  destruct (Hnone s Hin E) as [Hb|Ha].
  - apply Z.eqb_neq in Hb. rewrite Hb. reflexivity.
  - apply Z.eqb_neq in Ha. rewrite Ha. apply andb_false_r.
Qed.

(** X6.  With an available slot at the key, a client's request naming a
    service which is not an active service of that business (another
    business's, or switched off) is refused with ServiceNotFound. *)
Theorem booking_needs_active_service :
  forall (draws : list string) (u : User.t) (business_id service_id : Z)
         (date time : string) (db : DB) (slot : Availability.t),
    is_client u = true ->
    get (available_slot business_id date time) (availability db) = Some slot ->
    (forall s, In s (services db) -> Service.id s = service_id ->
               Service.business_id s <> business_id \/ Service.active s <> 1) ->
    create_booking draws u business_id service_id date time db
    = Some (Fail ServiceNotFound).
Proof.
  intros draws u bid sid d t db slot. apply create_booking_no_active_service.
Qed.

(** ** More on cancel *)

Lemma cancel_Done Date_parse now u id db db' charge :
  cancel Date_parse now u id db = Done db' charge ->
  exists booking,
    is_client u = true
    /\ get (owned_by_client id u) (bookings db) = Some booking
    /\ String.eqb (Booking.status booking) "cancelled" = false
    /\ charge = cancellation_charge_for Date_parse now booking
    /\ bookings db'
       = update (has_id id) (Booking.set_cancelled charge) (bookings db)
    /\ availability db'
       = (if PrimFloat.eqb charge 0
          then release (Booking.availability_id booking) (availability db)
          else availability db).
Proof.
  unfold cancel. destruct (is_client u); simpl negb; cbv iota; [|discriminate].
  destruct (get (owned_by_client id u) (bookings db)) as [booking|];
    [|discriminate].
  destruct (String.eqb (Booking.status booking) "cancelled") eqn:Hst;
    [discriminate|].
  destruct (PrimFloat.eqb (cancellation_charge_for Date_parse now booking) 0)
    eqn:Hc;
    intros H; injection H as <- <-; exists booking; rewrite Hc;
    repeat split; first [reflexivity | assumption].
Qed.


Lemma create_booking_SlotUnavailable draws u bid sid d t db :
  create_booking draws u bid sid d t db = Some (Fail SlotUnavailable) ->
  is_client u = true
  /\ get (available_slot bid d t) (availability db) = None.
Proof.
  unfold create_booking. destruct (is_client u); simpl; [|discriminate].
  destruct (get (available_slot bid d t) (availability db)); [|auto].
  destruct (get _ (services db)); [|discriminate].
  destruct (get _ (businesses db)); [|discriminate].
  destruct (unused_code (bookings db) draws); discriminate.
Qed.

(** X8.  A cancel that charges frees nothing: the slot table is the one
    before, and a booking request that was refused with SlotUnavailable
    before the cancel is refused with SlotUnavailable after it. *)
Theorem charged_cancel_frees_nothing :
  forall (Date_parse : string -> float) (now : float) (u : User.t) (id : Z)
         (db db' : DB) (charge : float),
    cancel Date_parse now u id db = Done db' charge ->
    PrimFloat.eqb charge 0 = false ->
    availability db' = availability db
    /\ (forall draws draws' u' bid sid d t,
           create_booking draws u' bid sid d t db = Some (Fail SlotUnavailable) ->
           create_booking draws' u' bid sid d t db'
           = Some (Fail SlotUnavailable)).
Proof.
  intros D now u id db db' charge H Hc. apply cancel_Done in H.
  destruct H as (booking & _ & _ & _ & _ & _ & Hav). rewrite Hc in Hav.
  split; [exact Hav|].
  intros draws draws' u' bid sid d t Hfail.
  apply create_booking_SlotUnavailable in Hfail. destruct Hfail as [Hu' Hnone].
  apply create_booking_slot_unavailable; [exact Hu'|]. rewrite Hav. exact Hnone.
Qed.

(** X9.  A cancel without charge opens the slot again: when the booking
    points to the slot at its own business, date and time, that slot is
    afterwards the available slot a booking request for this key finds,
    so the request is not refused with SlotUnavailable. *)
Theorem free_cancel_reopens_slot :
  forall (Date_parse : string -> float) (now : float) (u : User.t) (id : Z)
         (db db' : DB) (charge : float) (booking : Booking.t)
         (slot : Availability.t),
    cancel Date_parse now u id db = Done db' charge ->
    PrimFloat.eqb charge 0 = true ->
    get (owned_by_client id u) (bookings db) = Some booking ->
    unique_keys (availability db) ->
    In slot (availability db) ->
    Availability.id slot = Booking.availability_id booking ->
    same_key (Booking.business_id booking) (Booking.date booking)
             (Booking.time booking) slot = true ->
    get (available_slot (Booking.business_id booking) (Booking.date booking)
                        (Booking.time booking))
        (availability db')
    = Some (Availability.set_status "available" slot)
    /\ (forall draws u' sid,
           create_booking draws u' (Booking.business_id booking) sid
                          (Booking.date booking) (Booking.time booking) db'
           <> Some (Fail SlotUnavailable)).
Proof.
  intros D now u id db db' charge booking slot H Hc Hget Huniq Hin Hid Hkey.
  apply cancel_Done in H.
  destruct H as (booking' & _ & Hget' & _ & _ & _ & Hav).
  rewrite Hget in Hget'. injection Hget' as <-. rewrite Hc in Hav.
  assert (Hfound :
    get (available_slot (Booking.business_id booking) (Booking.date booking)
                        (Booking.time booking)) (availability db')
    = Some (Availability.set_status "available" slot)).
  { rewrite Hav. unfold release.
    destruct (get _ (update _ _ (availability db))) as [r'|] eqn:E.
    - destruct (get_Some_In _ _ _ E) as [Hr' Hp].
      apply In_update in Hr'. destruct Hr' as (r & Hr & ->).
      assert (Hk : same_key (Booking.business_id booking) (Booking.date booking)
                            (Booking.time booking) r = true).
      { unfold available_slot in Hp. apply andb_prop in Hp. destruct Hp as [Hk _].
        destruct (Z.eqb (Availability.id r) (Booking.availability_id booking));
          exact Hk. }
      assert (slot = r).
      { apply Huniq; auto.
        destruct (same_key_eq _ _ _ _ Hkey) as (-> & -> & ->). exact Hk. }
      subst r. rewrite Hid, Z.eqb_refl. reflexivity.
    - exfalso.
      assert (Hin' : In (Availability.set_status "available" slot)
                        (update (fun a => Z.eqb (Availability.id a)
                                            (Booking.availability_id booking))
                                (Availability.set_status "available")
                                (availability db))).
      { unfold update. apply in_map_iff. exists slot. split; [|exact Hin].
        rewrite Hid, Z.eqb_refl. reflexivity. }
      pose proof (get_None _ _ _ E Hin') as Hf.
      unfold available_slot in Hf. simpl in Hf.
      change (same_key (Booking.business_id booking) (Booking.date booking)
                (Booking.time booking)
                (Availability.set_status "available" slot))
        with (same_key (Booking.business_id booking) (Booking.date booking)
                (Booking.time booking) slot) in Hf.
      rewrite Hkey in Hf. discriminate. }
  split; [exact Hfound|].
  intros draws u' sid Hfail.
  apply create_booking_SlotUnavailable in Hfail. destruct Hfail as [_ Hnone].
  rewrite Hfound in Hnone. discriminate.
Qed.

(** ** More on the bulk edit of the schedule *)

Lemma same_key_set_status bid d t st a :
  same_key bid d t (Availability.set_status st a) = same_key bid d t a.
Proof. reflexivity. Qed.

Lemma unique_keys_upsert bid d t st rows :
  unique_keys rows -> unique_keys (upsert bid d t st rows).
Proof.
  intros Huniq. unfold upsert.
  destruct (existsb (same_key bid d t) rows) eqn:Hex.
  - intros a a' Ha Ha' Hk.
    apply In_update in Ha. destruct Ha as (b & Hb & ->).
    apply In_update in Ha'. destruct Ha' as (b' & Hb' & ->).
    assert (b = b').
    { apply Huniq; auto.
      destruct (_ && _) in Hk; destruct (_ && _) in Hk; exact Hk. }
    subst b'. reflexivity.
  - pose proof (proj1 (existsb_same_key_false bid d t rows) Hex) as Hnone.
    intros a a' Ha Ha' Hk. unfold insert in Ha, Ha'.
    apply in_app_or in Ha. apply in_app_or in Ha'.
    destruct Ha as [Ha|[<-|[]]], Ha' as [Ha'|[<-|[]]]; auto.
    + exfalso. destruct (same_key_eq _ _ _ _ Hk) as (Hb & Hd & Ht).
      simpl in Hb, Hd, Ht.
      assert (same_key bid d t a = true).
      { unfold same_key. rewrite <- Hb, <- Hd, <- Ht.
        rewrite Z.eqb_refl, !String.eqb_refl. reflexivity. }
      rewrite (Hnone a Ha) in H. discriminate.
    + exfalso. simpl in Hk. rewrite (Hnone a' Ha') in Hk. discriminate.
Qed.

Lemma upsert_entries_unique u slots rows :
  unique_keys rows -> unique_keys (fold_left (upsert_entry u) slots rows).
Proof.
  revert rows. induction slots as [|e slots IH]; simpl; intros rows H;
    [exact H|].
  apply IH. apply unique_keys_upsert. exact H.
Qed.

Lemma upsert_entries_in_place u slots rows i a :
  nth_error rows i = Some a ->
  Availability.business_id a <> User.id u
  \/ Availability.status a = "booked"%string ->
  nth_error (fold_left (upsert_entry u) slots rows) i = Some a.
Proof.
  revert rows. induction slots as [|e slots IH]; simpl; intros rows Hi Hwhy;
    [exact Hi|].
  apply IH; [|exact Hwhy]. unfold upsert_entry.
  destruct (upsert_cases (User.id u) (Slot.date e) (Slot.time e)
              (status_or_default (Slot.status e)) rows)
    as (_ & _ & Hbooked & Hother).
  destruct Hwhy as [Hbiz|Hst]; [|apply Hbooked; assumption].
  apply Hother; [exact Hi|]. unfold same_key.
  apply Z.eqb_neq in Hbiz. rewrite Hbiz. reflexivity.
Qed.

(** X10.  Over a whole bulk edit, whatever its entries and their order,
    the slots of other businesses and the slots with status 'booked' stay
    in place unchanged, and no slot is removed. *)
Theorem upsert_many_leaves_booked_and_foreign_slots :
  forall (u : User.t) (slots : list Slot.t) (db : DB) (i : nat)
         (a : Availability.t),
    nth_error (availability db) i = Some a ->
    (Availability.business_id a <> User.id u
     \/ Availability.status a = "booked"%string ->
     nth_error (availability (db_after db (upsert_many u slots db))) i = Some a)
    /\ (List.length (availability db)
        <= List.length (availability (db_after db (upsert_many u slots db))))%nat.
Proof.
  intros u slots db i a Hi. unfold upsert_many.
  destruct (negb (is_business u)); simpl; [auto|]. split.
  - apply upsert_entries_in_place. exact Hi.
  - clear Hi. generalize (availability db) as rows.
    induction slots as [|e slots IH]; simpl; intros rows; [lia|].
    specialize (IH (upsert_entry u rows e)).
    assert (List.length rows <= List.length (upsert_entry u rows e))%nat;
      [|lia].
    unfold upsert_entry, upsert. destruct (existsb _ rows).
    + rewrite length_update. lia.
    + unfold insert. rewrite length_app. simpl. lia.
Qed.

(** X11.  A bulk edit keeps the table within its constraints: when no
    two slots have the same (business, date, time) and no two the same
    id before, the same holds after, whatever the entries. *)
Theorem upsert_many_keeps_keys_unique :
  forall (u : User.t) (slots : list Slot.t) (db : DB),
    unique_keys (availability db) ->
    NoDup (map Availability.id (availability db)) ->
    unique_keys (availability (db_after db (upsert_many u slots db)))
    /\ NoDup (map Availability.id
                  (availability (db_after db (upsert_many u slots db)))).
Proof.
  intros u slots db Huniq Hnd. unfold upsert_many.
  destruct (negb (is_business u)); simpl; [auto|]. split.
  - apply upsert_entries_unique. exact Huniq.
  - apply (upsert_entries_keep u slots _ Hnd).
Qed.

(** ** More on reviews *)

Lemma recompute_reviews bid db : reviews (recompute bid db) = reviews db.
Proof. reflexivity. Qed.


(** ** The catalog *)

Lemma get_insert_new {A : Type} (p : A -> bool) rows row :
  get p rows = None -> p row = true -> get p (insert row rows) = Some row.
Proof.
  unfold get, insert. induction rows as [|a rows IH]; simpl; intros Hnone Hp.
  - rewrite Hp. reflexivity.
  - destruct (p a); [discriminate|]. auto.
Qed.

Lemma create_service_Sent u name duration_minutes price db db' code row :
  create_service u name duration_minutes price db = Sent db' code row ->
  exists n d p,
    name = Some n /\ duration_minutes = Some d /\ price = Some p
    /\ is_business u = true
    /\ service_fields_missing name duration_minutes price = false
    /\ code = 201
    /\ row = Service.mk (lastInsertRowid Service.id (services db)) (User.id u)
                        n d p 1
    /\ db' = with_services (insert row (services db)) db.
Proof.
  unfold create_service.
  destruct (is_business u); simpl negb; cbv iota; [|discriminate].
  destruct name as [n|]; [|discriminate].
  destruct duration_minutes as [d|]; [|discriminate].
  destruct price as [p|]; [|discriminate].
  destruct (service_fields_missing (Some n) (Some d) (Some p)) eqn:E;
    [discriminate|].
  intros H. injection H as <- <- <-. exists n, d, p. repeat split; auto.
Qed.


Lemma update_service_Sent u id name duration_minutes price active db db' code :
  update_service u id name duration_minutes price active db = Sent db' code tt ->
  is_business u = true
  /\ code = 200
  /\ db' = with_services
             (update (own_service id u)
                     (edit_service name duration_minutes price active)
                     (services db)) db.
Proof.
  unfold update_service. destruct (is_business u); simpl; [|discriminate].
  intros H. injection H as <- <-. auto.
Qed.


(** X15.  Once its business has switched a service off, no booking of it
    is accepted: with an available slot at the key, a client's request
    for that service is refused with ServiceNotFound. *)
Theorem switched_off_service_is_not_booked :
  forall (u c : User.t) (id : Z) (name : option string)
         (duration_minutes : option Z) (price : option float) (db db' : DB)
         (code : Z) (draws : list string) (date time : string)
         (slot : Availability.t),
    update_service u id name duration_minutes price (Some 0) db
    = Sent db' code tt ->
    is_client c = true ->
    get (available_slot (User.id u) date time) (availability db') = Some slot ->
    create_booking draws c (User.id u) id date time db'
    = Some (Fail ServiceNotFound).
Proof.
  intros u c id name dur price db db' code draws d t slot H Hc Hslot.
  apply update_service_Sent in H. destruct H as (_ & _ & ->).
  eapply create_booking_no_active_service; [exact Hc|exact Hslot|].
  simpl. intros s Hin Hid. apply In_update in Hin.
  destruct Hin as (s0 & _ & ->).
  destruct (own_service id u s0) eqn:E.
  - right. simpl. discriminate.
  - left. intros Hb. unfold own_service in E. rewrite Hid, Hb in E.
    rewrite !Z.eqb_refl in E. discriminate.
Qed.

(** X16.  A change of price reaches new bookings only: the bookings
    stored before keep their price and commission, and a booking of that
    service made after the change is stored at the new price. *)
Theorem price_change_reaches_new_bookings_only :
  forall (u c : User.t) (id : Z) (name : option string)
         (duration_minutes : option Z) (p : float) (active : option Z)
         (db db1 db2 : DB) (code : Z) (draws : list string)
         (date time : string) (reply : booking_reply),
    update_service u id name duration_minutes (Some p) active db
    = Sent db1 code tt ->
    create_booking draws c (User.id u) id date time db1 = Some (Done db2 reply) ->
    bookings db1 = bookings db
    /\ exists row,
         bookings db2 = bookings db ++ [row]
         /\ Booking.service_id row = id
         /\ Booking.price row = p
         /\ reply_price reply = p.
Proof.
  intros u c id name dur p active db db1 db2 code draws d t reply H Hbook.
  apply update_service_Sent in H. destruct H as (_ & _ & ->).
  split; [reflexivity|].
  unfold create_booking in Hbook.
  destruct (is_client c); simpl in Hbook; [|discriminate].
  destruct (get (available_slot (User.id u) d t) (availability db)) as [slot|];
    [|discriminate].
  destruct (get (active_service id (User.id u)) _) as [service|] eqn:Hs;
    [|discriminate].
  destruct (get _ (businesses db)) as [biz|]; [|discriminate].
  destruct (unused_code (bookings db) draws) as [code'|]; [|discriminate].
  injection Hbook as <- <-.
  assert (Hprice : Service.price service = p).
  { destruct (get_Some_In _ _ _ Hs) as [Hin Hact].
    apply In_update in Hin. destruct Hin as (s0 & _ & ->).
    unfold active_service in Hact.
    apply andb_prop in Hact. destruct Hact as [Hact _].
    destruct (own_service id u s0) eqn:E; [reflexivity|].
    unfold own_service in E. rewrite Hact in E. discriminate. }
  eexists. split; [reflexivity|]. simpl. auto.
Qed.

(** ** Ordering of rows *)

Section OrderByFacts.
Context {A : Type}.
Variable le : A -> A -> bool.

Lemma In_put_in_order x l y :
  In y (put_in_order le x l) <-> y = x \/ In y l.
Proof.
  induction l as [|z l IH]; simpl.
  - intuition congruence.
  - destruct (le x z); simpl; [intuition congruence|].
    rewrite IH. intuition congruence.
Qed.

Lemma In_ORDER_BY l y : In y (ORDER_BY le l) <-> In y l.
Proof.
  induction l as [|x l IH]; simpl; [tauto|].
  rewrite In_put_in_order, IH. intuition congruence.
Qed.

Lemma length_put_in_order x l :
  List.length (put_in_order le x l) = S (List.length l).
Proof.
  induction l as [|z l IH]; simpl; [reflexivity|].
  destruct (le x z); simpl; congruence.
Qed.

Lemma length_ORDER_BY l : List.length (ORDER_BY le l) = List.length l.
Proof.
  induction l as [|x l IH]; simpl; [reflexivity|].
  rewrite length_put_in_order. congruence.
Qed.

(** The order [le] is total on the rows that satisfy [P]. *)
Variable P : A -> Prop.
Hypothesis le_total :
  forall a b, P a -> P b -> le a b = false -> le b a = true.

Lemma in_order_put x l :
  P x -> Forall P l -> in_order le l -> in_order le (put_in_order le x l).
Proof.
  intros Hx. induction l as [|y l IH]; intros HP Hl; [exact I|].
  inversion HP as [|? ? Hy HPl]; subst.
  cbn [put_in_order]. destruct (le x y) eqn:Exy.
  - split; assumption.
  - assert (Hyx : le y x = true) by (apply le_total; assumption).
    destruct l as [|z l].
    + simpl. auto.
    + destruct Hl as [Hyz Hl]. specialize (IH HPl Hl).
      cbn [put_in_order] in *. destruct (le x z); split; assumption.
Qed.

Lemma Forall_put_in_order x l :
  P x -> Forall P l -> Forall P (put_in_order le x l).
Proof.
  intros Hx HP. apply Forall_forall. intros y Hy.
  apply In_put_in_order in Hy. destruct Hy as [->|Hy]; [exact Hx|].
  rewrite Forall_forall in HP. auto.
Qed.

Lemma in_order_ORDER_BY l : Forall P l -> in_order le (ORDER_BY le l).
Proof.
  induction l as [|x l IH]; intros HP; [exact I|].
  inversion HP as [|? ? Hx HPl]; subst. simpl.
  apply in_order_put; auto.
  clear IH HP Hx. induction l as [|y l IH]; simpl; [constructor|].
  inversion HPl; subst. apply Forall_put_in_order; auto.
Qed.

End OrderByFacts.

(** ** More comparisons of binary64 values *)

Lemma leb_of_ltb (x y : float) :
  PrimFloat.ltb x y = true -> PrimFloat.leb x y = true.
Proof.
  rewrite leb_spec, ltb_spec. unfold SFleb, SFltb.
  destruct (SFcompare (Prim2SF x) (Prim2SF y)) as [[ | | ]|]; congruence.
Qed.

Lemma leb_total (x y : float) :
  PrimFloat.eqb x x = true -> PrimFloat.eqb y y = true ->
  PrimFloat.leb x y = false -> PrimFloat.leb y x = true.
Proof.
  intros Hx Hy H. rewrite (leb_negb_ltb x y Hx Hy) in H.
  apply leb_of_ltb. destruct (PrimFloat.ltb y x); [reflexivity|discriminate].
Qed.

(** ** Browsing *)

Section BrowseFacts.
Variable category : Business.t -> string.

Lemma available_slot_spec bid d t a :
  available_slot bid d t a = true <->
  Availability.business_id a = bid /\ Availability.date a = d
  /\ Availability.time a = t /\ Availability.status a = "available"%string.
Proof.
  unfold available_slot. rewrite andb_true_iff, String.eqb_eq. split.
  - intros [Hk Hs]. apply same_key_eq in Hk. tauto.
  - intros (<- & <- & <- & Hs). split; [|exact Hs].
    unfold same_key. rewrite Z.eqb_refl, !String.eqb_refl. reflexivity.
Qed.

Lemma matches_spec cat date time db b :
  matches category cat date time db b = true <->
  (forall c, given cat = Some c -> category b = c)
  /\ (forall d t, given date = Some d -> given time = Some t ->
                  exists a, In a (availability db)
                            /\ Availability.business_id a = Business.id b
                            /\ Availability.date a = d
                            /\ Availability.time a = t
                            /\ Availability.status a = "available"%string).
Proof.
  unfold matches. rewrite andb_true_iff. split.
  - intros [Hc Hs]. split.
    + intros c Hgc. rewrite Hgc in Hc. apply String.eqb_eq. exact Hc.
    + intros d t Hd Ht. rewrite Hd, Ht in Hs.
      apply existsb_exists in Hs. destruct Hs as (a & Hin & Ha).
      apply available_slot_spec in Ha. exists a. tauto.
  - intros [Hc Hs]. split.
    + destruct (given cat) as [c|]; [|reflexivity].
      apply String.eqb_eq. auto.
    + destruct (given date) as [d|]; [|reflexivity].
      destruct (given time) as [t|]; [|reflexivity].
      destruct (Hs d t eq_refl eq_refl) as (a & Hin & Ha).
      apply existsb_exists. exists a. split; [exact Hin|].
      apply available_slot_spec. exact Ha.
Qed.

Lemma In_search_businesses cat date time db l :
  In l (search_businesses category cat date time db) <->
  exists b,
    In b (businesses db)
    /\ l = listing_of category db b
    /\ (forall c, given cat = Some c -> category b = c)
    /\ (forall d t, given date = Some d -> given time = Some t ->
          exists a, In a (availability db)
                    /\ Availability.business_id a = Business.id b
                    /\ Availability.date a = d
                    /\ Availability.time a = t
                    /\ Availability.status a = "available"%string).
Proof.
  unfold search_businesses. rewrite In_ORDER_BY, in_map_iff. split.
  - intros (b & <- & Hin). apply filter_In in Hin. destruct Hin as [Hin Hm].
    apply matches_spec in Hm. exists b. tauto.
  - intros (b & Hin & -> & Hc & Hs). exists b. split; [reflexivity|].
    apply filter_In. split; [exact Hin|]. apply matches_spec. auto.
Qed.

(** X17.  A search lists exactly the businesses that pass the filters
    given, one row each: the category when one is given, and, when both
    a date and a time are given, an available slot of the business at
    that date and time.  A date without a time, or a time without a
    date, filters nothing. *)
Theorem search_lists_the_matching_businesses :
  forall (cat date time : option string) (db : DB),
    (forall l,
        In l (search_businesses category cat date time db) <->
        exists b,
          In b (businesses db)
          /\ l = listing_of category db b
          /\ (forall c, given cat = Some c -> category b = c)
          /\ (forall d t, given date = Some d -> given time = Some t ->
                exists a, In a (availability db)
                          /\ Availability.business_id a = Business.id b
                          /\ Availability.date a = d
                          /\ Availability.time a = t
                          /\ Availability.status a = "available"%string))
    /\ List.length (search_businesses category cat date time db)
       = List.length (filter (matches category cat date time db)
                             (businesses db))
    /\ (given date = None \/ given time = None ->
        search_businesses category cat date time db
        = search_businesses category cat None None db).
Proof.
  intros cat date time db. split; [|split].
  - intros l. apply In_search_businesses.
  - unfold search_businesses. rewrite length_ORDER_BY, length_map. reflexivity.
  - intros Hnone. unfold search_businesses.
    f_equal. f_equal. apply filter_ext. intros b.
    unfold matches. simpl given.
    destruct Hnone as [-> | ->]; [reflexivity|].
    destruct (given date); reflexivity.
Qed.

(** X18.  The rows of a search come best rating first: when no stored
    rating is a NaN, each row is followed by a row whose rating is not
    higher. *)
Theorem search_is_ordered_by_rating :
  forall (cat date time : option string) (db : DB),
    Forall (fun b => PrimFloat.eqb (Business.rating b) (Business.rating b) = true)
           (businesses db) ->
    in_order (fun x y => PrimFloat.leb (listing_rating y) (listing_rating x))
             (search_businesses category cat date time db).
Proof.
  intros cat date time db Hnan. unfold search_businesses.
  apply (in_order_ORDER_BY by_rating_desc
           (fun l => PrimFloat.eqb (listing_rating l) (listing_rating l) = true)).
  - intros a b Ha Hb. unfold by_rating_desc. apply leb_total; assumption.
  - apply Forall_forall. intros l Hl. apply in_map_iff in Hl.
    destruct Hl as (b & <- & Hb). apply filter_In in Hb.
    rewrite Forall_forall in Hnan. simpl. apply Hnan. tauto.
Qed.

End BrowseFacts.

(** ** The strict order of binary64 values is transitive *)

Lemma lex_Lt_trans (e1 e2 e3 : Z) (m1 m2 m3 : positive) :
  match Z.compare e1 e2 with
  | Lt => Lt | Gt => Gt | Eq => Pos.compare_cont Eq m1 m2
  end = Lt ->
  match Z.compare e2 e3 with
  | Lt => Lt | Gt => Gt | Eq => Pos.compare_cont Eq m2 m3
  end = Lt ->
  match Z.compare e1 e3 with
  | Lt => Lt | Gt => Gt | Eq => Pos.compare_cont Eq m1 m3
  end = Lt.
Proof.
  change (Pos.compare_cont Eq m1 m2) with (Pos.compare m1 m2).
  change (Pos.compare_cont Eq m2 m3) with (Pos.compare m2 m3).
  change (Pos.compare_cont Eq m1 m3) with (Pos.compare m1 m3).
  destruct (Z.compare_spec e1 e2), (Z.compare_spec e2 e3),
    (Z.compare_spec e1 e3); subst; try lia; try discriminate; auto.
  rewrite !Pos.compare_lt_iff. lia.
Qed.

Lemma lex_Gt_trans (e1 e2 e3 : Z) (m1 m2 m3 : positive) :
  match Z.compare e1 e2 with
  | Lt => Gt | Gt => Lt | Eq => CompOpp (Pos.compare_cont Eq m1 m2)
  end = Lt ->
  match Z.compare e2 e3 with
  | Lt => Gt | Gt => Lt | Eq => CompOpp (Pos.compare_cont Eq m2 m3)
  end = Lt ->
  match Z.compare e1 e3 with
  | Lt => Gt | Gt => Lt | Eq => CompOpp (Pos.compare_cont Eq m1 m3)
  end = Lt.
Proof.
  change (Pos.compare_cont Eq m1 m2) with (Pos.compare m1 m2).
  change (Pos.compare_cont Eq m2 m3) with (Pos.compare m2 m3).
  change (Pos.compare_cont Eq m1 m3) with (Pos.compare m1 m3).
  destruct (Z.compare_spec e1 e2), (Z.compare_spec e2 e3),
    (Z.compare_spec e1 e3); subst; try lia; try discriminate; auto.
  destruct (Pos.compare_spec m1 m2), (Pos.compare_spec m2 m3),
    (Pos.compare_spec m1 m3); subst; simpl; try lia; try discriminate; auto.
Qed.

Lemma SFcompare_Lt_trans (a b c : spec_float) :
  SFcompare a b = Some Lt -> SFcompare b c = Some Lt ->
  SFcompare a c = Some Lt.
Proof.
  destruct a as [[]|[]| |[] ma ea], b as [[]|[]| |[] mb eb],
    c as [[]|[]| |[] mc ec];
    cbn [SFcompare]; intros H1 H2;
    try discriminate H1; try discriminate H2; try reflexivity;
    injection H1 as H1; injection H2 as H2; f_equal.
  - eapply lex_Gt_trans; eassumption.
  - eapply lex_Lt_trans; eassumption.
Qed.

Lemma ltb_trans (x y z : float) :
  PrimFloat.ltb x y = true -> PrimFloat.ltb y z = true ->
  PrimFloat.ltb x z = true.
Proof.
  rewrite !ltb_spec. unfold SFltb. intros H1 H2.
  destruct (SFcompare (Prim2SF x) (Prim2SF y)) as [[ | | ]|] eqn:E1;
    try discriminate.
  destruct (SFcompare (Prim2SF y) (Prim2SF z)) as [[ | | ]|] eqn:E2;
    try discriminate.
  rewrite (SFcompare_Lt_trans _ _ _ E1 E2). reflexivity.
Qed.

(** ** The order of binary64 values is transitive *)

Lemma lex_Eq (e1 e2 : Z) (m1 m2 : positive) :
  match Z.compare e1 e2 with
  | Lt => Lt | Gt => Gt | Eq => Pos.compare_cont Eq m1 m2
  end = Eq ->
  e1 = e2 /\ m1 = m2.
Proof.
  change (Pos.compare_cont Eq m1 m2) with (Pos.compare m1 m2).
  destruct (Z.compare_spec e1 e2) as [He|He|He]; try discriminate.
  intros Hm. apply Pos.compare_eq_iff in Hm. auto.
Qed.

Lemma lex_opp_Eq (e1 e2 : Z) (m1 m2 : positive) :
  match Z.compare e1 e2 with
  | Lt => Gt | Gt => Lt | Eq => CompOpp (Pos.compare_cont Eq m1 m2)
  end = Eq ->
  e1 = e2 /\ m1 = m2.
Proof.
  change (Pos.compare_cont Eq m1 m2) with (Pos.compare m1 m2).
  destruct (Z.compare_spec e1 e2) as [He|He|He]; try discriminate.
  destruct (Pos.compare_spec m1 m2) as [Hm|Hm|Hm]; try discriminate. auto.
Qed.

(** Two values that compare equal compare alike with any third. *)
Lemma SFcompare_Eq_l (a b c : spec_float) :
  SFcompare a b = Some Eq -> SFcompare a c = SFcompare b c.
Proof.
  destruct a as [[]|[]| |[] ma ea], b as [[]|[]| |[] mb eb];
    cbn [SFcompare]; intros H; try discriminate H;
    try (destruct c as [[]|[]| |[] mc ec]; reflexivity);
    injection H as H'.
  - apply lex_opp_Eq in H'. destruct H' as [-> ->]. reflexivity.
  - apply lex_Eq in H'. destruct H' as [-> ->]. reflexivity.
Qed.

Lemma SFleb_trans (a b c : spec_float) :
  SFleb a b = true -> SFleb b c = true -> SFleb a c = true.
Proof.
  unfold SFleb. intros H1 H2.
  destruct (SFcompare a b) as [[ | | ]|] eqn:E1; try discriminate.
  - rewrite (SFcompare_Eq_l a b c E1). exact H2.
  - destruct (SFcompare b c) as [[ | | ]|] eqn:E2; try discriminate.
    + assert (E3 : SFcompare c b = Some Eq)
        by (rewrite (SFcompare_antisym b c), E2; reflexivity).
      pose proof (SFcompare_Eq_l c b a E3) as E4.
      rewrite (SFcompare_antisym a b), E1 in E4. simpl in E4.
      rewrite (SFcompare_antisym c a), E4. reflexivity.
    + rewrite (SFcompare_Lt_trans a b c E1 E2). reflexivity.
Qed.

Lemma leb_trans (x y z : float) :
  PrimFloat.leb x y = true -> PrimFloat.leb y z = true ->
  PrimFloat.leb x z = true.
Proof. rewrite !leb_spec. apply SFleb_trans. Qed.

(** ** The lowest price *)

Lemma leb_of_not_ltb (x y : float) :
  PrimFloat.eqb x x = true -> PrimFloat.eqb y y = true ->
  PrimFloat.ltb y x = false -> PrimFloat.leb x y = true.
Proof.
  intros Hx Hy H. rewrite (leb_negb_ltb x y Hx Hy), H. reflexivity.
Qed.

Lemma leb_refl (x : float) :
  PrimFloat.eqb x x = true -> PrimFloat.leb x x = true.
Proof.
  rewrite eqb_spec, leb_spec. unfold SFeqb, SFleb.
  destruct (SFcompare (Prim2SF x) (Prim2SF x)) as [[ | | ]|]; congruence.
Qed.

Lemma MIN_from (prices : list float) (acc : option float) (m : float) :
  Forall (fun p => PrimFloat.eqb p p = true) prices ->
  (forall x, acc = Some x -> PrimFloat.eqb x x = true) ->
  fold_left
    (fun m p =>
       match m with
       | None => Some p
       | Some x => Some (if PrimFloat.ltb p x then p else x)
       end)
    prices acc = Some m ->
  (acc = Some m \/ In m prices)
  /\ (forall p, In p prices -> PrimFloat.leb m p = true)
  /\ (forall x, acc = Some x -> PrimFloat.leb m x = true).
Proof.
  revert acc. induction prices as [|p prices IH]; simpl; intros acc Hnan Hacc H.
  - split; [auto|]. split; [contradiction|].
    intros x Hx. rewrite Hx in H. injection H as <-.
    apply leb_refl. auto.
  - inversion Hnan as [|? ? Hp Hnan']; subst.
    destruct acc as [x|].
    + pose proof (Hacc x eq_refl) as Hx.
      destruct (PrimFloat.ltb p x) eqn:Epx.
      * destruct (IH (Some p) Hnan') as (Hin & Hall & Hmp); [congruence|exact H|].
        specialize (Hmp p eq_refl).
        split; [destruct Hin as [Hin|Hin]; [injection Hin as <-|]; auto|].
        split.
        -- intros q [<-|Hq]; auto.
        -- intros y Hy. injection Hy as <-.
           apply (leb_trans m p x Hmp). apply leb_of_ltb. exact Epx.
      * destruct (IH (Some x) Hnan') as (Hin & Hall & Hmx); [congruence|exact H|].
        specialize (Hmx x eq_refl).
        split; [destruct Hin as [Hin|Hin]; auto|].
        split.
        -- intros q [<-|Hq]; auto.
           apply (leb_trans m x p Hmx). apply leb_of_not_ltb; assumption.
        -- intros y Hy. injection Hy as <-. exact Hmx.
    + destruct (IH (Some p) Hnan') as (Hin & Hall & Hmp); [congruence|exact H|].
      specialize (Hmp p eq_refl).
      split; [destruct Hin as [Hin|Hin]; [injection Hin as <-|]; auto|].
      split; [|discriminate].
      intros q [<-|Hq]; auto.
Qed.

Lemma MIN_None prices : MIN prices = None <-> prices = [].
Proof.
  unfold MIN. destruct prices as [|p prices]; simpl; [tauto|].
  split; [|discriminate].
  generalize p. induction prices as [|q prices IH]; simpl; intros x H;
    [discriminate|].
  exfalso. specialize (IH _ H). discriminate.
Qed.

Section PriceFacts.
Variable category : Business.t -> string.

Lemma In_active_prices bid rows p :
  In p (active_prices bid rows) <->
  exists s, In s rows /\ Service.business_id s = bid /\ Service.active s = 1
            /\ Service.price s = p.
Proof.
  unfold active_prices. rewrite in_map_iff. split.
  - intros (s & <- & Hin). apply filter_In in Hin. destruct Hin as [Hin Hp].
    apply andb_prop in Hp. destruct Hp as [Hb Ha].
    apply Z.eqb_eq in Hb. apply Z.eqb_eq in Ha. exists s. auto.
  - intros (s & Hin & Hb & Ha & <-). exists s. split; [reflexivity|].
    apply filter_In. split; [exact Hin|].
    rewrite Hb, Ha, !Z.eqb_refl. reflexivity.
Qed.

(** X19.  The price a listing shows is the lowest price among the active
    services of the business: it is the price of one of them and no one
    is cheaper; the listing shows no price exactly when the business has
    no active service.  Prices are taken not to be NaN. *)
Theorem listing_shows_the_lowest_price :
  forall (db : DB) (b : Business.t),
    Forall (fun s => PrimFloat.eqb (Service.price s) (Service.price s) = true)
           (services db) ->
    (forall m,
        listing_min_price (listing_of category db b) = Some m ->
        (exists s, In s (services db)
                   /\ Service.business_id s = Business.id b
                   /\ Service.active s = 1 /\ Service.price s = m)
        /\ (forall s, In s (services db) ->
                      Service.business_id s = Business.id b ->
                      Service.active s = 1 ->
                      PrimFloat.leb m (Service.price s) = true))
    /\ (listing_min_price (listing_of category db b) = None <->
        forall s, In s (services db) ->
                  Service.business_id s = Business.id b ->
                  Service.active s <> 1).
Proof.
  intros db b Hnan. simpl. split.
  - intros m Hm.
    assert (Hprices : Forall (fun p => PrimFloat.eqb p p = true)
                             (active_prices (Business.id b) (services db))).
    { apply Forall_forall. intros p Hp. apply In_active_prices in Hp.
      destruct Hp as (s & Hin & _ & _ & <-).
      rewrite Forall_forall in Hnan. auto. }
    destruct (MIN_from _ None m Hprices) as (Hin & Hall & _);
      [discriminate|exact Hm|].
    destruct Hin as [Hin|Hin]; [discriminate|]. split.
    + apply In_active_prices in Hin. exact Hin.
    + intros s Hs Hb Ha. apply Hall. apply In_active_prices. exists s. auto.
  - rewrite MIN_None. split.
    + intros Hnil s Hs Hb Ha.
      assert (Hin : In (Service.price s)
                       (active_prices (Business.id b) (services db)))
        by (apply In_active_prices; exists s; auto).
      rewrite Hnil in Hin. contradiction.
    + intros Hnone.
      destruct (active_prices (Business.id b) (services db)) as [|p ps] eqn:E;
        [reflexivity|].
      exfalso.
      assert (Hin : In p (active_prices (Business.id b) (services db)))
        by (rewrite E; left; reflexivity).
      apply In_active_prices in Hin. destruct Hin as (s & Hs & Hb & Ha & _).
      exact (Hnone s Hs Hb Ha).
Qed.

End PriceFacts.

(** ** The shop window of a business *)

Lemma by_date_time_total x y :
  by_date_time x y = false -> by_date_time y x = true.
Proof.
  unfold by_date_time. rewrite (String.compare_antisym (fst y) (fst x)).
  destruct (String.compare (fst x) (fst y)); simpl; try discriminate;
    [|reflexivity].
  intros H. destruct (String.leb_total (snd x) (snd y)) as [H'|H'];
    congruence.
Qed.

Section WindowFacts.
Variable category : Business.t -> string.

Lemma business_detail_Sent today id db db' code w :
  business_detail category today id db = Sent db' code w ->
  db' = db /\ code = 200
  /\ (exists biz, get (fun b => Z.eqb (Business.id b) id) (businesses db)
                  = Some biz
                  /\ listing_id (window_business w) = Business.id biz
                  /\ listing_name (window_business w) = Business.name biz)
  /\ window_services w
     = map (fun s => (Service.id s, Service.name s,
                      Service.duration_minutes s, Service.price s))
           (filter (fun s => Z.eqb (Service.business_id s) id
                             && Z.eqb (Service.active s) 1)
                   (services db))
  /\ available_slots w
     = ORDER_BY by_date_time
         (map (fun a => (Availability.date a, Availability.time a))
              (filter (bookable today id) (availability db))).
Proof.
  unfold business_detail.
  destruct (get _ (businesses db)) as [biz|]; [|discriminate].
  intros H. injection H as <- <- <-. simpl. repeat split; eauto.
Qed.

Lemma In_available_slots today id db db' code w d t :
  business_detail category today id db = Sent db' code w ->
  In (d, t) (available_slots w) <->
  exists a, In a (availability db)
            /\ Availability.business_id a = id
            /\ Availability.status a = "available"%string
            /\ String.leb today (Availability.date a) = true
            /\ Availability.date a = d
            /\ Availability.time a = t.
Proof.
  intros H. apply business_detail_Sent in H.
  destruct H as (_ & _ & _ & _ & Hslots).
  rewrite Hslots, In_ORDER_BY, in_map_iff. split.
  - intros (a & Ha & Hin). injection Ha as <- <-.
    apply filter_In in Hin. destruct Hin as [Hin Hp].
    unfold bookable in Hp. apply andb_prop in Hp. destruct Hp as [Hp Hd].
    apply andb_prop in Hp. destruct Hp as [Hb Hs].
    apply Z.eqb_eq in Hb. apply String.eqb_eq in Hs.
    exists a. auto 10.
  - intros (a & Hin & Hb & Hs & Hd & <- & <-). exists a.
    split; [reflexivity|]. apply filter_In. split; [exact Hin|].
    unfold bookable. rewrite Hb, Hs, Hd, Z.eqb_refl. reflexivity.
Qed.

(** X20.  The page of a business is refused with 404 exactly when no
    business has the id.  Otherwise it shows, ordered by date and then
    time, the date and time of exactly those slots of the business that
    are 'available' and dated today or later, and exactly the active
    services of the business; it writes nothing. *)
Theorem business_detail_shows_what_can_be_booked :
  forall (today : string) (id : Z) (db : DB),
    (business_detail category today id db = Rejected 404 <->
     forall b, In b (businesses db) -> Business.id b <> id)
    /\ (forall db' code w,
           business_detail category today id db = Sent db' code w ->
           db' = db
           /\ (forall d t,
                  In (d, t) (available_slots w) <->
                  exists a, In a (availability db)
                            /\ Availability.business_id a = id
                            /\ Availability.status a = "available"%string
                            /\ String.leb today (Availability.date a) = true
                            /\ Availability.date a = d
                            /\ Availability.time a = t)
           /\ in_order by_date_time (available_slots w)
           /\ (forall sid name minutes price,
                  In (sid, name, minutes, price) (window_services w) <->
                  exists s, In s (services db)
                            /\ Service.business_id s = id
                            /\ Service.active s = 1
                            /\ Service.id s = sid /\ Service.name s = name
                            /\ Service.duration_minutes s = minutes
                            /\ Service.price s = price)).
Proof.
  intros today id db. split.
  - unfold business_detail.
    destruct (get _ (businesses db)) as [biz|] eqn:E.
    + split; [discriminate|]. intros Hnone. exfalso.
      destruct (get_Some_In _ _ _ E) as [Hin Hid]. apply Z.eqb_eq in Hid.
      exact (Hnone biz Hin Hid).
    + split; [|reflexivity]. intros _ b Hin Hid.
      pose proof (get_None _ _ b E Hin) as Hf. simpl in Hf.
      apply Z.eqb_neq in Hf. contradiction.
  - intros db' code w H.
    pose proof (fun d t => In_available_slots today id db db' code w d t H)
      as Hshown.
    apply business_detail_Sent in H.
    destruct H as (-> & _ & _ & Hserv & Hslots).
    split; [reflexivity|]. split; [|split].
    + exact Hshown.
    + rewrite Hslots.
      apply (in_order_ORDER_BY by_date_time (fun _ => True)).
      * intros a b _ _. apply by_date_time_total.
      * apply Forall_forall. auto.
    + intros sid name minutes price. rewrite Hserv, in_map_iff. split.
      * intros (s & Hs & Hin). injection Hs as <- <- <- <-.
        apply filter_In in Hin. destruct Hin as [Hin Hp].
        apply andb_prop in Hp. destruct Hp as [Hb Ha].
        apply Z.eqb_eq in Hb. apply Z.eqb_eq in Ha. exists s. auto 10.
      * intros (s & Hin & Hb & Ha & <- & <- & <- & <-). exists s.
        split; [reflexivity|]. apply filter_In. split; [exact Hin|].
        rewrite Hb, Ha, !Z.eqb_refl. reflexivity.
Qed.

Lemma no_available_slot_after_booking draws u bid sid d t db db' reply :
  unique_keys (availability db) ->
  create_booking draws u bid sid d t db = Some (Done db' reply) ->
  forall a, In a (availability db') -> available_slot bid d t a = false.
Proof.
  intros Huniq H a Hin. apply create_booking_Done in H.
  destruct H as (slot & service & biz & code & _ & Hslot & _ & _ & _ & _ & _
                 & _ & Hav & _).
  rewrite Hav in Hin. apply In_update in Hin. destruct Hin as (r & Hr & ->).
  destruct (get_Some_In _ _ _ Hslot) as [Hslot_in Hp].
  unfold available_slot in Hp. apply andb_prop in Hp. destruct Hp as [Hk _].
  destruct (Z.eqb (Availability.id r) (Availability.id slot)) eqn:E.
  - unfold available_slot. simpl. apply andb_false_r.
  - unfold available_slot.
    destruct (same_key bid d t r) eqn:Ekr; [|reflexivity].
    exfalso.
    destruct (same_key_eq _ _ _ _ Hk) as (Hb & Hd & Ht).
    assert (slot = r) as ->.
    { apply Huniq; try assumption. rewrite Hb, Hd, Ht. exact Ekr. }
    rewrite Z.eqb_refl in E. discriminate.
Qed.

(** X21.  A slot that has just been booked leaves the shop window: with
    one slot per (business, date, time), a search for that date and time
    listed the business before the booking and does not list it after,
    and the page of the business no longer shows the date and time. *)
Theorem booked_slot_leaves_the_window :
  forall (draws : list string) (u : User.t) (business_id service_id : Z)
         (date time today : string) (cat : option string) (db db' : DB)
         (reply : booking_reply),
    unique_keys (availability db) ->
    create_booking draws u business_id service_id date time db
    = Some (Done db' reply) ->
    date <> EmptyString -> time <> EmptyString ->
    (exists l, In l (search_businesses category None (Some date) (Some time) db)
               /\ listing_id l = business_id)
    /\ (forall l, In l (search_businesses category cat (Some date) (Some time) db')
                  -> listing_id l <> business_id)
    /\ (forall code w,
           business_detail category today business_id db' = Sent db' code w ->
           ~ In (date, time) (available_slots w)).
Proof.
  intros draws u bid sid d t today cat db db' reply Huniq H Hd Ht.
  pose proof (no_available_slot_after_booking _ _ _ _ _ _ _ _ _ Huniq H) as Hgone.
  assert (Hgd : given (Some d) = Some d) by (destruct d; [congruence|reflexivity]).
  assert (Hgt : given (Some t) = Some t) by (destruct t; [congruence|reflexivity]).
  apply create_booking_Done in H.
  destruct H as (slot & service & biz & code & _ & Hslot & _ & Hbiz & _).
  split; [|split].
  - exists (listing_of category db biz).
    destruct (get_Some_In _ _ _ Hbiz) as [Hin Hid]. apply Z.eqb_eq in Hid.
    split; [|exact Hid].
    apply In_search_businesses.
    exists biz. split; [exact Hin|]. split; [reflexivity|].
    split; [discriminate|].
    intros d' t' Hd' Ht'. rewrite Hgd in Hd'. rewrite Hgt in Ht'.
    injection Hd' as <-. injection Ht' as <-.
    destruct (get_Some_In _ _ _ Hslot) as [Hsin Hp].
    apply available_slot_spec in Hp. rewrite Hid. exists slot. tauto.
  - intros l Hl Hid.
    apply In_search_businesses in Hl.
    destruct Hl as (b & _ & -> & _ & Hs).
    destruct (Hs d t Hgd Hgt) as (a & Hin & Hb & Hda & Hta & Hst).
    assert (Ha : available_slot bid d t a = true).
    { apply available_slot_spec. simpl in Hid. rewrite Hb, Hid. auto. }
    rewrite (Hgone a Hin) in Ha. discriminate.
  - intros code' w Hw Hin.
    apply (In_available_slots today bid db' db' code' w d t Hw) in Hin.
    destruct Hin as (a & Hin & Hb & Hst & _ & Hda & Hta).
    assert (Ha : available_slot bid d t a = true)
      by (apply available_slot_spec; auto).
    rewrite (Hgone a Hin) in Ha. discriminate.
Qed.

End WindowFacts.

(** ** Tokens *)

Lemma split_no_sep s : no_space s = true -> split " " s = [s].
Proof.
  unfold no_space. induction s as [|c s IH]; simpl; [reflexivity|].
  intros H. apply andb_prop in H. destruct H as [Hc Hs].
  apply negb_true_iff in Hc. rewrite Hc, (IH Hs). reflexivity.
Qed.

Lemma split_word w rest :
  no_space w = true ->
  split " " (w ++ String " " rest) = w :: split " " rest.
Proof.
  unfold no_space. induction w as [|c w IH]; simpl; [reflexivity|].
  intros H. apply andb_prop in H. destruct H as [Hc Hw].
  apply negb_true_iff in Hc. rewrite Hc, (IH Hw). reflexivity.
Qed.

Section TokenFacts.
Variable verify : string -> option User.t.

Lemma auth_second_word (scheme token : string) :
  no_space scheme = true -> no_space token = true -> token <> EmptyString ->
  auth verify (Some (scheme ++ " " ++ token)%string)
  = match verify token with Some user => inl user | None => inr 403 end.
Proof.
  intros Hs Ht Hne.
  assert (Hgiven : given (Some token) = Some token)
    by (destruct token; [congruence|reflexivity]).
  unfold auth, token_of. change (" " ++ token)%string with (String " " token).
  rewrite (split_word scheme token Hs), (split_no_sep token Ht). simpl nth_error.
  rewrite Hgiven. reflexivity.
Qed.

(** X22.  The middleware takes the second word of the authorization
    header as the token, whatever the first word is and whatever follows
    a further space: the handler runs for the user the token verifies
    to, and the answer is 403 when it does not verify.  Without a header,
    without a space in it, or with nothing after the first space, the
    answer is 401. *)
Theorem auth_reads_the_second_word :
  forall (scheme token : string),
    no_space scheme = true -> no_space token = true -> token <> EmptyString ->
    auth verify (Some (scheme ++ " " ++ token)%string)
    = match verify token with Some user => inl user | None => inr 403 end
    /\ (forall rest,
           auth verify (Some (scheme ++ " " ++ token ++ " " ++ rest)%string)
           = auth verify (Some (scheme ++ " " ++ token)%string))
    /\ auth verify (Some scheme) = inr 401
    /\ auth verify (Some (scheme ++ " ")%string) = inr 401
    /\ auth verify None = inr 401.
Proof.
  intros scheme token Hs Ht Hne.
  assert (Hgiven : given (Some token) = Some token)
    by (destruct token; [congruence|reflexivity]).
  pose proof (auth_second_word scheme token Hs Ht Hne) as H1.
  split; [exact H1|]. split; [|split; [|split]].
  - intros rest. rewrite H1. unfold auth, token_of.
    change (" " ++ token ++ " " ++ rest)%string
      with (String " " (token ++ String " " rest)).
    rewrite (split_word scheme _ Hs), (split_word token rest Ht).
    simpl nth_error. rewrite Hgiven. reflexivity.
  - unfold auth, token_of. rewrite (split_no_sep scheme Hs). reflexivity.
  - unfold auth, token_of. change (" ")%string with (String " " EmptyString).
    rewrite (split_word scheme EmptyString Hs). reflexivity.
  - reflexivity.
Qed.

End TokenFacts.

(** ** The accounts of clients *)

Section AccountFacts.
Variable verify : string -> option User.t.
Variable sign : Z -> Z -> subject_type -> string -> string.
Variable hashSync : string -> string -> string.
Variable compareSync : string -> string -> bool.

Lemma register_client_Sent salt iat name email password phone clients
      clients' code token id :
  register_client sign hashSync salt iat name email password phone clients
  = Sent clients' code (token, id) ->
  exists n e p,
    given name = Some n /\ given email = Some e /\ given password = Some p
    /\ get (by_email e) clients = None
    /\ id = lastInsertRowid Client.id clients
    /\ code = 201
    /\ token = sign iat id client n
    /\ clients' = insert (Client.mk id n e (hashSync salt p) phone) clients.
Proof.
  unfold register_client.
  destruct (given name) as [n|]; [|discriminate].
  destruct (given email) as [e|]; [|discriminate].
  destruct (given password) as [p|]; [|discriminate].
  destruct (get (by_email e) clients) eqn:E; [discriminate|].
  intros H. injection H as <- <- <- <-. exists n, e, p. repeat split; auto.
Qed.

Lemma given_Some (x : option string) (s : string) :
  given x = Some s -> x = Some s /\ s <> EmptyString.
Proof.
  destruct x as [[|c x]|]; simpl; try discriminate.
  intros H. injection H as <-. split; [reflexivity|discriminate].
Qed.

(** X23.  A registration never gives two clients the same email or the
    same id: when emails and ids in the table are pairwise different
    before, they are after, whatever the request; a request with the
    email of a stored client is answered 409 and stores nothing. *)
Theorem register_keeps_emails_unique :
  forall (salt : string) (iat : Z) (name email password phone : option string)
         (clients : list Client.t),
    NoDup (map Client.email clients) ->
    NoDup (map Client.id clients) ->
    let answer :=
      register_client sign hashSync salt iat name email password phone clients in
    NoDup (map Client.email (store_after clients answer))
    /\ NoDup (map Client.id (store_after clients answer))
    /\ (forall c e, In c clients -> email = Some e -> Client.email c = e ->
                    given name <> None -> given password <> None ->
                    e <> EmptyString ->
                    answer = Rejected 409).
Proof.
  intros salt iat name email password phone clients Hemails Hids answer.
  subst answer. split; [|split].
  - destruct (register_client _ _ _ _ _ _ _ _ _) as [clients' code [token id]|code]
      eqn:E; simpl; [|exact Hemails].
    apply register_client_Sent in E.
    destruct E as (n & e & p & _ & _ & _ & Hnew & _ & _ & _ & ->).
    unfold insert. rewrite map_app. simpl.
    apply NoDup_rev in Hemails.
    rewrite <- (rev_involutive (map Client.email clients ++ [e])).
    apply NoDup_rev. rewrite rev_app_distr. simpl.
    constructor; [|exact Hemails]. rewrite <- in_rev. intros Hin.
    apply in_map_iff in Hin. destruct Hin as (c & Hc & Hin).
    pose proof (get_None _ _ c Hnew Hin) as Hf. unfold by_email in Hf.
    rewrite Hc, String.eqb_refl in Hf. discriminate.
  - destruct (register_client _ _ _ _ _ _ _ _ _) as [clients' code [token id]|code]
      eqn:E; simpl; [|exact Hids].
    apply register_client_Sent in E.
    destruct E as (n & e & p & _ & _ & _ & _ & -> & _ & _ & ->).
    apply NoDup_insert_fresh; [exact Hids|reflexivity].
  - intros c e Hin -> Hc Hn Hp He. unfold register_client.
    destruct (given name) as [n|]; [|congruence].
    assert (Hge : given (Some e) = Some e) by (destruct e; [congruence|reflexivity]).
    rewrite Hge.
    destruct (given password) as [p|]; [|congruence].
    destruct (get (by_email e) clients) eqn:E; [reflexivity|].
    pose proof (get_None _ _ c E Hin) as Hf. unfold by_email in Hf.
    rewrite Hc, String.eqb_refl in Hf. discriminate.
Qed.

(** X24.  A client that has registered can log in and is then let
    through by the middleware: with a [compareSync] that accepts the
    password a hash was made from, a login with the registered email and
    password is answered 200 with a token for the id the registration
    gave, which no client had before; and when that token verifies to its
    payload, a header "Bearer <token>" makes the handlers run for that
    client.  A login with another password that [compareSync] refuses is
    answered 401. *)
Theorem registered_client_can_log_in :
  forall (salt : string) (iat iat' : Z)
         (name email password phone : option string)
         (clients clients' : list Client.t) (code : Z) (token : string) (id : Z),
    (forall s p, compareSync p (hashSync s p) = true) ->
    register_client sign hashSync salt iat name email password phone clients
    = Sent clients' code (token, id) ->
    exists n p,
      name = Some n /\ password = Some p
      /\ (forall c, In c clients -> Client.id c < id)
      /\ login_client sign compareSync iat' email password clients'
         = Sent clients' 200 (sign iat' id client n, id)
      /\ (verify (sign iat' id client n) = Some (User.mk id client) ->
          no_space (sign iat' id client n) = true ->
          sign iat' id client n <> EmptyString ->
          auth verify (Some ("Bearer " ++ sign iat' id client n)%string)
          = inl (User.mk id client))
      /\ (forall other,
             compareSync other (hashSync salt p) = false ->
             login_client sign compareSync iat' email (Some other) clients'
             = Rejected 401).
Proof.
  intros salt iat iat' name email password phone clients clients' code token id
         Hbcrypt H.
  apply register_client_Sent in H.
  destruct H as (n & e & p & Hn & He & Hp & Hnew & Hid & _ & _ & ->).
  apply given_Some in Hn. destruct Hn as [-> _].
  apply given_Some in He. destruct He as [-> _].
  apply given_Some in Hp. destruct Hp as [-> _].
  exists n, p. split; [reflexivity|]. split; [reflexivity|].
  assert (Hfound : get (by_email e)
                       (insert (Client.mk id n e (hashSync salt p) phone) clients)
                   = Some (Client.mk id n e (hashSync salt p) phone)).
  { apply get_insert_new; [exact Hnew|]. unfold by_email. simpl.
    apply String.eqb_refl. }
  split; [intros c Hc; rewrite Hid; apply lastInsertRowid_gt; exact Hc|].
  split; [|split].
  - unfold login_client. rewrite Hfound. simpl. rewrite Hbcrypt. reflexivity.
  - intros Hv Hs Hne.
    change ("Bearer " ++ sign iat' id client n)%string
      with ("Bearer" ++ " " ++ sign iat' id client n)%string.
    rewrite (auth_second_word verify "Bearer" _ eq_refl Hs Hne), Hv.
    reflexivity.
  - intros other Hno. unfold login_client. rewrite Hfound. simpl.
    rewrite Hno. reflexivity.
Qed.

End AccountFacts.

(** ** The figures of a business *)

Lemma count_by_status (rows : list Booking.t) :
  (List.length (filter (fun b => has_status "confirmed" b
                                 || has_status "completed" b) rows)
   + List.length (filter (has_status "cancelled") rows)
   + List.length (filter (has_status "pending") rows)
   <= List.length rows)%nat
  /\ (Forall (fun b => Booking.status b = "pending"%string
                       \/ Booking.status b = "confirmed"%string
                       \/ Booking.status b = "completed"%string
                       \/ Booking.status b = "cancelled"%string) rows ->
      (List.length (filter (fun b => has_status "confirmed" b
                                     || has_status "completed" b) rows)
       + List.length (filter (has_status "cancelled") rows)
       + List.length (filter (has_status "pending") rows)
       = List.length rows)%nat).
Proof.
  unfold has_status. induction rows as [|b rows [IHle IHeq]]; simpl.
  - split; [lia|reflexivity].
  - split.
    + destruct (String.eqb_spec (Booking.status b) "confirmed") as [E|E];
        [rewrite E; simpl; lia|].
      destruct (String.eqb_spec (Booking.status b) "completed") as [E1|E1];
        [rewrite E1; simpl; lia|].
      destruct (String.eqb_spec (Booking.status b) "cancelled") as [E2|E2];
        [rewrite E2; simpl; lia|].
      destruct (String.eqb (Booking.status b) "pending"); simpl; lia.
    + intros Hall. inversion Hall as [|? ? Hb Hrows]; subst.
      specialize (IHeq Hrows).
      destruct Hb as [E|[E|[E|E]]]; rewrite E; simpl; lia.
Qed.

Section FigureFacts.
Variable strftime_Ym : string -> option string.


End FigureFacts.

(** ** Confirm *)

(** X26.  A confirm by the business that owns a found booking succeeds
    and sets the status of the booking to 'confirmed', whatever it was;
    the cancellation charge and every other column stay, and no slot,
    service, business or review is written. *)
Theorem confirm_sets_the_status :
  forall (u : User.t) (id : Z) (db : DB) (booking : Booking.t),
    is_business u = true ->
    get (owned_by_business id u) (bookings db) = Some booking ->
    exists db',
      confirm u id db = Done db' tt
      /\ get (owned_by_business id u) (bookings db')
         = Some (Booking.set_status "confirmed" booking)
      /\ availability db' = availability db
      /\ services db' = services db
      /\ businesses db' = businesses db
      /\ reviews db' = reviews db.
Proof.
  intros u id db booking Hu Hget. unfold confirm. rewrite Hu, Hget. simpl.
  eexists. split; [reflexivity|]. simpl. repeat split.
  rewrite get_update by reflexivity. rewrite Hget. simpl.
  destruct (get_Some_In _ _ _ Hget) as [_ Hown].
  rewrite (owned_by_business_has_id _ _ _ Hown). reflexivity.
Qed.

(** ** Runs of requests *)

Lemma consistent_run Date_parse reqs db :
  consistent db -> all_on_live Date_parse reqs db ->
  consistent (run Date_parse reqs db).
Proof.
  revert db. induction reqs as [|req reqs IH]; simpl; intros db Hc Hlive;
    [exact Hc|].
  destruct Hlive as [Hreq Hrest].
  apply IH; [apply consistent_handle; assumption|exact Hrest].
Qed.

(** X27.  From a store where slots and bookings agree, such as one
    without bookings, every run of requests in which each confirm and
    each reject is on a live booking ends in a store where they agree
    again: no slot has two live bookings and the slot of every live
    booking is 'booked'. *)
Theorem live_runs_never_double_book :
  forall (Date_parse : string -> float) (reqs : list request) (db : DB),
    consistent db ->
    all_on_live Date_parse reqs db ->
    (forall slot_id,
        (List.length (holders slot_id (bookings (run Date_parse reqs db))) <= 1)%nat)
    /\ (forall b,
           In b (bookings (run Date_parse reqs db)) -> live b = true ->
           slot_status (Booking.availability_id b)
                       (availability (run Date_parse reqs db))
           = Some "booked"%string).
Proof.
  intros D reqs db Hc Hlive.
  pose proof (consistent_run D reqs db Hc Hlive) as Hrun. split.
  - intros slot_id. apply consistent_one_holder. exact Hrun.
  - apply (held _ Hrun).
Qed.

(** X28.  With one slot per (business, date, time), a booking request
    of a client that comes right after a successful one for the same
    business, date and time is refused with SlotUnavailable, whichever
    client asks and whatever service it names. *)
Theorem second_booking_is_refused :
  forall (draws draws' : list string) (u u' : User.t)
         (business_id service_id service_id' : Z) (date time : string)
         (db db' : DB) (reply : booking_reply),
    unique_keys (availability db) ->
    is_client u' = true ->
    create_booking draws u business_id service_id date time db
    = Some (Done db' reply) ->
    create_booking draws' u' business_id service_id' date time db'
    = Some (Fail SlotUnavailable).
Proof.
  intros draws draws' u u' bid sid sid' d t db db' reply Huniq Hu' H.
  pose proof (no_available_slot_after_booking _ _ _ _ _ _ _ _ _ Huniq H) as Hgone.
  apply create_booking_slot_unavailable; [exact Hu'|].
  apply get_none_of_all_false. exact Hgone.
Qed.

(** X29.  The code loop ends at the first draw whose code no booking
    has: when a client asks and the slot, the service and the business
    are found, the request succeeds with that code after discarding
    every draw before it; when every draw gives a code that is taken the
    loop is still running after the last of them. *)
Theorem booking_succeeds_at_the_first_free_code :
  forall (u : User.t) (business_id service_id : Z) (date time : string)
         (db : DB) (slot : Availability.t) (service : Service.t)
         (biz : Business.t),
    is_client u = true ->
    get (available_slot business_id date time) (availability db) = Some slot ->
    get (active_service service_id business_id) (services db) = Some service ->
    get (fun b => Z.eqb (Business.id b) business_id) (businesses db) = Some biz ->
    (forall pre r post,
        Forall (fun x => code_taken (genCode x) (bookings db) = true) pre ->
        code_taken (genCode r) (bookings db) = false ->
        exists db' reply,
          create_booking (pre ++ r :: post) u business_id service_id date time db
          = Some (Done db' reply)
          /\ reply_confirmation_code reply = genCode r)
    /\ (forall draws,
           Forall (fun x => code_taken (genCode x) (bookings db) = true) draws ->
           create_booking draws u business_id service_id date time db = None).
Proof.
  intros u bid sid d t db slot service biz Hu Hslot Hserv Hbiz. split.
  - intros pre r post Hpre Hfree. unfold create_booking.
    rewrite Hu, Hslot, Hserv, Hbiz. simpl.
    rewrite (unused_code_ends _ pre r post Hpre Hfree).
    eexists. eexists. split; reflexivity.
  - intros draws Hall. unfold create_booking.
    rewrite Hu, Hslot, Hserv, Hbiz. simpl.
    assert (Hloop : unused_code (bookings db) draws = None).
    { induction Hall as [|x draws Hx _ IH]; simpl; [reflexivity|].
      rewrite Hx. exact IH. }
    rewrite Hloop. reflexivity.
Qed.

(** * The properties on the sample marketplace *)

Lemma unique_keys_published : unique_keys (availability Sample.published).
Proof.
  intros a a' Ha Ha' _. vm_compute in Ha, Ha'.
  destruct Ha as [<-|[]]. destruct Ha' as [<-|[]]. reflexivity.
Qed.

Lemma unique_keys_booked : unique_keys (availability Sample.booked).
Proof.
  intros a a' Ha Ha' _. vm_compute in Ha, Ha'.
  destruct Ha as [<-|[]]. destruct Ha' as [<-|[]]. reflexivity.
Qed.

Lemma unique_keys_town : unique_keys (availability Demo.town).
Proof.
  intros a a' Ha Ha' Hk. vm_compute in Ha, Ha'.
  destruct Ha as [<-|[<-|[<-|[]]]]; destruct Ha' as [<-|[<-|[<-|[]]]];
    first [reflexivity | vm_compute in Hk; discriminate Hk].
Qed.

Lemma ana_books_in_published :
  create_booking ["0.4fzyo82mvyr"%string] Sample.ana 1 1 Sample.day Sample.hour
                 Sample.published
  = Some (Done Sample.booked Demo.ana_reply).
Proof. vm_compute. reflexivity. Qed.

Lemma ana_books_in_town :
  create_booking ["0.4fzyo82mvyr"%string] Sample.ana 1 1 Sample.day Sample.hour
                 Demo.town
  = Some (Done Demo.town_booked Demo.ana_reply).
Proof. vm_compute. reflexivity. Qed.

Lemma luis_books_in_rejected :
  create_booking ["0.k3x9q1w7abc"%string] Sample.luis 1 1 Sample.day Sample.hour
                 Sample.rejected
  = Some (Done Sample.rebooked Demo.luis_reply).
Proof. vm_compute. reflexivity. Qed.

(** The owner of the studio asks for Ana's booking at the salon. *)
Lemma rival_cannot_touch_anas_booking :
  confirm Demo.rival 1 Sample.booked = Fail NotFound
  /\ reject Demo.rival 1 Sample.booked = Fail NotFound.
Proof.
  destruct (foreign_booking_not_found_for_business Demo.rival 1 Sample.booked
              eq_refl)
    as (H1 & H2 & _).
  - intros b Hin _. vm_compute in Hin. destruct Hin as [<-|[]].
    vm_compute. discriminate.
  - split; assumption.
Defined.

(** Luis asks to cancel and to rate Ana's haircut. *)
Lemma luis_cannot_touch_anas_booking :
  cancel Sample.Date_parse Sample.at_24h00 Sample.luis 1 Sample.completed
  = Fail NotFound
  /\ attach_review Sample.luis 1 (Some 5%float) None Sample.completed
     = Fail InvalidState.
Proof.
  destruct (foreign_booking_not_found_for_client Sample.Date_parse
              Sample.at_24h00 Sample.luis 1 (Some 5%float) None
              Sample.completed eq_refl)
    as (H1 & H2).
  - intros b Hin _. vm_compute in Hin. destruct Hin as [<-|[]].
    vm_compute. discriminate.
  - split; [exact H1|]. apply H2. vm_compute. reflexivity.
Defined.

(** Ana's booking after the owner rejected it. *)
Lemma rejected_booking_is_kept :
  exists b',
    nth_error (bookings Sample.rejected) 0 = Some b'
    /\ same_booking Sample.ana_booking b'.
Proof.
  apply (bookings_are_kept Sample.Date_parse (Reject Sample.owner 1)
           Sample.booked 0 Sample.ana_booking).
  vm_compute. reflexivity.
Defined.

(** The second reject of Ana's booking leaves the booking of Luis. *)
Lemma second_reject_leaves_the_booking_of_luis :
  nth_error (bookings Sample.rebooked) 1
  = nth_error (bookings Sample.rejected_again) 1
  /\ services Sample.rejected_again = services Sample.rebooked.
Proof.
  destruct (status_requests_touch_one_booking Sample.Date_parse
              (Reject Sample.owner 1) 1 Sample.rebooked eq_refl)
    as (Hrows & _ & _ & Hserv & _).
  split; [|exact Hserv].
  symmetry.
  apply (Hrows 1%nat
           (Booking.mk 2 8 1 1 1 Sample.day Sample.hour 40%float 6%float
                       "pending" 0%float "HF-K3X9Q1")).
  - vm_compute. reflexivity.
  - vm_compute. discriminate.
Defined.

(** The booking of Luis is appended behind Ana's. *)
Lemma booking_of_luis_is_new :
  exists row,
    bookings Sample.rebooked = bookings Sample.rejected ++ [row]
    /\ Booking.id row = 2
    /\ Booking.client_id row = 8
    /\ Booking.status row = "pending"%string.
Proof.
  destruct (created_booking_is_new _ _ _ _ _ _ _ _ _ luis_books_in_rejected)
    as (row & Hrows & Hid & _ & Hc & _ & _ & _ & Hst & _).
  exists row. repeat split; assumption.
Defined.

(** The massage of the studio cannot be booked at the salon. *)
Lemma massage_is_not_sold_by_the_salon :
  create_booking ["0.4fzyo82mvyr"%string] Sample.ana 1 4 Sample.day Sample.hour
                 Demo.town
  = Some (Fail ServiceNotFound).
Proof.
  apply (booking_needs_active_service _ Sample.ana 1 4 Sample.day Sample.hour
           Demo.town Demo.slot_at_ten).
  - reflexivity.
  - vm_compute. reflexivity.
  - intros s Hin Hid. vm_compute in Hin.
    destruct Hin as [<-|[<-|[<-|[<-|[]]]]];
      first [vm_compute in Hid; discriminate Hid
            | left; vm_compute; discriminate].
Defined.


(** Ana cancels 23h59 ahead, is charged 20, and Luis still finds the
    slot taken. *)
Lemma late_cancel_keeps_the_slot_from_luis :
  create_booking ["0.k3x9q1w7abc"%string] Sample.luis 1 1 Sample.day Sample.hour
    (db_after Sample.booked
       (cancel Sample.Date_parse Sample.at_23h59 Sample.ana 1 Sample.booked))
  = Some (Fail SlotUnavailable).
Proof.
  destruct (charged_cancel_frees_nothing Sample.Date_parse Sample.at_23h59
              Sample.ana 1 Sample.booked
              (db_after Sample.booked
                 (cancel Sample.Date_parse Sample.at_23h59 Sample.ana 1
                         Sample.booked))
              20%float)
    as [_ H].
  - vm_compute. reflexivity.
  - vm_compute. reflexivity.
  - apply (H ["0.k3x9q1w7abc"%string]). vm_compute. reflexivity.
Defined.

(** Ana cancels a day ahead and the slot is on offer again. *)
Lemma early_cancel_reopens_the_slot :
  get (available_slot 1 Sample.day Sample.hour)
      (availability
         (db_after Sample.booked
            (cancel Sample.Date_parse Sample.at_24h00 Sample.ana 1
                    Sample.booked)))
  = Some Demo.slot_at_ten.
Proof.
  destruct (free_cancel_reopens_slot Sample.Date_parse Sample.at_24h00
              Sample.ana 1 Sample.booked
              (db_after Sample.booked
                 (cancel Sample.Date_parse Sample.at_24h00 Sample.ana 1
                         Sample.booked))
              0%float Sample.ana_booking
              (Availability.mk 1 1 Sample.day Sample.hour "booked"))
    as [H _].
  - vm_compute. reflexivity.
  - vm_compute. reflexivity.
  - vm_compute. reflexivity.
  - exact unique_keys_booked.
  - vm_compute. left. reflexivity.
  - reflexivity.
  - vm_compute. reflexivity.
  - exact H.
Defined.

(** The owner edits the slot Ana holds, and the owner of the studio
    edits the same date and time: the row of the salon stays. *)
Lemma bulk_edit_leaves_the_slot_of_ana :
  nth_error
    (availability
       (db_after Sample.booked
          (upsert_many Sample.owner
             [Slot.mk Sample.day Sample.hour (Some "blocked"%string)]
             Sample.booked))) 0
  = Some (Availability.mk 1 1 Sample.day Sample.hour "booked")
  /\ nth_error
       (availability
          (db_after Demo.town
             (upsert_many Demo.rival
                [Slot.mk Sample.day Sample.hour (Some "blocked"%string)]
                Demo.town))) 0
     = Some Demo.slot_at_ten.
Proof.
  split.
  - destruct (upsert_many_leaves_booked_and_foreign_slots Sample.owner
                [Slot.mk Sample.day Sample.hour (Some "blocked"%string)]
                Sample.booked 0
                (Availability.mk 1 1 Sample.day Sample.hour "booked") eq_refl)
      as [H _].
    apply H. right. reflexivity.
  - destruct (upsert_many_leaves_booked_and_foreign_slots Demo.rival
                [Slot.mk Sample.day Sample.hour (Some "blocked"%string)]
                Demo.town 0 Demo.slot_at_ten eq_refl)
      as [H _].
    apply H. left. vm_compute. discriminate.
Defined.

(** The studio publishes a new slot and one it already has. *)
Lemma bulk_edit_of_the_studio_keeps_keys_unique :
  unique_keys
    (availability
       (db_after Demo.town
          (upsert_many Demo.rival
             [Slot.mk Sample.day "12:00" None;
              Slot.mk Sample.day Sample.hour (Some "blocked"%string)]
             Demo.town))).
Proof.
  destruct (upsert_many_keeps_keys_unique Demo.rival
              [Slot.mk Sample.day "12:00" None;
               Slot.mk Sample.day Sample.hour (Some "blocked"%string)]
              Demo.town unique_keys_town)
    as [H _].
  - vm_compute.
    repeat (constructor; [simpl; intuition discriminate|]). constructor.
  - exact H.
Defined.




(** The salon takes the haircut off its list; Ana asks for it. *)
Lemma haircut_off_the_list_is_not_booked :
  create_booking ["0.4fzyo82mvyr"%string] Sample.ana 1 1 Sample.day Sample.hour
    (store_after Demo.town
       (update_service Sample.owner 1 None None None (Some 0) Demo.town))
  = Some (Fail ServiceNotFound).
Proof.
  apply (switched_off_service_is_not_booked Sample.owner Sample.ana 1 None
           None None Demo.town _ 200 _ Sample.day Sample.hour
           Demo.slot_at_ten).
  - vm_compute. reflexivity.
  - reflexivity.
  - vm_compute. reflexivity.
Defined.

(** The salon raises the haircut to 45 after Ana booked it at 40; Luis
    books the slot an hour later at the new price. *)
Lemma new_price_of_the_haircut :
  exists db1 db2 reply row,
    update_service Sample.owner 1 None None (Some 45%float) None
                   Demo.town_booked
    = Sent db1 200 tt
    /\ create_booking ["0.k3x9q1w7abc"%string] Sample.luis 1 1 "2029-12-31"
                      "09:00" db1
       = Some (Done db2 reply)
    /\ bookings db2 = [Sample.ana_booking; row]
    /\ Booking.price row = 45%float.
Proof.
  pose (db1 := store_after Demo.town_booked
                 (update_service Sample.owner 1 None None (Some 45%float) None
                                 Demo.town_booked)).
  pose (run2 := create_booking ["0.k3x9q1w7abc"%string] Sample.luis 1 1
                               "2029-12-31" "09:00" db1).
  pose (db2 := Sample.after db1 run2).
  pose (reply := mkReply 2 "HF-K3X9Q1" "2029-12-31" "09:00" "Corte" 45%float
                         Demo.contact_of_salon (JS.Dec false 2250 2)).
  assert (H1 : update_service Sample.owner 1 None None (Some 45%float) None
                              Demo.town_booked
               = Sent db1 200 tt) by (vm_compute; reflexivity).
  assert (H2 : create_booking ["0.k3x9q1w7abc"%string] Sample.luis 1 1
                              "2029-12-31" "09:00" db1
               = Some (Done db2 reply)) by (vm_compute; reflexivity).
  destruct (price_change_reaches_new_bookings_only _ _ _ _ _ _ _ _ _ _ _ _ _ _
              _ H1 H2)
    as (_ & row & Hrows & _ & Hprice & _).
  exists db1, db2, reply, row.
  split; [exact H1|]. split; [exact H2|]. split; [exact Hrows | exact Hprice].
Defined.

(** The two businesses of the town, the studio (4.5) before the salon
    (0). *)
Lemma town_is_listed_best_first :
  map listing_id (search_businesses Demo.category None None None Demo.town)
  = [2; 1]
  /\ in_order (fun x y => PrimFloat.leb (listing_rating y) (listing_rating x))
              (search_businesses Demo.category None None None Demo.town).
Proof.
  split; [vm_compute; reflexivity|].
  apply (search_is_ordered_by_rating Demo.category None None None Demo.town).
  vm_compute. repeat constructor.
Defined.

(** The salon is listed from 0.005, the price of its sample. *)
Lemma salon_is_listed_from_its_cheapest :
  listing_min_price (listing_of Demo.category Sample.empty Sample.salon)
  = Some 0.005%float
  /\ forall s, In s (services Sample.empty) ->
               Service.business_id s = 1 -> Service.active s = 1 ->
               PrimFloat.leb 0.005 (Service.price s) = true.
Proof.
  destruct (listing_shows_the_lowest_price Demo.category Sample.empty
              Sample.salon)
    as [H _].
  - vm_compute. repeat constructor.
  - split; [vm_compute; reflexivity|].
    destruct (H 0.005%float) as [_ Hlow]; [vm_compute; reflexivity|].
    exact Hlow.
Defined.

(** The salon is found at ten before Ana books, and not after. *)
Lemma salon_leaves_the_search_at_ten :
  (exists l,
      In l (search_businesses Demo.category None (Some Sample.day)
                              (Some Sample.hour) Demo.town)
      /\ listing_id l = 1)
  /\ (forall l,
         In l (search_businesses Demo.category None (Some Sample.day)
                                 (Some Sample.hour) Demo.town_booked) ->
         listing_id l <> 1).
Proof.
  destruct (booked_slot_leaves_the_window Demo.category _ _ _ _ _ _
              "2029-12-31" None _ _ _ unique_keys_town ana_books_in_town)
    as (H1 & H2 & _).
  - vm_compute. discriminate.
  - vm_compute. discriminate.
  - split; [exact H1 | exact H2].
Defined.

(** A bearer header with the token of client 1. *)
Lemma bearer_token_is_read :
  auth Demo.verify (Some "Bearer client.1"%string)
  = inl (User.mk 1 client)
  /\ auth Demo.verify (Some "Bearer"%string) = inr 401.
Proof.
  destruct (auth_reads_the_second_word Demo.verify "Bearer" "client.1")
    as (H1 & _ & H3 & _).
  - vm_compute. reflexivity.
  - vm_compute. reflexivity.
  - discriminate.
  - split; [exact H1 | exact H3].
Defined.

(** A second registration under the email of Maria, and one under a new
    email. *)
Lemma email_of_maria_is_taken :
  register_client Demo.sign Demo.hashSync "s2" 6 (Some "Otra"%string)
                  (Some "maria@example.org"%string) (Some "clave"%string) None
                  [Demo.maria]
  = Rejected 409
  /\ NoDup (map Client.email
              (store_after [Demo.maria]
                 (register_client Demo.sign Demo.hashSync "s2" 6
                    (Some "Luis"%string) (Some "luis@example.org"%string)
                    (Some "clave"%string) None [Demo.maria]))).
Proof.
  assert (He : NoDup (map Client.email [Demo.maria])).
  { vm_compute. repeat (constructor; [simpl; intuition discriminate|]).
    constructor. }
  assert (Hi : NoDup (map Client.id [Demo.maria])).
  { vm_compute. repeat (constructor; [simpl; intuition discriminate|]).
    constructor. }
  split.
  - destruct (register_keeps_emails_unique Demo.sign Demo.hashSync "s2" 6
                (Some "Otra"%string) (Some "maria@example.org"%string)
                (Some "clave"%string) None [Demo.maria] He Hi)
      as (_ & _ & H).
    apply (H Demo.maria "maria@example.org"%string).
    + left. reflexivity.
    + reflexivity.
    + reflexivity.
    + vm_compute. discriminate.
    + vm_compute. discriminate.
    + discriminate.
  - destruct (register_keeps_emails_unique Demo.sign Demo.hashSync "s2" 6
                (Some "Luis"%string) (Some "luis@example.org"%string)
                (Some "clave"%string) None [Demo.maria] He Hi)
      as (H & _).
    exact H.
Defined.

(** Maria registers, logs in and shows her token. *)
Lemma maria_logs_in :
  login_client Demo.sign Demo.compareSync 9 (Some "maria@example.org"%string)
               (Some "secreto"%string) [Demo.maria]
  = Sent [Demo.maria] 200 ("client.1"%string, 1)
  /\ auth Demo.verify (Some "Bearer client.1"%string) = inl (User.mk 1 client)
  /\ login_client Demo.sign Demo.compareSync 9
                  (Some "maria@example.org"%string) (Some "otra"%string)
                  [Demo.maria]
     = Rejected 401.
Proof.
  destruct (registered_client_can_log_in Demo.verify Demo.sign Demo.hashSync
              Demo.compareSync "s1" 5 9 (Some "Maria"%string)
              (Some "maria@example.org"%string) (Some "secreto"%string) None
              [] [Demo.maria] 201 "client.1" 1)
    as (n & p & Hn & Hp & _ & Hlogin & Hauth & Hbad).
  - intros s p. apply String.eqb_refl.
  - vm_compute. reflexivity.
  - injection Hn as <-. injection Hp as <-.
    split; [exact Hlogin|]. split.
    + apply Hauth; [reflexivity | vm_compute; reflexivity | discriminate].
    + apply Hbad. vm_compute. reflexivity.
Defined.


(** The owner confirms Ana's booking. *)
Lemma owner_confirms_the_booking_of_ana :
  exists db',
    confirm Sample.owner 1 Sample.booked = Done db' tt
    /\ get (owned_by_business 1 Sample.owner) (bookings db')
       = Some (Booking.set_status "confirmed" Sample.ana_booking)
    /\ availability db' = availability Sample.booked.
Proof.
  destruct (confirm_sets_the_status Sample.owner 1 Sample.booked
              Sample.ana_booking eq_refl)
    as (db' & Hrun & Hget & Hslots & _).
  - vm_compute. reflexivity.
  - exists db'. split; [exact Hrun|]. split; [exact Hget | exact Hslots].
Defined.

(** Publish, book, reject once, book again: one holder of slot 1. *)
Lemma one_holder_after_a_single_reject :
    (List.length
       (holders 1
          (bookings
             (run Sample.Date_parse
                  [Upsert Sample.owner [Slot.mk Sample.day Sample.hour None];
                   Create ["0.4fzyo82mvyr"%string] Sample.ana 1 1 Sample.day
                          Sample.hour;
                   Reject Sample.owner 1;
                   Create ["0.k3x9q1w7abc"%string] Sample.luis 1 1 Sample.day
                          Sample.hour]
                  Sample.empty))) <= 1)%nat.
Proof.
  destruct (live_runs_never_double_book Sample.Date_parse
              [Upsert Sample.owner [Slot.mk Sample.day Sample.hour None];
               Create ["0.4fzyo82mvyr"%string] Sample.ana 1 1 Sample.day
                      Sample.hour;
               Reject Sample.owner 1;
               Create ["0.k3x9q1w7abc"%string] Sample.luis 1 1 Sample.day
                      Sample.hour]
              Sample.empty)
    as [H _].
  - apply consistent_empty; reflexivity.
  - cbn [all_on_live on_live_booking]. repeat split.
    intros b Hb. vm_compute in Hb. injection Hb as <-. reflexivity.
  - exact (H 1).
Defined.

(** Luis asks for the sample in the slot Ana has just booked. *)
Lemma luis_is_refused_after_ana :
  create_booking ["0.k3x9q1w7abc"%string] Sample.luis 1 2 Sample.day Sample.hour
                 Sample.booked
  = Some (Fail SlotUnavailable).
Proof.
  apply (second_booking_is_refused _ _ Sample.ana Sample.luis 1 1 2 Sample.day
           Sample.hour Sample.published Sample.booked Demo.ana_reply
           unique_keys_published eq_refl ana_books_in_published).
Defined.

(** Luis draws Ana's code first and a free one next. *)
Lemma luis_gets_the_second_code :
  exists db' reply,
    create_booking ["0.4fzyo82mvyr"%string; "0.k3x9q1w7abc"%string] Sample.luis
                   1 1 Sample.day Sample.hour Sample.rejected
    = Some (Done db' reply)
    /\ reply_confirmation_code reply = "HF-K3X9Q1"%string.
Proof.
  destruct (booking_succeeds_at_the_first_free_code Sample.luis 1 1 Sample.day
              Sample.hour Sample.rejected Demo.slot_at_ten Sample.haircut
              Sample.salon eq_refl)
    as [H _].
  - vm_compute. reflexivity.
  - vm_compute. reflexivity.
  - vm_compute. reflexivity.
  - destruct (H ["0.4fzyo82mvyr"%string] "0.k3x9q1w7abc"%string [])
      as (db' & reply & Hrun & Hcode).
    + constructor; [vm_compute; reflexivity | constructor].
    + vm_compute. reflexivity.
    + exists db', reply. split; [exact Hrun|].
      rewrite Hcode. vm_compute. reflexivity.
Defined.
